(** * SEO analyzer: link analysis, liveness probing and check aggregation

    A shallow embedding of [modules/analyzer.py], of [modules/fetcher.py]
    and of the HTML report of [modules/report.py].  Python strings are
    modelled as [string] (sequences of code points below 256), Python
    integers as [Z], [len] results as [nat], Python sets of strings as
    [gset string] and the [results] dictionary of [run_full_analysis] as
    [gmap string Value].  Network calls and clock readings go through an
    oracle that sees the trace of earlier calls; exceptions are values of
    an error monad, so that [try ... except Exception] is an operation of
    the model.  The calls of [urllib.parse] return or raise, and their
    exceptions travel as in the source: uncaught in the link and image
    loops, caught by the [try] of the security check. *)

From Stdlib Require Import ZArith String Ascii List Bool Lia Floats.
From stdpp Require Import base option list gmap strings sets pretty.

Local Open Scope Z_scope.
#[local] Set Warnings "-clear-no-such-hyp".

(** ** Python string methods used by the analyzer *)

(** [c.isspace()] for a code point below 256. *)
Definition isspace (c : ascii) : bool :=
  let n := nat_of_ascii c in
  (Nat.leb 9 n && Nat.leb n 13) || (Nat.leb 28 n && Nat.leb n 32)
  || Nat.eqb n 133 || Nat.eqb n 160.

Fixpoint str_lstrip (s : string) : string :=
  match s with
  | EmptyString => EmptyString
  | String c s' => if isspace c then str_lstrip s' else s
  end.

Fixpoint str_rstrip (s : string) : string :=
  match s with
  | EmptyString => EmptyString
  | String c s' =>
      match str_rstrip s' with
      | EmptyString => if isspace c then EmptyString else String c EmptyString
      | r => String c r
      end
  end.

(** [s.strip()] *)
Definition str_strip (s : string) : string := str_rstrip (str_lstrip s).

(** [s.startswith(p)] *)
Definition str_startswith (s p : string) : bool := String.prefix p s.

(** [c.lower()] for a code point below 256: ASCII capitals and the
    Latin-1 capitals (all of 192..222 but the multiplication sign 215). *)
Definition chr_lower (c : ascii) : ascii :=
  let n := nat_of_ascii c in
  if (Nat.leb 65 n && Nat.leb n 90)
     || (Nat.leb 192 n && Nat.leb n 222 && negb (Nat.eqb n 215))
  then ascii_of_nat (n + 32) else c.

(** [s.lower()] *)
Fixpoint str_lower (s : string) : string :=
  match s with
  | EmptyString => EmptyString
  | String c s' => String (chr_lower c) (str_lower s')
  end.

(** [s.split(sep)] for a one-character separator: never the empty list,
    [str_split "," ""] is the list holding the empty string. *)
Fixpoint str_split (sep : ascii) (s : string) : list string :=
  match s with
  | EmptyString => [EmptyString]
  | String c s' =>
      if Ascii.eqb c sep then EmptyString :: str_split sep s'
      else match str_split sep s' with
           | [] => [String c EmptyString]
           | w :: ws => String c w :: ws
           end
  end.

(** [x in l] for a list of strings. *)
Definition str_in (x : string) (l : list string) : bool :=
  existsb (String.eqb x) l.

(** [l[:m]] for a Python integer [m]: a negative bound counts from the end. *)
Definition slice_to {A} (l : list A) (m : Z) : list A :=
  if 0 <=? m then firstn (Z.to_nat m) l
  else firstn (Z.to_nat (Z.of_nat (length l) + m)) l.

(** ** The libraries the analyzer calls *)

(** An element of the parsed document, as the queries of the analyzer see
    it: its name, its attribute dictionary, [tag.string] and
    [tag.get_text(strip=True)]. *)
Record Tag := {
  tag_name : string;
  tag_attrs : gmap string string;
  tag_string : option string;
  tag_text : string
}.

(** [tag.get(key)] *)
Definition tag_get (t : Tag) (key : string) : option string :=
  tag_attrs t !! key.

(** The HTML parser and the regular expression engine.  [BeautifulSoup]
    gives the elements of the document in document order; [visible_text]
    is [soup.get_text(separator=" ", strip=True)] once the [script],
    [style] and [noscript] elements are extracted; [re_findall_words] is
    [re.findall(r"\b\w+\b", text)]. *)
Class PageLib := {
  BeautifulSoup : string → list Tag;
  visible_text : string → string;
  re_findall_words : string → list string
}.

(** An instance of Python's [Exception], as the libraries raise them;
    [exc_str e] is [str(e)]. *)
Record PyException := { exc_type : string; exc_str : string }.

(** A call that returns or raises. *)
Definition Exc (A : Type) : Type := PyException + A.

#[global] Instance Exc_ret : MRet Exc := λ A a, inr a.

#[global] Instance Exc_bind : MBind Exc := λ A B k m,
  match m with
  | inr a => k a
  | inl e => inl e
  end.

(** The two components of [urlparse(url)] the code reads. *)
Record ParseResult := { scheme : string; netloc : string }.

(** [urllib.parse]: [urlparse] and [urljoin].  Both raise [ValueError]
    on some strings (a network location with an unmatched bracket, for
    one), so both return or raise here. *)
Class UrlLib := {
  urlparse : string → Exc ParseResult;
  urljoin : string → string → Exc string
}.

(** [list(s)] for a set [s]: the iteration order of a Python set is not
    specified, so any duplicate-free enumeration of the elements. *)
Class SetOrder := {
  set_to_list : gset string → list string;
  set_to_list_NoDup : ∀ X, NoDup (set_to_list X);
  set_to_list_elem : ∀ X x, x ∈ set_to_list X ↔ x ∈ X
}.

(** ** Links: extraction and classification *)

(** [soup.find_all("a", href=True)]: the [a] elements that carry an
    [href] attribute, whatever its value. *)
Definition has_href (t : Tag) : bool :=
  String.eqb (tag_name t) "a" && bool_decide (is_Some (tag_get t "href")).

Definition find_all_a_href (soup : list Tag) : list Tag :=
  List.filter has_href soup.

(** The test of line 83 on a trimmed href. *)
Definition is_ignored (href : string) : bool :=
  str_startswith href "mailto:" || str_startswith href "javascript:"
  || str_startswith href "#".

(** The test of line 85 on a trimmed href. *)
Definition is_absolute (href : string) : bool :=
  str_startswith href "http://" || str_startswith href "https://".

Section Links.
Context `{!UrlLib}.

(** The body of the loop over [anchors], on the pair of sets
    [(internal, external)].  Every element of [anchors] has an [href]
    (see [find_all_a_href]), so [a.get("href")] is a string there.  The
    exceptions of [urlparse] and [urljoin] are not caught. *)
Definition link_step (base_url base_domain : string)
    (acc : gset string * gset string) (a : Tag)
    : Exc (gset string * gset string) :=
  match tag_get a "href" with
  | None => mret acc
  | Some raw =>
      let href := str_strip raw in
      if is_ignored href then mret acc
      else if is_absolute href then
        p ← urlparse href;
        if String.eqb (netloc p) base_domain
        then mret ({[href]} ∪ acc.1, acc.2)
        else mret (acc.1, {[href]} ∪ acc.2)
      else
        u ← urljoin base_url href;
        mret ({[u]} ∪ acc.1, acc.2)
  end.

(** [for a in anchors: ...] *)
Fixpoint link_loop (base_url base_domain : string) (anchors : list Tag)
    (acc : gset string * gset string) : Exc (gset string * gset string) :=
  match anchors with
  | [] => mret acc
  | a :: rest =>
      acc' ← link_step base_url base_domain acc a;
      link_loop base_url base_domain rest acc'
  end.

(** Lines 76 to 92: the base URL is parsed first, then the loop runs. *)
Definition collect_links (base_url : string) (anchors : list Tag)
    : Exc (gset string * gset string) :=
  parsed_base ← urlparse base_url;
  link_loop base_url (netloc parsed_base) anchors (∅, ∅).

End Links.

(** ** The network, the clock and exceptions *)

Record Request := {
  req_method : string;
  req_url : string;
  req_timeout : Z;
  req_allow_redirects : bool;
  req_stream : bool;
  req_user_agent : string
}.

Record Response := {
  status_code : Z;
  resp_headers : gmap string string
}.

(** What the program has done to the outside world so far. *)
Inductive Event :=
  | EvRequest (rq : Request)
  | EvContent (rq : Request)
  | EvTime.

(** The outside world: the answer to a call may depend on every earlier
    call.  [net_send] is [requests.request] (a response, or an exception),
    [net_content] the download behind [r.content], [clock] is
    [time.time()]; [py_int] and [py_round3] are [int(x)] and
    [round(x, 3)] on floats. *)
Class World := {
  net_send : list Event → Request → PyException + Response;
  net_content : list Event → Request → option PyException;
  clock : list Event → float;
  py_int : float → Z;
  py_round3 : float → float
}.

(** Computations that read the world, extend the trace and may raise. *)
Definition M (A : Type) : Type :=
  list Event → (PyException + A) * list Event.

#[global] Instance M_ret : MRet M := λ A a t, (inr a, t).

#[global] Instance M_bind : MBind M := λ A B k m t,
  match m t with
  | (inr a, t') => k a t'
  | (inl e, t') => (inl e, t')
  end.

Definition raise {A} (e : PyException) : M A := λ t, (inl e, t).

(** A call that touches nothing outside. *)
Definition lift {A} (x : Exc A) : M A := λ t, (x, t).

(** [try: body except Exception as e: handler e] *)
Definition try_except {A} (body : M A) (handler : PyException → M A) : M A :=
  λ t, match body t with
       | (inr a, t') => (inr a, t')
       | (inl e, t') => handler e t'
       end.

Definition user_agent : string := "SEO-Analyzer/1.0".

Definition head_request (u : string) : Request :=
  {| req_method := "HEAD"; req_url := u; req_timeout := 6;
     req_allow_redirects := true; req_stream := false;
     req_user_agent := user_agent |}.

Definition get_request (u : string) (timeout : Z) (stream : bool) : Request :=
  {| req_method := "GET"; req_url := u; req_timeout := timeout;
     req_allow_redirects := true; req_stream := stream;
     req_user_agent := user_agent |}.

Section Effects.
Context `{!World}.

Definition send (rq : Request) : M Response :=
  λ t, (net_send t rq, t ++ [EvRequest rq]).

(** [requests.head(u, timeout=6, allow_redirects=True, headers=...)] *)
Definition requests_head (u : string) : M Response := send (head_request u).

(** [requests.get(u, timeout=..., headers=...)], with [stream] or not *)
Definition requests_get (u : string) (timeout : Z) (stream : bool) : M Response :=
  send (get_request u timeout stream).

(** [r.content] on the response to [rq] *)
Definition response_content (rq : Request) : M unit :=
  λ t, (match net_content t rq with Some e => inl e | None => inr tt end,
        t ++ [EvContent rq]).

(** [time.time()] *)
Definition time_time : M float := λ t, (inr (clock t), t ++ [EvTime]).

(** ** The liveness probe *)

Definition check_url (u : string) : M (bool * option Z) :=
  try_except
    (r ← requests_head u;
     let code := status_code r in
     if 400 <=? code then mret (false, Some code)
     else mret (true, Some code))
    (λ _, mret (false, None)).

(** [for link in links: ok, code = check_url(link); if not ok:
    broken.append({"url": link, "status": code})] *)
Fixpoint check_links (links : list string) (broken : list (string * option Z))
    : M (list (string * option Z)) :=
  match links with
  | [] => mret broken
  | link :: rest =>
      '(ok, code) ← check_url link;
      check_links rest (if ok : bool then broken else broken ++ [(link, code)])
  end.

End Effects.

(** ** The analyzers *)

Record BasicResult := {
  title : string;
  title_length : nat;
  meta_description : string;
  meta_description_length : nat;
  h1 : list string;
  h2 : list string
}.

Record LinksResult := {
  total_links_on_page : nat;
  internal_links : list string;
  external_links : list string;
  broken_internal : list (string * option Z);
  broken_external : list (string * option Z)
}.

Record ImagesResult := {
  total_images : nat;
  missing_alt_count : nat;
  missing_alt_examples : list string;
  examples : list (string * string)
}.

Record SecurityResult := {
  https : bool;
  sec_status_code : option Z;
  sec_headers : gmap string string;
  sec_error : option string
}.

Record PerformanceResult := {
  time_to_first_byte : option float;
  total_download : option float;
  perf_status_code : option Z;
  perf_error : option string
}.

(** Truth value of a string: nonempty. *)
Definition str_truthy (s : string) : bool := negb (String.eqb s "").

Definition name_is (n : string) (t : Tag) : bool := String.eqb (tag_name t) n.

(** [soup.find("meta", attrs={key: "description"})] *)
Definition find_meta (key : string) (soup : list Tag) : option Tag :=
  List.find (λ t, name_is "meta" t
                  && bool_decide (tag_get t key = Some "description"%string)) soup.

Section PageAnalyzers.
Context `{!PageLib, !UrlLib}.

Definition analyze_basic (html : string) : BasicResult :=
  let soup := BeautifulSoup html in
  let title :=
    match List.find (name_is "title") soup with
    | Some t =>
        match tag_string t with
        | Some s => if str_truthy s then str_strip s else ""%string
        | None => ""%string
        end
    | None => ""%string
    end in
  let md :=
    match find_meta "name" soup with
    | Some m => Some m
    | None => find_meta "Name" soup
    end in
  let meta_desc :=
    match md with
    | Some m =>
        match tag_get m "content" with
        | Some c => if str_truthy c then str_strip c else ""%string
        | None => ""%string
        end
    | None => ""%string
    end in
  {| title := title;
     title_length := String.length title;
     meta_description := meta_desc;
     meta_description_length := String.length meta_desc;
     h1 := map tag_text (List.filter (name_is "h1") soup);
     h2 := map tag_text (List.filter (name_is "h2") soup) |}.

Definition analyze_word_count (html : string) : nat :=
  length (re_findall_words (visible_text html)).

(** The body of the loop over [imgs], on [(missing_alt, examples)]; the
    exception of [urljoin] is not caught. *)
Definition image_step (base_url : option string)
    (acc : list string * list (string * string)) (img : Tag)
    : Exc (list string * list (string * string)) :=
  let alt := str_strip (default ""%string (tag_get img "alt")) in
  let src := default ""%string (tag_get img "src") in
  src ← match base_url with
        | Some b =>
            if str_truthy src && str_truthy b
               && negb (str_startswith src "http")
            then urljoin b src else mret src
        | None => mret src
        end;
  let missing_alt := if str_truthy alt then acc.1 else acc.1 ++ [src] in
  let examples :=
    if (length acc.2 <? 10)%nat then acc.2 ++ [(src, alt)] else acc.2 in
  mret (missing_alt, examples).

(** [for img in imgs: ...] *)
Fixpoint image_loop (base_url : option string) (imgs : list Tag)
    (acc : list string * list (string * string))
    : Exc (list string * list (string * string)) :=
  match imgs with
  | [] => mret acc
  | img :: rest =>
      acc' ← image_step base_url acc img;
      image_loop base_url rest acc'
  end.

Definition analyze_images (html : string) (base_url : option string)
    : Exc ImagesResult :=
  let imgs := List.filter (name_is "img") (BeautifulSoup html) in
  r ← image_loop base_url imgs ([], []);
  mret {| total_images := length imgs;
          missing_alt_count := length r.1;
          missing_alt_examples := slice_to r.1 10;
          examples := r.2 |}.

End PageAnalyzers.

Section NetAnalyzers.
Context `{!PageLib, !UrlLib, !SetOrder, !World}.

Definition analyze_links (html base_url : string) (max_check_links : Z)
    : M LinksResult :=
  let anchors := find_all_a_href (BeautifulSoup html) in
  sets ← lift (collect_links base_url anchors);
  let internal := set_to_list sets.1 in
  let external := set_to_list sets.2 in
  bi ← check_links (slice_to internal max_check_links) [];
  be ← check_links (slice_to external max_check_links) [];
  mret {| total_links_on_page := length anchors;
          internal_links := internal;
          external_links := external;
          broken_internal := bi;
          broken_external := be |}.

(** The body of the [try] can raise in two places, [requests.get] and
    [urlparse]; what was assigned to [result] before stays in it, so each
    place is handled with the dictionary as it is there. *)
Definition analyze_security (url : string) : M SecurityResult :=
  let result := {| https := false; sec_status_code := None;
                   sec_headers := ∅; sec_error := None |} in
  try_except
    (r ← requests_get url 8 false;
     let result := {| https := https result;
                      sec_status_code := Some (status_code r);
                      sec_headers := resp_headers r;
                      sec_error := sec_error result |} in
     try_except
       (parsed ← lift (urlparse url);
        mret {| https := String.eqb (scheme parsed) "https";
                sec_status_code := sec_status_code result;
                sec_headers := sec_headers result;
                sec_error := sec_error result |})
       (λ e,
        mret {| https := https result;
                sec_status_code := sec_status_code result;
                sec_headers := sec_headers result;
                sec_error := Some (exc_str e) |}))
    (λ e,
     mret {| https := https result;
             sec_status_code := sec_status_code result;
             sec_headers := sec_headers result;
             sec_error := Some (exc_str e) |}).

Definition analyze_performance_simple (url : string) : M PerformanceResult :=
  let timings := {| time_to_first_byte := None; total_download := None;
                    perf_status_code := None; perf_error := None |} in
  try_except
    (start ← time_time;
     r ← requests_get url 12 true;
     first ← time_time;
     _ ← response_content (get_request url 12 true);
     end_ ← time_time;
     mret {| time_to_first_byte := Some (py_round3 (first - start)%float);
             total_download := Some (py_round3 (end_ - start)%float);
             perf_status_code := Some (status_code r);
             perf_error := perf_error timings |})
    (λ e,
     mret {| time_to_first_byte := time_to_first_byte timings;
             total_download := total_download timings;
             perf_status_code := perf_status_code timings;
             perf_error := Some (exc_str e) |}).

End NetAnalyzers.

(** ** The combined runner *)

(** The [checks] argument: [None], a comma-separated string, or a list. *)
Inductive ChecksArg :=
  | ChecksNone
  | ChecksStr (s : string)
  | ChecksList (l : list string).

Definition checks_truthy (checks : ChecksArg) : bool :=
  match checks with
  | ChecksNone => false
  | ChecksStr s => str_truthy s
  | ChecksList l => negb (bool_decide (l = []))
  end.

Definition all_checks : list string :=
  ["basic"; "wordcount"; "links"; "images"; "security"; "performance"]%string.

Definition clean_name (c : string) : string := str_lower (str_strip c).

(** Lines 195 to 201: the list bound to [checks]. *)
Definition resolve_checks (checks : ChecksArg) : list string :=
  if checks_truthy checks then
    match checks with
    | ChecksStr s => map clean_name (str_split "," s)
    | ChecksList l => map clean_name l
    | ChecksNone => all_checks
    end
  else all_checks.

(** The values stored in the [results] dictionary. *)
Inductive Value :=
  | VStr (s : string)
  | VInt (z : Z)
  | VStrList (l : list string)
  | VBasic (r : BasicResult)
  | VWordCount (n : nat)
  | VLinks (r : LinksResult)
  | VImages (r : ImagesResult)
  | VSecurity (r : SecurityResult)
  | VPerformance (r : PerformanceResult).

Section Runner.
Context `{!PageLib, !UrlLib, !SetOrder, !World}.

Definition run_full_analysis (html base_url : string) (checks : ChecksArg)
    : M (gmap string Value) :=
  let checks := resolve_checks checks in
  now ← time_time;
  let results : gmap string Value :=
    <["checks_run" := VStrList checks]>
      (<["timestamp" := VInt (py_int now)]>
         (<["url" := VStr base_url]> ∅)) in
  let results :=
    if str_in "basic" checks
    then <["basic" := VBasic (analyze_basic html)]> results else results in
  let results :=
    if str_in "wordcount" checks
    then <["word_count" := VWordCount (analyze_word_count html)]> results
    else results in
  results ←
    (if str_in "links" checks
     then r ← analyze_links html base_url 50;
          mret (<["links" := VLinks r]> results)
     else mret results);
  results ←
    (if str_in "images" checks
     then r ← lift (analyze_images html (Some base_url));
          mret (<["images" := VImages r]> results)
     else mret results);
  results ←
    (if str_in "security" checks
     then r ← analyze_security base_url;
          mret (<["security" := VSecurity r]> results)
     else mret results);
  results ←
    (if str_in "performance" checks
     then r ← analyze_performance_simple base_url;
          mret (<["performance" := VPerformance r]> results)
     else mret results);
  mret results.

End Runner.

(** ** The URL classifier of the specification *)

Inductive Classification :=
  | Internal (absolute_url : string)
  | External (absolute_url : string)
  | Ignored.

(** [classify] as section 4.1 of the specification words it, on the
    library calls of the code; the code has no such function, [link_step]
    is compared with it below. *)
Definition classify `{!UrlLib} (base_url raw_href : string)
    : Exc Classification :=
  let href := str_strip raw_href in
  if is_ignored href then mret Ignored
  else if is_absolute href then
    p ← urlparse href;
    b ← urlparse base_url;
    mret (if String.eqb (netloc p) (netloc b)
          then Internal href else External href)
  else
    u ← urljoin base_url href;
    mret (Internal u).

(** Step 2 of section 4.3: accumulate a classified href. *)
Definition accumulate (c : Classification) (acc : gset string * gset string)
    : gset string * gset string :=
  match c with
  | Internal u => ({[u]} ∪ acc.1, acc.2)
  | External u => (acc.1, {[u]} ∪ acc.2)
  | Ignored => acc
  end.

(** An anchor of the list classifies as [c]. *)
Definition yields `{!UrlLib} (base_url : string) (anchors : list Tag)
    (c : Classification) : Prop :=
  ∃ a raw, a ∈ anchors ∧ tag_get a "href" = Some raw
           ∧ classify base_url raw = inr c.

(** The library returns on the href of an anchor: the loop body does not
    raise there. *)
Definition href_resolves `{!UrlLib} (base_url : string) (a : Tag) : Prop :=
  ∀ raw, tag_get a "href" = Some raw → ∃ c, classify base_url raw = inr c.

(** The anchors the specification extracts in step 1 of section 4.3:
    those with a nonempty [href]. *)
Definition has_nonempty_href (t : Tag) : bool :=
  String.eqb (tag_name t) "a"
  && match tag_get t "href" with Some h => str_truthy h | None => false end.

(** The trimmed href of an anchor is one the loop skips. *)
Definition ignorable_anchor (t : Tag) : bool :=
  match tag_get t "href" with
  | Some raw => is_ignored (str_strip raw)
  | None => false
  end.

(** The HEAD requests in a trace, in order. *)
Definition probed_urls (t : list Event) : list string :=
  omap (λ ev, match ev with
              | EvRequest rq =>
                  if String.eqb (req_method rq) "HEAD"
                  then Some (req_url rq) else None
              | _ => None
              end) t.

(** What [check_url] returns for an answer of the network, and the trace
    of probing a list of links. *)
Definition outcome (answer : PyException + Response) : bool * option Z :=
  match answer with
  | inr r => (negb (400 <=? status_code r), Some (status_code r))
  | inl _ => (false, None)
  end.

Definition head_events (links : list string) : list Event :=
  map (λ u, EvRequest (head_request u)) links.

(** [if name in checks: results[key] = v] on the dictionary. *)
Definition put_if (b : bool) (key : string) (v : Value)
    (results : gmap string Value) : gmap string Value :=
  if b then <[key := v]> results else results.

(** The three entries every result has. *)
Definition base_results (base_url : string) (timestamp : Z)
    (checks : list string) : gmap string Value :=
  <["checks_run" := VStrList checks]>
    (<["timestamp" := VInt timestamp]> (<["url" := VStr base_url]> ∅)).

(** Placeholders for the sub-results of checks that were not selected. *)
Definition no_links : LinksResult :=
  {| total_links_on_page := 0; internal_links := []; external_links := [];
     broken_internal := []; broken_external := [] |}.

Definition no_images : ImagesResult :=
  {| total_images := 0; missing_alt_count := 0; missing_alt_examples := [];
     examples := [] |}.

Definition no_security : SecurityResult :=
  {| https := false; sec_status_code := None; sec_headers := ∅;
     sec_error := None |}.

Definition no_performance : PerformanceResult :=
  {| time_to_first_byte := None; total_download := None;
     perf_status_code := None; perf_error := None |}.

(** The dictionary [run_full_analysis] builds from the sub-results. *)
Definition results_of `{!PageLib} (base_url : string) (timestamp : Z)
    (checks : list string) (html : string) (rl : LinksResult)
    (ri : ImagesResult) (rs : SecurityResult) (rp : PerformanceResult)
    : gmap string Value :=
  put_if (str_in "performance" checks) "performance" (VPerformance rp)
    (put_if (str_in "security" checks) "security" (VSecurity rs)
       (put_if (str_in "images" checks) "images"
          (VImages ri)
          (put_if (str_in "links" checks) "links" (VLinks rl)
             (put_if (str_in "wordcount" checks) "word_count"
                (VWordCount (analyze_word_count html))
                (put_if (str_in "basic" checks) "basic"
                   (VBasic (analyze_basic html))
                   (base_results base_url timestamp checks)))))).

(** The field of [results] a check name fills, if the name is known. *)
Definition field_of_check (name : string) : option string :=
  if String.eqb name "basic" then Some "basic"%string
  else if String.eqb name "wordcount" then Some "word_count"%string
  else if String.eqb name "links" then Some "links"%string
  else if String.eqb name "images" then Some "images"%string
  else if String.eqb name "security" then Some "security"%string
  else if String.eqb name "performance" then Some "performance"%string
  else None.

(** ** A small executable instance of the libraries

    Enough of the libraries to run the analyzer on sample pages: URLs of
    the shape [scheme://host/path], scheme-relative, root-relative and
    plain relative references without dot segments; a network location
    with one bracket and not the other raises [ValueError]. *)
Module Sample.

Fixpoint break_at (p : ascii → bool) (s : string) : string * string :=
  match s with
  | EmptyString => (EmptyString, EmptyString)
  | String c s' =>
      if p c then (EmptyString, s)
      else let r := break_at p s' in (String c r.1, r.2)
  end.

Definition scheme_chr (c : ascii) : bool :=
  let n := nat_of_ascii c in
  (Nat.leb 97 n && Nat.leb n 122) || (Nat.leb 65 n && Nat.leb n 90)
  || (Nat.leb 48 n && Nat.leb n 57)
  || Nat.eqb n 43 || Nat.eqb n 45 || Nat.eqb n 46.

Fixpoint str_forall (p : ascii → bool) (s : string) : bool :=
  match s with
  | EmptyString => true
  | String c s' => p c && str_forall p s'
  end.

(** The scheme of a URL and what follows its colon. *)
Definition split_scheme (url : string) : string * string :=
  let r := break_at (Ascii.eqb ":") url in
  match r.2 with
  | String _ rest =>
      if str_truthy r.1 && str_forall scheme_chr r.1
      then (str_lower r.1, rest) else (EmptyString, url)
  | EmptyString => (EmptyString, url)
  end.

Definition path_delim (c : ascii) : bool :=
  Ascii.eqb c "/" || Ascii.eqb c "?" || Ascii.eqb c "#".

Definition after_slashes (rest : string) : option string :=
  match rest with
  | String "/" (String "/" r) => Some r
  | _ => None
  end.

Definition host (url : string) : string :=
  match after_slashes (split_scheme url).2 with
  | Some r => (break_at path_delim r).1
  | None => EmptyString
  end.

Definition value_error : PyException :=
  {| exc_type := "ValueError"; exc_str := "Invalid IPv6 URL" |}.

Fixpoint str_has (c : ascii) (s : string) : bool :=
  match s with
  | EmptyString => false
  | String c' s' => Ascii.eqb c c' || str_has c s'
  end.

(** One bracket without the other in the network location. *)
Definition bad_brackets (url : string) : bool :=
  xorb (str_has "[" (host url)) (str_has "]" (host url)).

Definition parse (url : string) : Exc ParseResult :=
  if bad_brackets url then inl value_error
  else inr {| scheme := (split_scheme url).1; netloc := host url |}.

Definition path (url : string) : string :=
  match after_slashes (split_scheme url).2 with
  | Some r => (break_at path_delim r).2
  | None => (split_scheme url).2
  end.

(** A path up to and including its last slash. *)
Fixpoint dirname (p : string) : string :=
  match p with
  | EmptyString => EmptyString
  | String c p' =>
      match dirname p' with
      | EmptyString => if Ascii.eqb c "/" then String c EmptyString else EmptyString
      | d => String c d
      end
  end.

Definition join (base url : string) : Exc string :=
  if negb (str_truthy base) then inr url
  else if negb (str_truthy url) then inr base
  else if bad_brackets base || bad_brackets url then inl value_error
  else
    let b := split_scheme base in
    let u := split_scheme url in
    if str_truthy u.1 && negb (String.eqb u.1 b.1) then inr url
    else match after_slashes u.2 with
         | Some _ => inr (b.1 +:+ ":" +:+ u.2)
         | None =>
             if str_startswith u.2 "/"
             then inr (b.1 +:+ "://" +:+ host base +:+ u.2)
             else inr (b.1 +:+ "://" +:+ host base
                       +:+ (if str_truthy (dirname (path base))
                            then dirname (path base) else "/"%string)
                       +:+ u.2)
         end.

#[local] Instance urls : UrlLib :=
  {| urlparse := parse; urljoin := join |}.

(** Sets enumerated in the order of [elements]. *)
#[local] Instance order : SetOrder :=
  {| set_to_list := elements;
     set_to_list_NoDup := NoDup_elements;
     set_to_list_elem := λ X x, elem_of_elements X x |}.

Definition anchor (href : string) : Tag :=
  {| tag_name := "a"; tag_attrs := {[ "href"%string := href ]};
     tag_string := None; tag_text := ""%string |}.

(** The page of the end-to-end scenario of the specification. *)
Definition page1 : string :=
  "<html><a href=#top>x</a><a href=/p>y</a><a href=https://ext.com>z</a></html>".

(** A page whose only anchor has an empty [href]. *)
Definition page2 : string := "<a href>x</a>".

(** Three relative links. *)
Definition page3 : string := "<a href=a>1</a><a href=b>2</a><a href=c>3</a>".

(** A fragment link and an anchor with an empty [href]. *)
Definition page4 : string := "<a href=#x>1</a><a href>2</a>".

(** A link whose network location opens a bracket and never closes it. *)
Definition page5 : string := "<a href=#t>1</a><a href=http://[>2</a>".

(** A parser that knows the sample pages. *)
#[local] Instance pages : PageLib :=
  {| BeautifulSoup := λ html,
       if String.eqb html page1
       then [anchor "#top"; anchor "/p"; anchor "https://ext.com"]
       else if String.eqb html page2 then [anchor ""]
       else if String.eqb html page3 then [anchor "a"; anchor "b"; anchor "c"]
       else if String.eqb html page4 then [anchor "#x"; anchor ""]
       else if String.eqb html page5 then [anchor "#t"; anchor "http://["]
       else [];
     visible_text := λ html, html;
     re_findall_words := λ text,
       List.filter str_truthy (str_split " " text) |}.

Definition refused : PyException :=
  {| exc_type := "ConnectionError"; exc_str := "connection refused" |}.

(** One live internal page; everything else refuses the connection. *)
#[local] Instance world : World :=
  {| net_send := λ _ rq,
       if String.eqb (req_url rq) "https://site.com/p"
       then inr {| status_code := 200; resp_headers := ∅ |}
       else if String.eqb (req_url rq) "https://site.com"
       then inr {| status_code := 404; resp_headers := ∅ |}
       else inl refused;
     net_content := λ _ _, None;
     clock := λ t, PrimFloat.of_uint63 (Uint63.of_Z (Z.of_nat (length t)));
     py_int := λ x, 0;
     py_round3 := λ x, x |}.

(** The network is down. *)
Definition offline : World :=
  {| net_send := λ _ _, inl refused;
     net_content := λ _ _, None;
     clock := λ t, PrimFloat.of_uint63 (Uint63.of_Z (Z.of_nat (length t)));
     py_int := λ x, 0;
     py_round3 := λ x, x |}.

End Sample.

(** ** Images: the entry of one element *)

(** [(img.get("alt") or "").strip()] *)
Definition image_alt (img : Tag) : string :=
  str_strip (default ""%string (tag_get img "alt")).

(** The [src] the loop of [analyze_images] reports for an element. *)
Definition image_src `{!UrlLib} (base_url : option string) (img : Tag)
    : Exc string :=
  let src := default ""%string (tag_get img "src") in
  match base_url with
  | Some b =>
      if str_truthy src && str_truthy b && negb (str_startswith src "http")
      then urljoin b src else mret src
  | None => mret src
  end.

(** The GET requests in a trace, in order. *)
Definition get_requests (t : list Event) : list Request :=
  omap (λ ev, match ev with
              | EvRequest rq =>
                  if String.eqb (req_method rq) "GET" then Some rq else None
              | _ => None
              end) t.

(** ** modules/fetcher.py *)

Definition fetcher_user_agent : string :=
  "Mozilla/5.0 (compatible; SEO-Analyzer/1.0; +https://github.com/yourname/seo-analyzer)".

(** [requests.get(url, headers=DEFAULT_HEADERS, timeout=timeout)] *)
Definition fetcher_request (u : string) (timeout : Z) : Request :=
  {| req_method := "GET"; req_url := u; req_timeout := timeout;
     req_allow_redirects := true; req_stream := false;
     req_user_agent := fetcher_user_agent |}.

(** What the fetcher needs of [requests] besides the calls themselves:
    the test [isinstance(e, RequestException)], the [HTTPError] that
    [raise_for_status] raises (a [RequestException]), and [r.text] of the
    response to a request. *)
Class RequestsLib := {
  is_RequestException : PyException → bool;
  http_error : Request → Response → PyException;
  http_error_is_RequestException :
    ∀ rq r, is_RequestException (http_error rq r) = true;
  response_text : list Event → Request → string
}.

(** [try: body except C as e: handler e] for a class [C] of exceptions:
    the others propagate. *)
Definition try_except_if {A} (caught : PyException → bool) (body : M A)
    (handler : PyException → M A) : M A :=
  λ t, match body t with
       | (inr a, t') => (inr a, t')
       | (inl e, t') => if caught e then handler e t' else (inl e, t')
       end.

(** The values of the dictionaries [check_robots] returns. *)
Inductive RobotsValue :=
  | RBool (b : bool)
  | RInt (z : Z)
  | RStr (s : string).

Section Fetcher.
Context `{!UrlLib, !World, !RequestsLib}.

(** [r.raise_for_status()]: client and server error codes raise. *)
Definition raise_for_status (rq : Request) (r : Response) : M unit :=
  if (400 <=? status_code r) && (status_code r <? 600)
  then raise (http_error rq r) else mret tt.

(** [r.text] *)
Definition text_of (rq : Request) : M string :=
  λ t, (inr (response_text t rq), t).

(** [fetch_page(url, timeout)]; [out] is what was printed so far, the
    result carries what is printed after the call. *)
Definition fetch_page (url : string) (timeout : Z) (out : list string)
    : M (option string * list string) :=
  try_except_if is_RequestException
    (r ← send (fetcher_request url timeout);
     _ ← raise_for_status (fetcher_request url timeout) r;
     text ← text_of (fetcher_request url timeout);
     mret (Some text, out))
    (λ e, mret (None,
                out ++ ["[ERROR] Could not fetch " +:+ url +:+ ": "
                        +:+ exc_str e])).

(** [f"{parsed.scheme}://{parsed.netloc}/robots.txt"] *)
Definition robots_url (parsed : ParseResult) : string :=
  scheme parsed +:+ "://" +:+ netloc parsed +:+ "/robots.txt".

(** [check_robots(base_url, timeout)] *)
Definition check_robots (base_url : string) (timeout : Z)
    : M (gmap string RobotsValue) :=
  try_except_if is_RequestException
    (parsed ← lift (urlparse base_url);
     let url := robots_url parsed in
     r ← send (fetcher_request url timeout);
     if status_code r =? 200
     then text ← text_of (fetcher_request url timeout);
          mret (<["url" := RStr url]>
                  (<["content" := RStr text]>
                     (<["found" := RBool true]> ∅)))
     else mret (<["url" := RStr url]>
                  (<["status_code" := RInt (status_code r)]>
                     (<["found" := RBool false]> ∅))))
    (λ _, mret (<["found" := RBool false]> ∅)).

End Fetcher.

(** [sub in s] for strings. *)
Fixpoint str_contains (s sub : string) : bool :=
  String.prefix sub s
  || match s with
     | EmptyString => false
     | String _ s' => str_contains s' sub
     end.

(** The line boundaries of [str.splitlines] below code point 256. *)
Definition is_linebreak (c : ascii) : bool :=
  let n := nat_of_ascii c in
  (Nat.leb 10 n && Nat.leb n 13) || (Nat.leb 28 n && Nat.leb n 30)
  || Nat.eqb n 133.

(** [s.splitlines()]: a carriage return followed by a line feed is one
    boundary, and a boundary at the end opens no further line. *)
Fixpoint str_splitlines (s : string) : list string :=
  match s with
  | EmptyString => []
  | String c s' =>
      if is_linebreak c then
        EmptyString ::
          str_splitlines
            (if Ascii.eqb c "013"
             then match s' with
                  | String "010" s'' => s''
                  | _ => s'
                  end
             else s')
      else match str_splitlines s' with
           | [] => [String c EmptyString]
           | l :: ls => String c l :: ls
           end
  end.

(** [s.split(":", 1)[1]]: what follows the first colon, if there is one. *)
Fixpoint after_colon (s : string) : option string :=
  match s with
  | EmptyString => None
  | String c s' => if Ascii.eqb c ":" then Some s' else after_colon s'
  end.

Definition index_error : PyException :=
  {| exc_type := "IndexError"; exc_str := "list index out of range" |}.

Section Sitemap.
Context `{!UrlLib, !World, !RequestsLib}.

(** [f"{parsed.scheme}://{parsed.netloc}"] *)
Definition site_root (parsed : ParseResult) : string :=
  scheme parsed +:+ "://" +:+ netloc parsed.

(** The loop over the lines of robots.txt: the first line that starts with
    sitemap: in any case decides. *)
Fixpoint first_sitemap_line (lines : list string)
    : M (option (gmap string RobotsValue)) :=
  match lines with
  | [] => mret None
  | line :: rest =>
      if str_startswith (str_lower line) "sitemap:"
      then match after_colon line with
           | Some u =>
               mret (Some (<["url" := RStr (str_strip u)]>
                             (<["found" := RBool true]> ∅)))
           | None => raise index_error
           end
      else first_sitemap_line rest
  end.

(** The first [try] block of [fetch_sitemap]; [None] when it falls
    through to the second. *)
Definition sitemap_xml_step (root : string) (timeout : Z)
    : M (option (gmap string RobotsValue)) :=
  try_except_if is_RequestException
    (url ← lift (urljoin root "/sitemap.xml");
     r ← send (fetcher_request url timeout);
     if status_code r =? 200
     then text ← text_of (fetcher_request url timeout);
          if str_contains text "<urlset"
          then url' ← lift (urljoin root "/sitemap.xml");
               mret (Some (<["content" := RStr text]>
                             (<["url" := RStr url']>
                                (<["found" := RBool true]> ∅))))
          else mret None
     else mret None)
    (λ _, mret None).

(** The second [try] block. *)
Definition sitemap_robots_step (root : string) (timeout : Z)
    : M (option (gmap string RobotsValue)) :=
  try_except_if is_RequestException
    (url ← lift (urljoin root "/robots.txt");
     rob ← send (fetcher_request url timeout);
     if status_code rob =? 200
     then text ← text_of (fetcher_request url timeout);
          first_sitemap_line (str_splitlines text)
     else mret None)
    (λ _, mret None).

(** [fetch_sitemap(base_url, timeout)] *)
Definition fetch_sitemap (base_url : string) (timeout : Z)
    : M (gmap string RobotsValue) :=
  parsed ← lift (urlparse base_url);
  let root := site_root parsed in
  found ← sitemap_xml_step root timeout;
  match found with
  | Some d => mret d
  | None =>
      found ← sitemap_robots_step root timeout;
      match found with
      | Some d => mret d
      | None => mret (<["found" := RBool false]> ∅)
      end
  end.

End Sitemap.

(** The dictionary found in robots.txt for the text after the colon. *)
Definition robots_hit (u : string) : gmap string RobotsValue :=
  <["url" := RStr (str_strip u)]> (<["found" := RBool true]> ∅).

(** The line [fetch_page] prints for an exception. *)
Definition fetch_error_line (url : string) (e : PyException) : string :=
  "[ERROR] Could not fetch " +:+ url +:+ ": " +:+ exc_str e.

(** ** modules/report.py: the HTML report *)

(** [str(x)] of a float, [repr(s)] of a string and [str(d)] of a
    dictionary of headers. *)
Class FormatLib := {
  float_str : float → string;
  str_repr : string → string;
  headers_str : gmap string string → string
}.

(** [str] of the other values the report formats. *)
Definition nat_str (n : nat) : string := pretty n.
Definition int_str (z : Z) : string := pretty z.
Definition bool_str (b : bool) : string := if b then "True" else "False".
Definition opt_str {A} (f : A → string) (o : option A) : string :=
  match o with Some x => f x | None => "None" end.

(** [self.results] when it is a dictionary of [run_full_analysis]: every
    key it has is bound to a value of the kind the analyzers store there.
    Dictionaries of another shape are outside this model. *)
Record Results := {
  res_url : option string;
  res_basic : option BasicResult;
  res_word_count : option nat;
  res_links : option LinksResult;
  res_images : option ImagesResult;
  res_security : option SecurityResult;
  res_performance : option PerformanceResult
}.

Definition typed_results (d : gmap string Value) : option Results :=
  url ← match d !! "url" with
        | None => Some None | Some (VStr u) => Some (Some u) | _ => None
        end;
  basic ← match d !! "basic" with
          | None => Some None | Some (VBasic b) => Some (Some b) | _ => None
          end;
  wc ← match d !! "word_count" with
       | None => Some None | Some (VWordCount n) => Some (Some n) | _ => None
       end;
  links ← match d !! "links" with
          | None => Some None | Some (VLinks l) => Some (Some l) | _ => None
          end;
  images ← match d !! "images" with
           | None => Some None | Some (VImages i) => Some (Some i) | _ => None
           end;
  sec ← match d !! "security" with
        | None => Some None | Some (VSecurity x) => Some (Some x) | _ => None
        end;
  perf ← match d !! "performance" with
         | None => Some None | Some (VPerformance x) => Some (Some x)
         | _ => None
         end;
  Some {| res_url := url; res_basic := basic; res_word_count := wc;
          res_links := links; res_images := images; res_security := sec;
          res_performance := perf |}.

(** [str(sec.get(key))] for the dictionary [analyze_security] returns,
    [None] when the dictionary has no such key. *)
Definition security_get `{!FormatLib} (sec : SecurityResult) (key : string)
    : option string :=
  if String.eqb key "https" then Some (bool_str (https sec))
  else if String.eqb key "status_code"
  then Some (opt_str int_str (sec_status_code sec))
  else if String.eqb key "headers" then Some (headers_str (sec_headers sec))
  else if String.eqb key "error"
  then Some (opt_str (λ e, e) (sec_error sec))
  else None.

Section Report.
Context `{!FormatLib}.

(** [str(b)] of an entry of broken_internal. *)
Definition broken_str (b : string * option Z) : string :=
  "{'url': " +:+ str_repr b.1 +:+ ", 'status': " +:+ opt_str int_str b.2
  +:+ "}".

(** The list [s] of [_build_html] before it is joined.  The dash of the
    images and performance lines is outside the code points below 256 and
    stands here as its UTF-8 bytes. *)
Definition build_html_parts (r : Results) : list string :=
  ["<html><head><meta charset='utf-8'><title>SEO Report</title></head><body>";
   "<h1>SEO Analyzer Report for " +:+ default "" (res_url r) +:+ "</h1>";
   "<h2>Meta & Headings</h2><ul>";
   "<li><strong>Title:</strong> "
     +:+ from_option title "" (res_basic r) +:+ "</li>";
   "<li><strong>Title length:</strong> "
     +:+ from_option (λ b, nat_str (title_length b)) "" (res_basic r)
     +:+ "</li>";
   "<li><strong>Meta description:</strong> "
     +:+ from_option meta_description "" (res_basic r) +:+ "</li>";
   "<li><strong>H1 count:</strong> "
     +:+ nat_str (from_option (λ b, length (h1 b)) 0%nat (res_basic r))
     +:+ "</li>";
   "</ul>"]%string
  ++ match res_word_count r with
     | Some wc => ["<h2>Word Count</h2><p>" +:+ nat_str wc +:+ "</p>"]%string
     | None => []
     end
  ++ match res_links r with
     | Some links =>
         ["<h2>Links</h2>";
          "<p>Total on page: " +:+ nat_str (total_links_on_page links)
            +:+ "</p>";
          "<h3>Broken Internal</h3>";
          "<ul>"]%string
         ++ map (λ b, "<li>" +:+ broken_str b +:+ "</li>")%string
              (broken_internal links)
         ++ ["</ul>"]%string
     | None => []
     end
  ++ match res_images r with
     | Some images =>
         ["<h2>Images</h2>";
          "<p>Total images: " +:+ nat_str (total_images images)
            +:+ " — Missing alt: " +:+ nat_str (missing_alt_count images)
            +:+ "</p>"]%string
     | None => []
     end
  ++ match res_security r with
     | Some sec =>
         ["<h2>Security</h2>";
          "<p>HTTPS: " +:+ opt_str (λ x, x) (security_get sec "https")
            +:+ ", Status: " +:+ opt_str (λ x, x) (security_get sec "status")
            +:+ "</p>"]%string
     | None => []
     end
  ++ match res_performance r with
     | Some perf =>
         ["<h2>Performance</h2>";
          "<p>TTFB: " +:+ opt_str float_str (time_to_first_byte perf)
            +:+ "s — Total download: "
            +:+ opt_str float_str (total_download perf) +:+ "s</p>"]%string
     | None => []
     end
  ++ ["</body></html>"%string].

(** [_build_html()] *)
Definition build_html (r : Results) : string :=
  String.concat (String "010" EmptyString) (build_html_parts r).

End Report.

Module SampleReport.

#[local] Instance formats : FormatLib :=
  {| float_str := λ _, "0.0"%string;
     str_repr := λ s, ("'" +:+ s +:+ "'")%string;
     headers_str := λ _, "{}"%string |}.

End SampleReport.

Module SampleFetch.

(** Connection failures and HTTP errors are request exceptions. *)
#[local] Instance lib : RequestsLib :=
  {| is_RequestException := λ e,
       String.eqb (exc_type e) "ConnectionError"
       || String.eqb (exc_type e) "HTTPError";
     http_error := λ _ _,
       {| exc_type := "HTTPError"; exc_str := "client or server error" |};
     http_error_is_RequestException := λ _ _, eq_refl;
     response_text := λ _ rq, "<html>" +:+ req_url rq +:+ "</html>" |}.

(** An image without alt, one with a blank alt, one with a text. *)
Definition img (src : string) (alt : option string) : Tag :=
  {| tag_name := "img";
     tag_attrs := match alt with
                  | Some a => <["alt"%string := a]> {[ "src"%string := src ]}
                  | None => {[ "src"%string := src ]}
                  end;
     tag_string := None; tag_text := ""%string |}.

Definition gallery : string := "<img src=a.png><img src=b.png alt= ><img src=c.png alt=c>".

#[local] Instance pages : PageLib :=
  {| BeautifulSoup := λ html,
       if String.eqb html gallery
       then [img "a.png" None; img "b.png" (Some " "%string);
             img "c.png" (Some "c"%string)]
       else [];
     visible_text := λ html, html;
     re_findall_words := λ text,
       List.filter str_truthy (str_split " " text) |}.

End SampleFetch.

(** * Properties *)

(** ** Strings and slices *)

Lemma prefix_cons_eq (a c : ascii) (p h : string) :
  String.prefix (String a p) (String c h) = true → a = c.
Proof.
  cbn [String.prefix]. destruct (ascii_dec a c); [done|discriminate].
Qed.

Lemma prefix_cons_ne (a c : ascii) (p h : string) :
  a ≠ c → String.prefix (String a p) (String c h) = false.
Proof.
  intros Hne. cbn [String.prefix]. destruct (ascii_dec a c); done.
Qed.

Lemma absolute_not_ignored (h : string) :
  is_absolute h = true → is_ignored h = false.
Proof.
  unfold is_absolute, is_ignored, str_startswith. intros Habs.
  destruct h as [|c h]; [discriminate|].
  assert (c = "h"%char) as ->.
  { apply orb_true_iff in Habs as [Hp|Hp];
      apply prefix_cons_eq in Hp; congruence. }
  rewrite !prefix_cons_ne by discriminate. reflexivity.
Qed.

Lemma slice_to_nonneg {A} (l : list A) (m : Z) :
  0 ≤ m → slice_to l m = firstn (Z.to_nat m) l.
Proof. intros Hm. unfold slice_to. destruct (Z.leb_spec 0 m); [done|lia]. Qed.

Lemma slice_to_prefix {A} (l : list A) (m : Z) :
  ∃ n, slice_to l m = firstn n l.
Proof. unfold slice_to. destruct (0 <=? m); eauto. Qed.

Lemma slice_to_sublist {A} (l : list A) (m : Z) : slice_to l m `sublist_of` l.
Proof. destruct (slice_to_prefix l m) as [n ->]. apply sublist_take. Qed.

(** ** The probe *)

Section ProbeFacts.
Context `{!World}.

Lemma check_url_run (u : string) (t : list Event) :
  check_url u t =
    (inr (outcome (net_send t (head_request u))),
     t ++ [EvRequest (head_request u)]).
Proof.
  unfold check_url, try_except, requests_head, send, mbind, M_bind, outcome.
  destruct (net_send t (head_request u)) as [e|r]; simpl; [reflexivity|].
  destruct (400 <=? status_code r); reflexivity.
Qed.

Lemma check_links_run (links : list string) :
  ∀ broken t, ∃ found,
    check_links links broken t = (inr (broken ++ found), t ++ head_events links)
    ∧ map fst found `sublist_of` links
    ∧ Forall (λ uc, ∃ t', outcome (net_send t' (head_request uc.1)) = (false, uc.2))
             found.
Proof.
  induction links as [|u links IH]; intros broken t; simpl.
  - exists []. rewrite !app_nil_r. split; [reflexivity|]. split; constructor.
  - unfold mbind, M_bind. rewrite check_url_run.
    destruct (outcome (net_send t (head_request u))) as [ok code] eqn:Ho.
    destruct ok.
    + destruct (IH broken (t ++ [EvRequest (head_request u)])) as (found & -> & Hs & Hf).
      exists found. rewrite <- app_assoc. split; [reflexivity|].
      split; [by apply sublist_cons|done].
    + destruct (IH (broken ++ [(u, code)]) (t ++ [EvRequest (head_request u)]))
        as (found & -> & Hs & Hf).
      exists ((u, code) :: found). rewrite <- !app_assoc. split; [reflexivity|].
      split; [by apply sublist_skip|].
      constructor; [by exists t|done].
Qed.

Lemma probed_urls_app (t1 t2 : list Event) :
  probed_urls (t1 ++ t2) = probed_urls t1 ++ probed_urls t2.
Proof. unfold probed_urls. apply omap_app. Qed.

Lemma probed_urls_head_events (links : list string) :
  probed_urls (head_events links) = links.
Proof. induction links as [|u links IH]; simpl; [done|]. by f_equal. Qed.

(** C3: [check_url] always returns; it reports a live URL exactly when
    the network answered with a status code below 400, attaches the
    status code of any answer, and turns any exception of the request
    into [(False, None)]. *)
Theorem check_url_liveness (u : string) (t : list Event) :
  ∃ ok code,
    check_url u t = (inr (ok, code), t ++ [EvRequest (head_request u)])
    ∧ (ok = true ↔
       ∃ r, net_send t (head_request u) = inr r ∧ status_code r < 400)
    ∧ (∀ r, net_send t (head_request u) = inr r → code = Some (status_code r))
    ∧ (∀ e, net_send t (head_request u) = inl e → ok = false ∧ code = None).
Proof.
  rewrite check_url_run.
  destruct (net_send t (head_request u)) as [e|r] eqn:Hn; simpl.
  - exists false, None. split; [reflexivity|]. split; [|split].
    + split; [discriminate|]. intros (r & Hr & _). discriminate.
    + intros r Hr. discriminate.
    + done.
  - exists (negb (400 <=? status_code r)), (Some (status_code r)).
    split; [reflexivity|]. split; [|split].
    + rewrite negb_true_iff, Z.leb_gt. split.
      * intros Hlt. by exists r.
      * intros (r' & [= <-] & Hlt). done.
    + by intros r' [= <-].
    + intros e He. discriminate.
Qed.

End ProbeFacts.

(** ** Collecting the links of a page *)

Lemma size_add_le (x : string) (X : gset string) :
  (size ({[x]} ∪ X) ≤ S (size X))%nat.
Proof.
  destruct (decide (x ∈ X)) as [Hin|Hout].
  - assert ({[x]} ∪ X = X) as -> by set_solver. lia.
  - rewrite size_union by set_solver. rewrite size_singleton. lia.
Qed.

Lemma set_to_list_length `{!SetOrder} (X : gset string) :
  length (set_to_list X) = size X.
Proof.
  unfold size, set_size. simpl. apply Permutation_length.
  apply NoDup_Permutation.
  - apply set_to_list_NoDup.
  - apply NoDup_elements.
  - intros x. rewrite set_to_list_elem, elem_of_elements. done.
Qed.

Lemma find_all_a_href_elem (soup : list Tag) (a : Tag) :
  a ∈ find_all_a_href soup ↔
  a ∈ soup ∧ tag_name a = "a"%string ∧ is_Some (tag_get a "href").
Proof.
  unfold find_all_a_href, has_href.
  rewrite !list_elem_of_In, filter_In, andb_true_iff, String.eqb_eq,
    bool_decide_eq_true.
  tauto.
Qed.

(** Binding in [Exc], when the result is known. *)
Lemma exc_bind_inr {A B} (m : Exc A) (k : A → Exc B) (b : B) :
  (x ← m; k x) = inr b ↔ ∃ a, m = inr a ∧ k a = inr b.
Proof.
  unfold mbind, Exc_bind. destruct m as [e|a]; split.
  - discriminate.
  - intros (a & [=] & _).
  - eauto.
  - by intros (a' & [= <-] & Hk).
Qed.

Lemma exc_bind_inl {A B} (m : Exc A) (k : A → Exc B) (e : PyException) :
  (x ← m; k x) = inl e ↔ m = inl e ∨ ∃ a, m = inr a ∧ k a = inl e.
Proof.
  unfold mbind, Exc_bind. destruct m as [e'|a]; split.
  - intros [= <-]. by left.
  - intros [[= <-]|(a & [=] & _)]. done.
  - intros Hk. right. eauto.
  - intros [[=]|(a' & [= <-] & Hk)]. done.
Qed.

Section LinkFacts.
Context `{!UrlLib}.

(** The loop body is the classifier followed by the accumulation. *)
Lemma link_step_classify (base_url : string) (pb : ParseResult) (a : Tag)
    (raw : string) (acc : gset string * gset string) :
  urlparse base_url = inr pb →
  tag_get a "href" = Some raw →
  link_step base_url (netloc pb) acc a
  = (c ← classify base_url raw; mret (accumulate c acc)).
Proof.
  intros Hb Hraw. unfold link_step, classify. rewrite Hraw. cbv zeta.
  destruct (is_ignored (str_strip raw)); [reflexivity|].
  destruct (is_absolute (str_strip raw)).
  - destruct (urlparse (str_strip raw)) as [e|p]; [reflexivity|].
    unfold mbind, Exc_bind, mret, Exc_ret. rewrite Hb.
    destruct (String.eqb _ _); reflexivity.
  - destruct (urljoin base_url (str_strip raw)); reflexivity.
Qed.

Lemma link_step_no_href (base_url base_domain : string) (a : Tag)
    (acc : gset string * gset string) :
  tag_get a "href" = None →
  link_step base_url base_domain acc a = inr acc.
Proof. intros Hraw. unfold link_step. by rewrite Hraw. Qed.

(** What a step that returns has done. *)
Lemma link_step_inr (base_url : string) (pb : ParseResult) (a : Tag)
    (acc acc' : gset string * gset string) :
  urlparse base_url = inr pb →
  link_step base_url (netloc pb) acc a = inr acc' →
  (tag_get a "href" = None ∧ acc' = acc)
  ∨ ∃ raw c, tag_get a "href" = Some raw ∧ classify base_url raw = inr c
             ∧ acc' = accumulate c acc.
Proof.
  intros Hb Hstep. destruct (tag_get a "href") as [raw|] eqn:Hraw.
  - right. rewrite (link_step_classify _ pb _ raw) in Hstep by done.
    apply exc_bind_inr in Hstep as (c & Hc & [= <-]). eauto.
  - left. rewrite link_step_no_href in Hstep by done.
    injection Hstep as <-. done.
Qed.

(** A step returns exactly when the library returns on the href. *)
Lemma link_step_returns (base_url : string) (pb : ParseResult) (a : Tag)
    (acc : gset string * gset string) :
  urlparse base_url = inr pb →
  (∃ acc', link_step base_url (netloc pb) acc a = inr acc') ↔
  href_resolves base_url a.
Proof.
  intros Hb. unfold href_resolves. split.
  - intros (acc' & Hstep) raw Hraw.
    destruct (link_step_inr _ _ _ _ _ Hb Hstep)
      as [(Hn & _)|(raw' & c & Hraw' & Hc & _)]; [congruence|].
    exists c. congruence.
  - intros Hres. destruct (tag_get a "href") as [raw|] eqn:Hraw.
    + destruct (Hres raw eq_refl) as (c & Hc).
      rewrite (link_step_classify _ pb _ raw) by done. rewrite Hc. eauto.
    + rewrite link_step_no_href by done. eauto.
Qed.

Lemma link_step_inl (base_url : string) (pb : ParseResult) (a : Tag)
    (acc : gset string * gset string) (e : PyException) :
  urlparse base_url = inr pb →
  link_step base_url (netloc pb) acc a = inl e →
  ∃ raw, tag_get a "href" = Some raw ∧ classify base_url raw = inl e.
Proof.
  intros Hb Hstep. destruct (tag_get a "href") as [raw|] eqn:Hraw.
  - exists raw. split; [done|].
    rewrite (link_step_classify _ pb _ raw) in Hstep by done.
    apply exc_bind_inl in Hstep as [?|(c & _ & [=])]. done.
  - rewrite link_step_no_href in Hstep by done. discriminate.
Qed.

Lemma yields_cons (base_url : string) (a : Tag) (anchors : list Tag)
    (c : Classification) :
  yields base_url (a :: anchors) c ↔
  (∃ raw, tag_get a "href" = Some raw ∧ classify base_url raw = inr c)
  ∨ yields base_url anchors c.
Proof.
  unfold yields. split.
  - intros (a' & raw & Hin & Hraw & Hc).
    apply elem_of_cons in Hin as [->|Hin]; [left; eauto|right; eauto].
  - intros [(raw & Hraw & Hc)|(a' & raw & Hin & Hraw & Hc)].
    + exists a, raw. split; [apply elem_of_cons; by left|done].
    + exists a', raw. split; [apply elem_of_cons; by right|done].
Qed.

(** The sets after a loop that returns. *)
Lemma link_loop_elem (base_url : string) (pb : ParseResult)
    (anchors : list Tag) :
  urlparse base_url = inr pb →
  ∀ acc r u,
    link_loop base_url (netloc pb) anchors acc = inr r →
    (u ∈ r.1 ↔ u ∈ acc.1 ∨ yields base_url anchors (Internal u))
    ∧ (u ∈ r.2 ↔ u ∈ acc.2 ∨ yields base_url anchors (External u)).
Proof.
  intros Hb.
  induction anchors as [|a anchors IH]; intros acc r u Hrun; simpl in Hrun.
  - injection Hrun as <-. unfold yields.
    split; (split; [by left|]);
      (intros [?|(a & raw & Hin & _)]; [done|by apply elem_of_nil in Hin]).
  - apply exc_bind_inr in Hrun as (acc' & Hstep & Hrun).
    destruct (IH acc' r u Hrun) as [IH1 IH2].
    rewrite IH1, IH2, !yields_cons. clear IH IH1 IH2 Hrun.
    destruct (link_step_inr _ _ _ _ _ Hb Hstep)
      as [(Hn & ->)|(raw & c & Hraw & Hc & ->)].
    + split; (split; [intros [?|?]; eauto|]);
        (intros [?|[(raw & ? & _)|?]]; [eauto|congruence|eauto]).
    + destruct c as [v|v|]; simpl;
        rewrite ?elem_of_union, ?elem_of_singleton.
      all: split; split.
      all: try (intros [[->|?]|?]; eauto 6; fail).
      all: try (intros [?|?]; eauto; fail).
      all: intros [?|[(raw' & Hraw' & Hc')|?]];
        [eauto|try (left; left); congruence|eauto].
Qed.

(** The loop returns exactly when every step does, and an exception of
    the loop is an exception of the library on one of the hrefs. *)
Lemma link_loop_returns (base_url : string) (pb : ParseResult)
    (anchors : list Tag) :
  urlparse base_url = inr pb →
  ∀ acc,
    (∃ r, link_loop base_url (netloc pb) anchors acc = inr r) ↔
    Forall (href_resolves base_url) anchors.
Proof.
  intros Hb. induction anchors as [|a anchors IH]; intros acc; simpl.
  - split; [constructor|eauto].
  - rewrite Forall_cons. split.
    + intros (r & (acc' & Hstep & Hrun)%exc_bind_inr). split.
      * apply (link_step_returns _ pb _ acc); eauto.
      * apply (IH acc'). eauto.
    + intros [Ha Hrest].
      apply (link_step_returns _ pb _ acc Hb) in Ha as (acc' & Hstep).
      apply (IH acc') in Hrest as (r & Hrun).
      exists r. apply exc_bind_inr. eauto.
Qed.

Lemma link_loop_inl (base_url : string) (pb : ParseResult)
    (anchors : list Tag) (e : PyException) :
  urlparse base_url = inr pb →
  ∀ acc,
    link_loop base_url (netloc pb) anchors acc = inl e →
    ∃ a raw, a ∈ anchors ∧ tag_get a "href" = Some raw
             ∧ classify base_url raw = inl e.
Proof.
  intros Hb. induction anchors as [|a anchors IH]; intros acc; simpl.
  - discriminate.
  - intros [Hstep|(acc' & _ & Hrun)]%exc_bind_inl.
    + destruct (link_step_inl _ _ _ _ _ Hb Hstep) as (raw & Hraw & Hc).
      exists a, raw. split; [apply list_elem_of_here|done].
    + destruct (IH _ Hrun) as (a' & raw & Hin & Hraw & Hc).
      exists a', raw. split; [by apply list_elem_of_further|done].
Qed.

Lemma collect_links_inr (base_url : string) (anchors : list Tag)
    (sets : gset string * gset string) :
  collect_links base_url anchors = inr sets ↔
  ∃ pb, urlparse base_url = inr pb
        ∧ link_loop base_url (netloc pb) anchors (∅, ∅) = inr sets.
Proof. unfold collect_links. apply exc_bind_inr. Qed.

Lemma collect_links_elem (base_url : string) (anchors : list Tag)
    (sets : gset string * gset string) :
  collect_links base_url anchors = inr sets →
  (∀ u, u ∈ sets.1 ↔ yields base_url anchors (Internal u))
  ∧ (∀ u, u ∈ sets.2 ↔ yields base_url anchors (External u)).
Proof.
  intros (pb & Hb & Hloop)%collect_links_inr.
  split; intros u;
    destruct (link_loop_elem _ _ _ Hb _ _ u Hloop) as [H1 H2];
    [rewrite H1|rewrite H2]; simpl; set_solver.
Qed.

Lemma collect_links_returns (base_url : string) (anchors : list Tag) :
  (∃ sets, collect_links base_url anchors = inr sets) ↔
  (∃ pb, urlparse base_url = inr pb)
  ∧ Forall (href_resolves base_url) anchors.
Proof.
  split.
  - intros (sets & (pb & Hb & Hloop)%collect_links_inr).
    split; [eauto|]. apply (link_loop_returns _ pb _ Hb (∅, ∅)). eauto.
  - intros [(pb & Hb) Hall].
    apply (link_loop_returns _ pb _ Hb (∅, ∅)) in Hall as (r & Hloop).
    exists r. apply collect_links_inr. eauto.
Qed.

Lemma collect_links_inl (base_url : string) (anchors : list Tag)
    (e : PyException) :
  collect_links base_url anchors = inl e →
  urlparse base_url = inl e
  ∨ ∃ a raw, a ∈ anchors ∧ tag_get a "href" = Some raw
             ∧ classify base_url raw = inl e.
Proof.
  unfold collect_links.
  intros [Hb|(pb & Hb & Hloop)]%exc_bind_inl; [by left|right].
  by apply (link_loop_inl _ pb _ _ Hb (∅, ∅)).
Qed.

(** Skipped anchors leave the sets alone and call no library function. *)
Lemma link_step_ignored (base_url base_domain : string) (a : Tag)
    (acc : gset string * gset string) :
  ignorable_anchor a = true →
  link_step base_url base_domain acc a = inr acc.
Proof.
  unfold ignorable_anchor, link_step.
  destruct (tag_get a "href") as [raw|]; [|done].
  by intros ->.
Qed.

Lemma link_loop_drop_ignored (base_url base_domain : string)
    (anchors : list Tag) :
  ∀ acc,
    link_loop base_url base_domain anchors acc
    = link_loop base_url base_domain
        (List.filter (λ a, negb (ignorable_anchor a)) anchors) acc.
Proof.
  induction anchors as [|a anchors IH]; intros acc; simpl; [done|].
  destruct (ignorable_anchor a) eqn:Hi; simpl.
  - rewrite link_step_ignored by done. apply IH.
  - destruct (link_step base_url base_domain acc a); [done|apply IH].
Qed.

Lemma collect_links_drop_ignored (base_url : string) (anchors : list Tag) :
  collect_links base_url anchors
  = collect_links base_url
      (List.filter (λ a, negb (ignorable_anchor a)) anchors).
Proof.
  unfold collect_links. destruct (urlparse base_url) as [e|pb]; [done|].
  apply link_loop_drop_ignored.
Qed.

(** Every anchor adds at most one URL, a skipped one none. *)
Lemma link_loop_size (base_url base_domain : string) (anchors : list Tag) :
  ∀ acc r,
    link_loop base_url base_domain anchors acc = inr r →
    (size r.1 + size r.2 + length (List.filter ignorable_anchor anchors)
     ≤ size acc.1 + size acc.2 + length anchors)%nat.
Proof.
  induction anchors as [|a anchors IH]; intros acc r Hrun; simpl in Hrun.
  - injection Hrun as <-. simpl. lia.
  - apply exc_bind_inr in Hrun as (acc' & Hstep & Hrun).
    specialize (IH acc' r Hrun). simpl.
    destruct (ignorable_anchor a) eqn:Hi; simpl.
    + rewrite link_step_ignored in Hstep by done. injection Hstep as <-. lia.
    + assert (size acc'.1 + size acc'.2 ≤ S (size acc.1 + size acc.2))%nat;
        [|lia].
      clear IH Hrun Hi. unfold link_step in Hstep.
      destruct (tag_get a "href") as [raw|];
        [|injection Hstep as <-; lia].
      destruct (is_ignored _); [injection Hstep as <-; lia|].
      destruct (is_absolute _).
      * apply exc_bind_inr in Hstep as (p & _ & Hstep).
        destruct (String.eqb _ _); injection Hstep as <-; simpl.
        -- pose proof (size_add_le (str_strip raw) acc.1). lia.
        -- pose proof (size_add_le (str_strip raw) acc.2). lia.
      * apply exc_bind_inr in Hstep as (u & _ & [= <-]). simpl.
        pose proof (size_add_le u acc.1). lia.
Qed.

Lemma collect_links_size (base_url : string) (anchors : list Tag)
    (sets : gset string * gset string) :
  collect_links base_url anchors = inr sets →
  (size sets.1 + size sets.2 + length (List.filter ignorable_anchor anchors)
   ≤ length anchors)%nat.
Proof.
  intros (pb & _ & Hloop)%collect_links_inr.
  apply link_loop_size in Hloop. cbn [fst snd] in Hloop.
  rewrite size_empty in Hloop. lia.
Qed.

(** The classifier on an href that is not ignored. *)
Lemma classify_internal (base_url raw u : string) :
  classify base_url raw = inr (Internal u) ↔
  is_ignored (str_strip raw) = false
  ∧ ((is_absolute (str_strip raw) = true
      ∧ (∃ p pb, urlparse (str_strip raw) = inr p
                 ∧ urlparse base_url = inr pb ∧ netloc p = netloc pb)
      ∧ u = str_strip raw)
     ∨ (is_absolute (str_strip raw) = false
        ∧ urljoin base_url (str_strip raw) = inr u)).
Proof.
  unfold classify. cbv zeta.
  destruct (is_ignored (str_strip raw)).
  { split; [discriminate|]. by intros [[=] _]. }
  destruct (is_absolute (str_strip raw)).
  - destruct (urlparse (str_strip raw)) as [e|p].
    { split; [discriminate|].
      intros [_ [(_ & (p & pb & [=] & _) & _)|[[=] _]]]. }
    destruct (urlparse base_url) as [e|pb].
    { split; [discriminate|].
      intros [_ [(_ & (p' & pb & _ & [=] & _) & _)|[[=] _]]]. }
    unfold mbind, Exc_bind, mret, Exc_ret.
    destruct (String.eqb_spec (netloc p) (netloc pb)) as [Heq|Hne]; split.
    + intros [= <-]. split; [done|]. left. eauto 8.
    + by intros [_ [(_ & _ & ->)|[[=] _]]].
    + discriminate.
    + intros [_ [(_ & (p' & pb' & [= <-] & [= <-] & Heq) & _)|[[=] _]]].
      done.
  - destruct (urljoin base_url (str_strip raw)) as [e|v]; split.
    + discriminate.
    + intros [_ [[[=] _]|[_ [=]]]].
    + intros [= <-]. split; [done|]. by right.
    + intros [_ [[[=] _]|[_ [= <-]]]]. done.
Qed.

Lemma classify_external (base_url raw u : string) :
  classify base_url raw = inr (External u) ↔
  is_ignored (str_strip raw) = false
  ∧ is_absolute (str_strip raw) = true
  ∧ (∃ p pb, urlparse (str_strip raw) = inr p
             ∧ urlparse base_url = inr pb ∧ netloc p ≠ netloc pb)
  ∧ u = str_strip raw.
Proof.
  unfold classify. cbv zeta.
  destruct (is_ignored (str_strip raw)).
  { split; [discriminate|]. by intros [[=] _]. }
  destruct (is_absolute (str_strip raw)).
  - destruct (urlparse (str_strip raw)) as [e|p].
    { split; [discriminate|]. intros (_ & _ & (p & pb & [=] & _) & _). }
    destruct (urlparse base_url) as [e|pb].
    { split; [discriminate|]. intros (_ & _ & (p' & pb & _ & [=] & _) & _). }
    unfold mbind, Exc_bind, mret, Exc_ret.
    destruct (String.eqb_spec (netloc p) (netloc pb)) as [Heq|Hne]; split.
    + discriminate.
    + intros (_ & _ & (p' & pb' & [= <-] & [= <-] & Hne) & _). done.
    + intros [= <-]. eauto 10.
    + by intros (_ & _ & _ & ->).
  - destruct (urljoin base_url (str_strip raw)) as [e|v]; split;
      try discriminate; by intros (_ & [=] & _).
Qed.

Lemma classify_ignored (base_url raw : string) :
  is_ignored (str_strip raw) = true → classify base_url raw = inr Ignored.
Proof. intros Hi. unfold classify. by rewrite Hi. Qed.

End LinkFacts.

(** ** The link analyzer *)

Section AnalyzerFacts.
Context `{!PageLib, !UrlLib, !SetOrder, !World}.

(** The run of [analyze_links]: an exception of the library leaves before
    any probe; otherwise the lists are the two sets in enumeration order
    and the trace grows by the probes of the two slices. *)
Lemma analyze_links_run (html base_url : string) (m : Z) (t : list Event) :
  let anchors := find_all_a_href (BeautifulSoup html) in
  match collect_links base_url anchors with
  | inl e => analyze_links html base_url m t = (inl e, t)
  | inr sets =>
      let il := set_to_list sets.1 in
      let el := set_to_list sets.2 in
      ∃ bi be,
        analyze_links html base_url m t
        = (inr {| total_links_on_page := length anchors;
                  internal_links := il; external_links := el;
                  broken_internal := bi; broken_external := be |},
           t ++ head_events (slice_to il m) ++ head_events (slice_to el m))
        ∧ map fst bi `sublist_of` slice_to il m
        ∧ map fst be `sublist_of` slice_to el m
        ∧ Forall (λ uc, ∃ t', outcome (net_send t' (head_request uc.1))
                              = (false, uc.2)) bi
        ∧ Forall (λ uc, ∃ t', outcome (net_send t' (head_request uc.1))
                              = (false, uc.2)) be
  end.
Proof.
  intros anchors. unfold analyze_links, lift. fold anchors.
  unfold mbind, M_bind.
  destruct (collect_links base_url anchors) as [e|sets]; [reflexivity|].
  cbn beta iota zeta.
  set (il := set_to_list sets.1). set (el := set_to_list sets.2).
  destruct (check_links_run (slice_to il m) [] t) as (bi & -> & Hbi & Hfi).
  destruct (check_links_run (slice_to el m) []
              (t ++ head_events (slice_to il m))) as (be & -> & Hbe & Hfe).
  exists bi, be. simpl. rewrite <- app_assoc. done.
Qed.

(** What a run that returns has done. *)
Lemma analyze_links_inr (html base_url : string) (m : Z) (t : list Event)
    (res : LinksResult) (t' : list Event) :
  analyze_links html base_url m t = (inr res, t') →
  ∃ sets,
    collect_links base_url (find_all_a_href (BeautifulSoup html)) = inr sets
    ∧ total_links_on_page res = length (find_all_a_href (BeautifulSoup html))
    ∧ internal_links res = set_to_list sets.1
    ∧ external_links res = set_to_list sets.2
    ∧ t' = t ++ head_events (slice_to (internal_links res) m)
             ++ head_events (slice_to (external_links res) m)
    ∧ map fst (broken_internal res) `sublist_of` slice_to (internal_links res) m
    ∧ map fst (broken_external res) `sublist_of` slice_to (external_links res) m
    ∧ Forall (λ uc, ∃ t', outcome (net_send t' (head_request uc.1))
                          = (false, uc.2)) (broken_internal res)
    ∧ Forall (λ uc, ∃ t', outcome (net_send t' (head_request uc.1))
                          = (false, uc.2)) (broken_external res).
Proof.
  intros Hrun. pose proof (analyze_links_run html base_url m t) as Hr.
  cbv zeta in Hr.
  destruct (collect_links base_url (find_all_a_href (BeautifulSoup html)))
    as [e|sets]; [congruence|].
  destruct Hr as (bi & be & Hrun' & Hbi & Hbe & Hfi & Hfe).
  rewrite Hrun in Hrun'. injection Hrun' as -> ->.
  exists sets. simpl. done.
Qed.

(** A run raises exactly when the library does, and then the trace is as
    it was. *)
Lemma analyze_links_inl (html base_url : string) (m : Z) (t : list Event)
    (e : PyException) (t' : list Event) :
  analyze_links html base_url m t = (inl e, t') ↔
  collect_links base_url (find_all_a_href (BeautifulSoup html)) = inl e
  ∧ t' = t.
Proof.
  pose proof (analyze_links_run html base_url m t) as Hr. cbv zeta in Hr.
  destruct (collect_links base_url (find_all_a_href (BeautifulSoup html)))
    as [e'|sets].
  - rewrite Hr. split; [by intros [= <- <-]|by intros [[= <-] ->]].
  - destruct Hr as (bi & be & -> & _). split; [discriminate|by intros [[=] _]].
Qed.

Lemma analyze_links_returns (html base_url : string) (m : Z) (t : list Event) :
  (∃ res t', analyze_links html base_url m t = (inr res, t')) ↔
  ∃ sets,
    collect_links base_url (find_all_a_href (BeautifulSoup html)) = inr sets.
Proof.
  split.
  - intros (res & t' & (sets & Hc & _)%analyze_links_inr). eauto.
  - intros (sets & Hc).
    pose proof (analyze_links_run html base_url m t) as Hr. cbv zeta in Hr.
    rewrite Hc in Hr. destruct Hr as (bi & be & Hrun & _). eauto.
Qed.

(** Where the entries of the two lists come from. *)
Lemma links_membership (html base_url : string) (m : Z) (t : list Event)
    (res : LinksResult) (t' : list Event) :
  analyze_links html base_url m t = (inr res, t') →
  ∃ pb, urlparse base_url = inr pb
    ∧ (∀ u, u ∈ internal_links res ↔
         ∃ a raw, a ∈ BeautifulSoup html ∧ tag_name a = "a"%string
           ∧ tag_get a "href" = Some raw
           ∧ is_ignored (str_strip raw) = false
           ∧ ((is_absolute (str_strip raw) = true
               ∧ (∃ p, urlparse (str_strip raw) = inr p
                       ∧ netloc p = netloc pb)
               ∧ u = str_strip raw)
              ∨ (is_absolute (str_strip raw) = false
                 ∧ urljoin base_url (str_strip raw) = inr u)))
    ∧ (∀ u, u ∈ external_links res ↔
         ∃ a raw, a ∈ BeautifulSoup html ∧ tag_name a = "a"%string
           ∧ tag_get a "href" = Some raw
           ∧ is_ignored (str_strip raw) = false
           ∧ is_absolute (str_strip raw) = true
           ∧ (∃ p, urlparse (str_strip raw) = inr p
                   ∧ netloc p ≠ netloc pb)
           ∧ u = str_strip raw).
Proof.
  intros (sets & Hc & _ & -> & -> & _)%analyze_links_inr.
  pose proof Hc as (pb & Hb & _)%collect_links_inr.
  destruct (collect_links_elem _ _ _ Hc) as [Hint Hext].
  exists pb. split; [exact Hb|]. split; intros u.
  - rewrite set_to_list_elem, Hint. unfold yields. split.
    + intros (a & raw & Hin & Hraw & Hcl).
      apply find_all_a_href_elem in Hin as (Hin & Hname & _).
      exists a, raw. do 3 (split; [done|]).
      apply classify_internal in Hcl as [Hi Hcase]. split; [done|].
      destruct Hcase as [(Habs & (p & pb' & Hp & Hb' & Heq) & ->)|?];
        [left|by right].
      rewrite Hb in Hb'. injection Hb' as <-. eauto.
    + intros (a & raw & Hin & Hname & Hraw & Hign & Hcase).
      exists a, raw. split; [apply find_all_a_href_elem; eauto|].
      split; [done|]. apply classify_internal. split; [done|].
      destruct Hcase as [(Habs & (p & Hp & Heq) & ->)|?]; [left|by right].
      eauto 8.
  - rewrite set_to_list_elem, Hext. unfold yields. split.
    + intros (a & raw & Hin & Hraw & Hcl).
      apply find_all_a_href_elem in Hin as (Hin & Hname & _).
      exists a, raw. do 3 (split; [done|]).
      apply classify_external
        in Hcl as (Hi & Habs & (p & pb' & Hp & Hb' & Hne) & ->).
      rewrite Hb in Hb'. injection Hb' as <-. eauto 8.
    + intros (a & raw & Hin & Hname & Hraw & Hign & Habs & (p & Hp & Hne) & ->).
      exists a, raw. split; [apply find_all_a_href_elem; eauto|].
      split; [done|]. apply classify_external. eauto 10.
Qed.

(** C1: the loop body of [analyze_links] is the classifier of the
    specification followed by the accumulation.  A non-ignored trimmed
    href that starts with http:// or https:// and that [urlparse] accepts
    is Internal when its network location is that of the base URL, as
    strings, and External otherwise, and stays as written; every other
    non-ignored href is Internal as whatever [urljoin] returns for it.
    When [analyze_links] returns, its two lists hold exactly these URLs.
    It returns exactly when [urlparse] accepts the base URL and the
    library accepts every extracted href that is not ignored; otherwise it
    raises the exception of the library before any request is sent. *)
Theorem link_classification (html base_url : string) (m : Z) (t : list Event) :
  (∀ pb a raw acc,
     urlparse base_url = inr pb → tag_get a "href" = Some raw →
     link_step base_url (netloc pb) acc a
     = (c ← classify base_url raw; mret (accumulate c acc)))
  ∧ (∀ raw p pb,
       is_ignored (str_strip raw) = false →
       is_absolute (str_strip raw) = true →
       urlparse (str_strip raw) = inr p → urlparse base_url = inr pb →
       classify base_url raw
       = inr (if String.eqb (netloc p) (netloc pb)
              then Internal (str_strip raw) else External (str_strip raw)))
  ∧ (∀ raw,
       is_ignored (str_strip raw) = false →
       is_absolute (str_strip raw) = false →
       classify base_url raw
       = (u ← urljoin base_url (str_strip raw); mret (Internal u)))
  ∧ (∀ res t',
       analyze_links html base_url m t = (inr res, t') →
       ∃ pb, urlparse base_url = inr pb
         ∧ (∀ u, u ∈ internal_links res ↔
              ∃ a raw, a ∈ BeautifulSoup html ∧ tag_name a = "a"%string
                ∧ tag_get a "href" = Some raw
                ∧ is_ignored (str_strip raw) = false
                ∧ ((is_absolute (str_strip raw) = true
                    ∧ (∃ p, urlparse (str_strip raw) = inr p
                            ∧ netloc p = netloc pb)
                    ∧ u = str_strip raw)
                   ∨ (is_absolute (str_strip raw) = false
                      ∧ urljoin base_url (str_strip raw) = inr u)))
         ∧ (∀ u, u ∈ external_links res ↔
              ∃ a raw, a ∈ BeautifulSoup html ∧ tag_name a = "a"%string
                ∧ tag_get a "href" = Some raw
                ∧ is_ignored (str_strip raw) = false
                ∧ is_absolute (str_strip raw) = true
                ∧ (∃ p, urlparse (str_strip raw) = inr p
                        ∧ netloc p ≠ netloc pb)
                ∧ u = str_strip raw))
  ∧ ((∃ res t', analyze_links html base_url m t = (inr res, t')) ↔
     (∃ pb, urlparse base_url = inr pb)
     ∧ Forall (href_resolves base_url) (find_all_a_href (BeautifulSoup html)))
  ∧ (∀ e t',
       analyze_links html base_url m t = (inl e, t') →
       t' = t
       ∧ (urlparse base_url = inl e
          ∨ ∃ a raw, a ∈ find_all_a_href (BeautifulSoup html)
                     ∧ tag_get a "href" = Some raw
                     ∧ classify base_url raw = inl e)).
Proof.
  split; [intros pb a raw acc Hb Hraw; by apply link_step_classify|].
  split.
  { intros raw p pb Hi Habs Hp Hb. unfold classify. cbv zeta.
    rewrite Hi, Habs, Hp. unfold mbind, Exc_bind. rewrite Hb. reflexivity. }
  split.
  { intros raw Hi Habs. unfold classify. cbv zeta. by rewrite Hi, Habs. }
  split; [intros res t'; apply links_membership|].
  split; [rewrite analyze_links_returns; apply collect_links_returns|].
  intros e t' [Hc ->]%analyze_links_inl. split; [done|].
  by apply collect_links_inl.
Qed.

Lemma filter_witness_length {A} (p : A → bool) (l : list A) (x : A) :
  x ∈ l → p x = true → (1 ≤ length (List.filter p l))%nat.
Proof.
  intros Hin Hp. induction Hin as [x l|x y l Hin IH]; simpl.
  - rewrite Hp. simpl. lia.
  - specialize (IH Hp). destruct (p y); simpl; lia.
Qed.

Lemma filter_split_length {A} (p : A → bool) (l : list A) :
  length l
  = (length (List.filter p l) + length (List.filter (λ x, negb (p x)) l))%nat.
Proof. induction l as [|x l IH]; simpl; [done|]. destruct (p x); simpl; lia. Qed.

(** C2 (as amended): an anchor whose trimmed href starts with mailto:,
    javascript: or # is classified Ignored without a call of the library
    and leaves both sets as they are, so [analyze_links] behaves on the
    page as on the page without these anchors.  When it returns, no
    external link starts with one of the three prefixes, every internal
    link is the trimmed href of a non-ignored anchor or what [urljoin]
    returned for one, and an internal link that starts with one of the
    prefixes is what [urljoin] returned for a non-ignored href without
    the http:// or https:// prefix. *)
Theorem ignored_hrefs_dropped (html base_url : string) (m : Z)
    (t : list Event) :
  (∀ raw, is_ignored (str_strip raw) = true →
          classify base_url raw = inr Ignored)
  ∧ (∀ base_domain a acc, ignorable_anchor a = true →
       link_step base_url base_domain acc a = inr acc)
  ∧ collect_links base_url (find_all_a_href (BeautifulSoup html))
    = collect_links base_url
        (List.filter (λ a, negb (ignorable_anchor a))
           (find_all_a_href (BeautifulSoup html)))
  ∧ ∀ res t',
      analyze_links html base_url m t = (inr res, t') →
      (∃ sets,
         collect_links base_url
           (List.filter (λ a, negb (ignorable_anchor a))
              (find_all_a_href (BeautifulSoup html))) = inr sets
         ∧ internal_links res = set_to_list sets.1
         ∧ external_links res = set_to_list sets.2)
      ∧ (∀ u, u ∈ external_links res → is_ignored u = false)
      ∧ (∀ u, u ∈ internal_links res →
           ∃ a raw, a ∈ BeautifulSoup html ∧ tag_get a "href" = Some raw
             ∧ is_ignored (str_strip raw) = false
             ∧ ((is_absolute u = true ∧ u = str_strip raw)
                ∨ (is_absolute (str_strip raw) = false
                   ∧ urljoin base_url (str_strip raw) = inr u)))
      ∧ (∀ u, u ∈ internal_links res → is_ignored u = true →
           ∃ a raw, a ∈ BeautifulSoup html ∧ tag_get a "href" = Some raw
             ∧ is_ignored (str_strip raw) = false
             ∧ is_absolute (str_strip raw) = false
             ∧ urljoin base_url (str_strip raw) = inr u).
Proof.
  split; [intros raw Hi; by apply classify_ignored|].
  split; [intros d a acc Hi; by apply link_step_ignored|].
  split; [apply collect_links_drop_ignored|].
  intros res t' Hrun.
  destruct (links_membership _ _ _ _ _ _ Hrun) as (pb & Hb & Hint & Hext).
  pose proof Hrun as (sets & Hc & _ & Hil & Hel & _)%analyze_links_inr.
  assert (∀ u, u ∈ internal_links res →
     ∃ a raw, a ∈ BeautifulSoup html ∧ tag_get a "href" = Some raw
       ∧ is_ignored (str_strip raw) = false
       ∧ ((is_absolute u = true ∧ u = str_strip raw)
          ∨ (is_absolute (str_strip raw) = false
             ∧ urljoin base_url (str_strip raw) = inr u))) as Hint'.
  { intros u (a & raw & Hin & _ & Hraw & Hi & Hcase)%Hint.
    exists a, raw. do 3 (split; [done|]).
    destruct Hcase as [(Habs & _ & ->)|?]; [by left|by right]. }
  split; [|split; [|split; [done|]]].
  - exists sets. by rewrite <- collect_links_drop_ignored.
  - intros u (a & raw & _ & _ & _ & _ & Habs & _ & ->)%Hext.
    by apply absolute_not_ignored.
  - intros u Hu Hi.
    destruct (Hint' u Hu) as (a & raw & Hin & Hraw & Hi' & [[Habs _]|[? ?]]).
    + apply absolute_not_ignored in Habs. congruence.
    + exists a, raw. done.
Qed.

(** C5: when [analyze_links] returns on a page with at least one
    ignorable anchor, the number of extracted anchors is at least the
    number of internal links plus the number of external links; the
    ignored anchors are part of the gap, which is therefore not empty. *)
Theorem total_links_bound (html base_url : string) (m : Z) (t : list Event)
    (res : LinksResult) (t' : list Event) :
  (∃ a, a ∈ find_all_a_href (BeautifulSoup html) ∧ ignorable_anchor a = true) →
  analyze_links html base_url m t = (inr res, t') →
  (length (internal_links res) + length (external_links res)
   ≤ total_links_on_page res)%nat
  ∧ (length (internal_links res) + length (external_links res)
     + length (List.filter ignorable_anchor
                 (find_all_a_href (BeautifulSoup html)))
     ≤ total_links_on_page res)%nat
  ∧ (length (internal_links res) + length (external_links res)
     < total_links_on_page res)%nat.
Proof.
  intros (a & Hin & Hi) (sets & Hc & -> & -> & -> & _)%analyze_links_inr.
  rewrite !set_to_list_length.
  pose proof (collect_links_size _ _ _ Hc) as Hsz.
  pose proof (filter_witness_length ignorable_anchor _ a Hin Hi).
  lia.
Qed.

(** C8 (as amended): [analyze_links] extracts exactly the anchor elements
    that carry an href attribute, empty or not, and when it returns
    total_links_on_page is their number, the anchors that are later
    ignored included. *)
Theorem total_links_counts_href_anchors (html base_url : string) (m : Z)
    (t : list Event) :
  (∀ a, a ∈ find_all_a_href (BeautifulSoup html) ↔
        a ∈ BeautifulSoup html ∧ tag_name a = "a"%string
        ∧ ∃ raw, tag_get a "href" = Some raw)
  ∧ ∀ res t',
      analyze_links html base_url m t = (inr res, t') →
      total_links_on_page res
      = length (List.filter has_href (BeautifulSoup html))
      ∧ total_links_on_page res
        = (length (List.filter ignorable_anchor
                     (find_all_a_href (BeautifulSoup html)))
           + length (List.filter (λ a, negb (ignorable_anchor a))
                       (find_all_a_href (BeautifulSoup html))))%nat.
Proof.
  split; [intros a; apply find_all_a_href_elem|].
  intros res t' (sets & _ & -> & _)%analyze_links_inr.
  split; [reflexivity|apply filter_split_length].
Qed.

(** C4 (as amended): for a limit that is not negative, a run of
    [analyze_links] that returns has probed the first max_check_links
    elements of internal_links and then those of external_links, in the
    enumeration order of the set, and nothing else: at most
    max_check_links of each, and all of a list that is no longer than the
    limit; every broken entry has the URL of a probed link, so the broken
    lists are drawn from these first elements and from the link lists.  A
    run that raises has sent no probe. *)
Theorem probe_limit (html base_url : string) (m : Z) (t : list Event) :
  0 ≤ m →
  (∀ res t',
     analyze_links html base_url m t = (inr res, t') →
     ∃ tp,
       t' = t ++ tp
       ∧ probed_urls tp
         = firstn (Z.to_nat m) (internal_links res)
           ++ firstn (Z.to_nat m) (external_links res)
       ∧ length tp = length (probed_urls tp)
       ∧ Z.of_nat (length (firstn (Z.to_nat m) (internal_links res))) ≤ m
       ∧ Z.of_nat (length (firstn (Z.to_nat m) (external_links res))) ≤ m
       ∧ (Z.of_nat (length (internal_links res)) ≤ m →
          firstn (Z.to_nat m) (internal_links res) = internal_links res)
       ∧ (Z.of_nat (length (external_links res)) ≤ m →
          firstn (Z.to_nat m) (external_links res) = external_links res)
       ∧ map fst (broken_internal res)
           `sublist_of` firstn (Z.to_nat m) (internal_links res)
       ∧ map fst (broken_external res)
           `sublist_of` firstn (Z.to_nat m) (external_links res)
       ∧ map fst (broken_internal res) `sublist_of` internal_links res
       ∧ map fst (broken_external res) `sublist_of` external_links res)
  ∧ (∀ e t', analyze_links html base_url m t = (inl e, t') → t' = t).
Proof.
  intros Hm. split.
  - intros res t' (sets & _ & _ & _ & _ & -> & Hbi & Hbe & _)%analyze_links_inr.
    rewrite !slice_to_nonneg in * by done.
    eexists. split; [reflexivity|].
    split; [by rewrite probed_urls_app, !probed_urls_head_events|].
    split.
    { rewrite probed_urls_app, !probed_urls_head_events.
      unfold head_events. by rewrite !length_app, !length_map. }
    rewrite !length_take.
    split; [lia|]. split; [lia|].
    split; [intros Hlen; apply firstn_all2; lia|].
    split; [intros Hlen; apply firstn_all2; lia|].
    do 2 (split; [done|]).
    split; (etrans; [eassumption|apply sublist_take]).
  - by intros e t' [_ ->]%analyze_links_inl.
Qed.

End AnalyzerFacts.

(** ** Security and timing checks *)

Section CheckFacts.
Context `{!PageLib, !UrlLib, !SetOrder, !World}.

(** The run of [analyze_security]: it returns after one request, with
    what was stored before the first exception, if any. *)
Lemma analyze_security_run (url : string) (t : list Event) :
  analyze_security url t
  = (inr match net_send t (get_request url 8 false) with
         | inr r =>
             match urlparse url with
             | inr p => {| https := String.eqb (scheme p) "https";
                           sec_status_code := Some (status_code r);
                           sec_headers := resp_headers r;
                           sec_error := None |}
             | inl e => {| https := false;
                           sec_status_code := Some (status_code r);
                           sec_headers := resp_headers r;
                           sec_error := Some (exc_str e) |}
             end
         | inl e => {| https := false; sec_status_code := None;
                       sec_headers := ∅; sec_error := Some (exc_str e) |}
         end,
     t ++ [EvRequest (get_request url 8 false)]).
Proof.
  unfold analyze_security, try_except, requests_get, send, lift, mbind, M_bind.
  destruct (net_send t (get_request url 8 false)); [reflexivity|].
  destruct (urlparse url); reflexivity.
Qed.

Lemma analyze_performance_run (url : string) (t : list Event) :
  let rq := get_request url 12 true in
  ∃ r rest,
    analyze_performance_simple url t
    = (inr r, t ++ EvTime :: EvRequest rq :: rest)
    ∧ (∀ e, net_send (t ++ [EvTime]) rq = inl e →
         r = {| time_to_first_byte := None; total_download := None;
                perf_status_code := None; perf_error := Some (exc_str e) |})
    ∧ (∀ resp e, net_send (t ++ [EvTime]) rq = inr resp →
         net_content (t ++ [EvTime; EvRequest rq; EvTime]) rq = Some e →
         r = {| time_to_first_byte := None; total_download := None;
                perf_status_code := None; perf_error := Some (exc_str e) |})
    ∧ (∀ resp, net_send (t ++ [EvTime]) rq = inr resp →
         net_content (t ++ [EvTime; EvRequest rq; EvTime]) rq = None →
         perf_status_code r = Some (status_code resp)
         ∧ perf_error r = None
         ∧ is_Some (time_to_first_byte r) ∧ is_Some (total_download r)).
Proof.
  intros rq.
  unfold analyze_performance_simple, try_except, requests_get, send,
    response_content, time_time, mbind, M_bind, mret, M_ret. fold rq.
  cbn beta iota.
  replace (t ++ [EvTime; EvRequest rq; EvTime])
    with (((t ++ [EvTime]) ++ [EvRequest rq]) ++ [EvTime])
    by (by rewrite <- !app_assoc).
  destruct (net_send (t ++ [EvTime]) rq) as [e|resp] eqn:Hs.
  - eexists _, []. split; [by rewrite <- !app_assoc|].
    split; [by intros e' [= <-]|]. split; [intros ?? [=]|intros ? [=]].
  - destruct (net_content (((t ++ [EvTime]) ++ [EvRequest rq]) ++ [EvTime]) rq)
      as [e|] eqn:Hc.
    + eexists _, _. split; [by rewrite <- !app_assoc|].
      split; [intros ? [=]|]. split; [by intros ?? _ [= <-]|intros ? _ [=]].
    + eexists _, _. split; [by rewrite <- !app_assoc|].
      split; [intros ? [=]|]. split; [intros ?? _ [=]|].
      intros resp' [= <-] _. simpl. eauto.
Qed.

Lemma analyze_performance_returns (url : string) (t : list Event) :
  ∃ r t', analyze_performance_simple url t = (inr r, t').
Proof.
  destruct (analyze_performance_run url t) as (r & rest & Hrun & _). eauto.
Qed.

(** ** The combined runner *)

Lemma str_in_elem (x : string) (l : list string) :
  str_in x l = true ↔ x ∈ l.
Proof.
  unfold str_in. rewrite existsb_exists. split.
  - intros (y & Hin & ->%String.eqb_eq). by apply list_elem_of_In.
  - intros Hin. exists x. split; [by apply list_elem_of_In|apply String.eqb_refl].
Qed.

Lemma put_if_lookup (b : bool) (k k' : string) (v : Value)
    (m : gmap string Value) :
  put_if b k v m !! k'
  = if b && bool_decide (k = k') then Some v else m !! k'.
Proof.
  unfold put_if. destruct b; simpl; [|done].
  rewrite lookup_insert. case_decide; case_bool_decide; done.
Qed.

Ltac run_case :=
  split; [reflexivity|];
  split; [first [apply analyze_security_run|reflexivity]|];
  first [eassumption|reflexivity].

(** The security and timing checks at the end of a run. *)
Ltac run_tail base t1 :=
  destruct (str_in "security" _);
  [ rewrite analyze_security_run;
    destruct (str_in "performance" _);
    [ let rp := fresh "rp" in
      let t3 := fresh "t3" in
      let Hp := fresh "Hp" in
      destruct (analyze_performance_returns base
                  (t1 ++ [EvRequest (get_request base 8 false)]))
        as (rp & t3 & Hp);
      rewrite Hp; eexists _, rp, _, t3; run_case
    | eexists _, no_performance, _, _; run_case ]
  | destruct (str_in "performance" _);
    [ let rp := fresh "rp" in
      let t3 := fresh "t3" in
      let Hp := fresh "Hp" in
      destruct (analyze_performance_returns base t1) as (rp & t3 & Hp);
      rewrite Hp; eexists no_security, rp, t1, t3; run_case
    | eexists no_security, no_performance, t1, t1; run_case ] ].

(** The run of [run_full_analysis]: the checks run one after the other on
    the trace; an exception of the links check or of the images check
    ends the run, the security and timing checks always return. *)
Lemma run_full_analysis_run (html base_url : string) (checks : ChecksArg)
    (t : list Event) :
  let cs := resolve_checks checks in
  ∃ ol t1,
    (if str_in "links" cs
     then analyze_links html base_url 50 (t ++ [EvTime]) = (ol, t1)
     else ol = inr no_links ∧ t1 = t ++ [EvTime])
    ∧ match ol with
      | inl e => run_full_analysis html base_url checks t = (inl e, t1)
      | inr rl =>
          match (if str_in "images" cs
                 then analyze_images html (Some base_url)
                 else inr no_images) with
          | inl e => run_full_analysis html base_url checks t = (inl e, t1)
          | inr ri =>
              ∃ rs rp t2 t3,
                run_full_analysis html base_url checks t
                = (inr (results_of base_url (py_int (clock t)) cs html
                          rl ri rs rp), t3)
                ∧ (if str_in "security" cs
                   then analyze_security base_url t1 = (inr rs, t2)
                   else t2 = t1)
                ∧ (if str_in "performance" cs
                   then analyze_performance_simple base_url t2 = (inr rp, t3)
                   else t3 = t2)
          end
      end.
Proof.
  intros cs.
  unfold run_full_analysis, results_of, base_results, put_if, time_time,
    lift, mbind, M_bind, mret, M_ret. fold cs. cbn beta iota zeta.
  destruct (str_in "links" cs).
  - destruct (analyze_links html base_url 50 (t ++ [EvTime]))
      as [[e|rl] t1] eqn:Hl.
    + exists (inl e), t1. split; reflexivity.
    + exists (inr rl), t1. split; [reflexivity|].
      destruct (str_in "images" cs).
      * destruct (analyze_images html (Some base_url)) as [e|ri];
          [reflexivity|].
        run_tail base_url t1.
      * run_tail base_url t1.
  - exists (inr no_links), (t ++ [EvTime]). split; [done|].
    destruct (str_in "images" cs).
    + destruct (analyze_images html (Some base_url)) as [e|ri];
        [reflexivity|].
      run_tail base_url (t ++ [EvTime]).
    + run_tail base_url (t ++ [EvTime]).
Qed.

(** What a run that returns has done. *)
Lemma run_full_analysis_inr (html base_url : string) (checks : ChecksArg)
    (t : list Event) (res : gmap string Value) (t3 : list Event) :
  let cs := resolve_checks checks in
  run_full_analysis html base_url checks t = (inr res, t3) →
  ∃ rl ri rs rp t1 t2,
    res = results_of base_url (py_int (clock t)) cs html rl ri rs rp
    ∧ (if str_in "links" cs
       then analyze_links html base_url 50 (t ++ [EvTime]) = (inr rl, t1)
       else t1 = t ++ [EvTime])
    ∧ (if str_in "images" cs
       then analyze_images html (Some base_url) = inr ri
       else True)
    ∧ (if str_in "security" cs
       then analyze_security base_url t1 = (inr rs, t2)
       else t2 = t1)
    ∧ (if str_in "performance" cs
       then analyze_performance_simple base_url t2 = (inr rp, t3)
       else t3 = t2).
Proof.
  intros cs Hrun.
  destruct (run_full_analysis_run html base_url checks t)
    as (ol & t1 & Hl & Hrest).
  fold cs in Hl, Hrest.
  destruct ol as [e|rl]; [congruence|].
  destruct (str_in "images" cs) eqn:Hi.
  - destruct (analyze_images html (Some base_url)) as [e|ri] eqn:Him;
      [congruence|].
    destruct Hrest as (rs & rp & t2 & t3' & Hrun' & Hs & Hp).
    rewrite Hrun in Hrun'. injection Hrun' as -> ->.
    exists rl, ri, rs, rp, t1, t2. split; [done|].
    split; [by destruct (str_in "links" cs); [|destruct Hl]|]. done.
  - destruct Hrest as (rs & rp & t2 & t3' & Hrun' & Hs & Hp).
    rewrite Hrun in Hrun'. injection Hrun' as -> ->.
    exists rl, no_images, rs, rp, t1, t2. split; [done|].
    split; [by destruct (str_in "links" cs); [|destruct Hl]|]. done.
Qed.

(** A run raises only in the links check or in the images check. *)
Lemma run_full_analysis_inl (html base_url : string) (checks : ChecksArg)
    (t : list Event) (e : PyException) (t' : list Event) :
  let cs := resolve_checks checks in
  run_full_analysis html base_url checks t = (inl e, t') →
  (str_in "links" cs = true
   ∧ analyze_links html base_url 50 (t ++ [EvTime]) = (inl e, t'))
  ∨ (str_in "images" cs = true
     ∧ analyze_images html (Some base_url) = inl e
     ∧ if str_in "links" cs
       then ∃ rl, analyze_links html base_url 50 (t ++ [EvTime])
                  = (inr rl, t')
       else t' = t ++ [EvTime]).
Proof.
  intros cs Hrun.
  destruct (run_full_analysis_run html base_url checks t)
    as (ol & t1 & Hl & Hrest).
  fold cs in Hl, Hrest.
  destruct ol as [e'|rl].
  - rewrite Hrun in Hrest. injection Hrest as <- <-.
    destruct (str_in "links" cs); [by left|by destruct Hl].
  - right. destruct (str_in "images" cs).
    + destruct (analyze_images html (Some base_url)) as [e'|ri].
      * rewrite Hrun in Hrest. injection Hrest as <- <-.
        do 2 (split; [done|]).
        destruct (str_in "links" cs); [eauto|by destruct Hl].
      * destruct Hrest as (? & ? & ? & ? & Hrun' & _). congruence.
    + destruct Hrest as (? & ? & ? & ? & Hrun' & _). congruence.
Qed.

(** A run returns exactly when the links check and the images check do,
    where they are selected. *)
Lemma run_full_analysis_returns (html base_url : string) (checks : ChecksArg)
    (t : list Event) :
  let cs := resolve_checks checks in
  (∃ res t', run_full_analysis html base_url checks t = (inr res, t')) ↔
  (str_in "links" cs = true →
   ∃ sets, collect_links base_url (find_all_a_href (BeautifulSoup html))
           = inr sets)
  ∧ (str_in "images" cs = true →
     ∃ ri, analyze_images html (Some base_url) = inr ri).
Proof.
  intros cs. split.
  - intros (res & t' & Hrun).
    apply run_full_analysis_inr in Hrun
      as (rl & ri & rs & rp & t1 & t2 & _ & Hl & Hi & _).
    fold cs in Hl, Hi. split.
    + intros Hsel. rewrite Hsel in Hl.
      apply (analyze_links_returns html base_url 50 (t ++ [EvTime])). eauto.
    + intros Hsel. rewrite Hsel in Hi. eauto.
  - intros [Hl Hi].
    destruct (run_full_analysis_run html base_url checks t)
      as (ol & t1 & Hl' & Hrest).
    fold cs in Hl', Hrest.
    assert (∃ rl, ol = inr rl) as (rl & ->).
    { destruct (str_in "links" cs); [|destruct Hl'; eauto].
      apply (analyze_links_returns html base_url 50 (t ++ [EvTime]))
        in Hl as (res & t' & Hr); [|done].
      rewrite Hr in Hl'. injection Hl' as <- _. eauto. }
    destruct (str_in "images" cs).
    + destruct Hi as (ri & Hi); [done|]. rewrite Hi in Hrest.
      destruct Hrest as (? & ? & ? & ? & Hrun & _). eauto.
    + destruct Hrest as (? & ? & ? & ? & Hrun & _). eauto.
Qed.

Lemma results_of_lookup (base_url : string) (ts : Z) (cs : list string)
    (html : string) (rl : LinksResult) (ri : ImagesResult)
    (rs : SecurityResult) (rp : PerformanceResult) (k : string) :
  results_of base_url ts cs html rl ri rs rp !! k
  = if str_in "performance" cs && bool_decide ("performance"%string = k)
    then Some (VPerformance rp)
    else if str_in "security" cs && bool_decide ("security"%string = k)
    then Some (VSecurity rs)
    else if str_in "images" cs && bool_decide ("images"%string = k)
    then Some (VImages ri)
    else if str_in "links" cs && bool_decide ("links"%string = k)
    then Some (VLinks rl)
    else if str_in "wordcount" cs && bool_decide ("word_count"%string = k)
    then Some (VWordCount (analyze_word_count html))
    else if str_in "basic" cs && bool_decide ("basic"%string = k)
    then Some (VBasic (analyze_basic html))
    else base_results base_url ts cs !! k.
Proof. unfold results_of. by rewrite !put_if_lookup. Qed.

Lemma base_results_lookup (base_url : string) (ts : Z) (cs : list string)
    (k : string) :
  base_results base_url ts cs !! k
  = if bool_decide ("checks_run"%string = k) then Some (VStrList cs)
    else if bool_decide ("timestamp"%string = k) then Some (VInt ts)
    else if bool_decide ("url"%string = k) then Some (VStr base_url)
    else None.
Proof.
  unfold base_results. rewrite !lookup_insert, lookup_empty.
  repeat case_decide; repeat case_bool_decide; done.
Qed.

(** Decide the comparisons of literal keys in the goal. *)
Ltac eval_keys :=
  repeat match goal with
         | |- context [bool_decide (?a = ?b)] =>
             first [ rewrite (bool_decide_eq_true_2 (a = b)) by reflexivity
                   | rewrite (bool_decide_eq_false_2 (a = b)) by discriminate ]
         end;
  rewrite ?andb_true_r, ?andb_false_r.

Lemma results_of_field (base_url : string) (ts : Z) (cs : list string)
    (html : string) (rl : LinksResult) (ri : ImagesResult)
    (rs : SecurityResult) (rp : PerformanceResult) :
  let res := results_of base_url ts cs html rl ri rs rp in
  res !! "basic"
    = (if str_in "basic" cs then Some (VBasic (analyze_basic html)) else None)
  ∧ res !! "word_count"
    = (if str_in "wordcount" cs
       then Some (VWordCount (analyze_word_count html)) else None)
  ∧ res !! "links" = (if str_in "links" cs then Some (VLinks rl) else None)
  ∧ res !! "images" = (if str_in "images" cs then Some (VImages ri) else None)
  ∧ res !! "security"
    = (if str_in "security" cs then Some (VSecurity rs) else None)
  ∧ res !! "performance"
    = (if str_in "performance" cs then Some (VPerformance rp) else None)
  ∧ res !! "url" = Some (VStr base_url)
  ∧ res !! "timestamp" = Some (VInt ts)
  ∧ res !! "checks_run" = Some (VStrList cs).
Proof.
  cbv zeta.
  repeat split; rewrite results_of_lookup, base_results_lookup; eval_keys;
    reflexivity.
Qed.

Lemma is_Some_if {A} (b : bool) (x : A) :
  is_Some (if b then Some x else None) ↔ b = true.
Proof.
  destruct b; split; eauto; [intros [y Hy]; discriminate|discriminate].
Qed.

Lemma is_Some_layer {A} (b : bool) (key k : string) (v : A) (rest : option A) :
  is_Some (if b && bool_decide (key = k) then Some v else rest) ↔
  (b = true ∧ key = k) ∨ is_Some rest.
Proof.
  destruct b; simpl; [case_bool_decide|]; split; eauto.
  - intros [[_ ?]|?]; done.
  - intros [[? _]|?]; done.
Qed.

Lemma base_results_keys (base_url : string) (ts : Z) (cs : list string)
    (k : string) :
  is_Some (base_results base_url ts cs !! k) ↔
  k ∈ ["url"; "timestamp"; "checks_run"]%string.
Proof.
  rewrite base_results_lookup, !elem_of_cons, elem_of_nil.
  repeat case_bool_decide; subst; split; eauto.
  - intros [? [=]].
  - intros [?|[?|[?|[]]]]; congruence.
Qed.

Lemma results_of_keys (base_url : string) (ts : Z) (cs : list string)
    (html : string) (rl : LinksResult) (ri : ImagesResult)
    (rs : SecurityResult) (rp : PerformanceResult) (k : string) :
  is_Some (results_of base_url ts cs html rl ri rs rp !! k) ↔
  k ∈ ["url"; "timestamp"; "checks_run"]%string
  ∨ ∃ name, name ∈ cs ∧ field_of_check name = Some k.
Proof.
  rewrite results_of_lookup, !is_Some_layer, base_results_keys. split.
  - intros H6.
    repeat (destruct H6 as [[Hb <-]|H6];
            [right; eexists; split;
             [apply str_in_elem; eassumption|reflexivity]|]).
    by left.
  - intros [Hk|(name & Hin%str_in_elem & Hf)]; [tauto|].
    unfold field_of_check in Hf.
    repeat match type of Hf with
           | (if String.eqb name ?n then _ else _) = _ =>
               destruct (String.eqb_spec name n);
               [subst name; injection Hf as <-; tauto|]
           end.
    discriminate.
Qed.

Lemma resolve_checks_default (checks : ChecksArg) :
  checks_truthy checks = false → resolve_checks checks = all_checks.
Proof. intros Hc. unfold resolve_checks. by rewrite Hc. Qed.

(** A selection of names that are not check names selects nothing. *)
Lemma unknown_not_selected (cs : list string) (name : string) :
  (∀ c, c ∈ cs → field_of_check c = None) →
  is_Some (field_of_check name) → str_in name cs = false.
Proof.
  intros Hall [k Hk]. destruct (str_in name cs) eqn:Hin; [|done].
  apply str_in_elem, Hall in Hin. congruence.
Qed.

(** C6: checks_run is the list of lowercased, trimmed names that were
    given (or the default list).  When [run_full_analysis] returns, each
    of the six optional fields is in the result exactly when its check
    name is in checks_run, and the keys of the result are url, timestamp,
    checks_run and the fields of the known names in checks_run, so an
    unknown name adds nothing.  The run returns exactly when the links
    check and the images check return where they are selected, so a
    selection of unknown names only always returns, with the three fixed
    keys; and the selection "links" gives the keys url, timestamp,
    checks_run and links only. *)
Theorem checks_select_fields (html base_url : string) (checks : ChecksArg)
    (t : list Event) :
  (∀ s, resolve_checks (ChecksStr s)
        = if str_truthy s
          then map (λ c, str_lower (str_strip c)) (str_split "," s)
          else all_checks)
  ∧ (∀ l, resolve_checks (ChecksList l)
          = if bool_decide (l = []) then all_checks
            else map (λ c, str_lower (str_strip c)) l)
  ∧ (∀ res t',
       run_full_analysis html base_url checks t = (inr res, t') →
       res !! "url" = Some (VStr base_url)
       ∧ res !! "timestamp" = Some (VInt (py_int (clock t)))
       ∧ res !! "checks_run" = Some (VStrList (resolve_checks checks))
       ∧ (is_Some (res !! "basic") ↔ "basic"%string ∈ resolve_checks checks)
       ∧ (is_Some (res !! "word_count") ↔
          "wordcount"%string ∈ resolve_checks checks)
       ∧ (is_Some (res !! "links") ↔ "links"%string ∈ resolve_checks checks)
       ∧ (is_Some (res !! "images") ↔ "images"%string ∈ resolve_checks checks)
       ∧ (is_Some (res !! "security") ↔
          "security"%string ∈ resolve_checks checks)
       ∧ (is_Some (res !! "performance") ↔
          "performance"%string ∈ resolve_checks checks)
       ∧ (∀ k, is_Some (res !! k) ↔
               k ∈ ["url"; "timestamp"; "checks_run"]%string
               ∨ ∃ name, name ∈ resolve_checks checks
                         ∧ field_of_check name = Some k))
  ∧ ((∃ res t', run_full_analysis html base_url checks t = (inr res, t')) ↔
     ("links"%string ∈ resolve_checks checks →
      ∃ sets, collect_links base_url (find_all_a_href (BeautifulSoup html))
              = inr sets)
     ∧ ("images"%string ∈ resolve_checks checks →
        ∃ ri, analyze_images html (Some base_url) = inr ri))
  ∧ ((∀ c, c ∈ resolve_checks checks → field_of_check c = None) →
     ∃ res t',
       run_full_analysis html base_url checks t = (inr res, t')
       ∧ dom res = {[ "url"; "timestamp"; "checks_run" ]}%string)
  ∧ (∀ res t',
       run_full_analysis html base_url (ChecksStr "links") t = (inr res, t') →
       res !! "checks_run" = Some (VStrList ["links"%string])
       ∧ dom res = {[ "url"; "timestamp"; "checks_run"; "links" ]}%string).
Proof.
  split; [intros s; unfold resolve_checks; simpl; by destruct (str_truthy s)|].
  split.
  { intros l. unfold resolve_checks. simpl. by case_bool_decide. }
  split.
  { intros res t' Hrun.
    apply run_full_analysis_inr in Hrun
      as (rl & ri & rs & rp & t1 & t2 & -> & _).
    destruct (results_of_field base_url (py_int (clock t))
                (resolve_checks checks) html rl ri rs rp)
      as (Hb & Hw & Hl & Hi & Hs & Hp & Hu & Ht & Hc).
    do 3 (split; [done|]).
    rewrite Hb, Hw, Hl, Hi, Hs, Hp, !is_Some_if, !str_in_elem.
    do 6 (split; [done|]).
    intros k. apply results_of_keys. }
  split.
  { rewrite run_full_analysis_returns, !str_in_elem. done. }
  split.
  { intros Hall.
    assert (∃ res t', run_full_analysis html base_url checks t = (inr res, t'))
      as (res & t' & Hrun).
    { apply run_full_analysis_returns.
      rewrite !(unknown_not_selected _ _ Hall) by (by eexists).
      split; discriminate. }
    exists res, t'. split; [done|].
    apply run_full_analysis_inr in Hrun
      as (rl & ri & rs & rp & t1 & t2 & -> & _).
    unfold results_of.
    rewrite !(unknown_not_selected _ _ Hall) by (by eexists).
    unfold put_if, base_results.
    rewrite !dom_insert_L, dom_empty_L. set_solver. }
  intros res t' Hrun.
  apply run_full_analysis_inr in Hrun
    as (rl & ri & rs & rp & t1 & t2 & -> & _).
  change (resolve_checks (ChecksStr "links")) with ["links"%string].
  split; [apply results_of_field|].
  unfold results_of.
  change (str_in "performance" ["links"%string]) with false.
  change (str_in "security" ["links"%string]) with false.
  change (str_in "images" ["links"%string]) with false.
  change (str_in "links" ["links"%string]) with true.
  change (str_in "wordcount" ["links"%string]) with false.
  change (str_in "basic" ["links"%string]) with false.
  unfold put_if, base_results.
  rewrite !dom_insert_L, dom_empty_L. set_solver.
Qed.

(** C7: with no [checks] argument, or an empty one, checks_run is the
    canonical list and the six checks run in the canonical order: a run
    that returns has the six fields, the links check, the security check
    and the timing check have touched the network in this order, and the
    images check has returned in between.  The run returns exactly when
    the links check and the images check do; an exception of the links
    check ends the run before the images check, and an exception of the
    images check ends it before the security check. *)
Theorem default_runs_all_checks (html base_url : string) (checks : ChecksArg)
    (t : list Event) :
  checks_truthy checks = false →
  resolve_checks checks
  = ["basic"; "wordcount"; "links"; "images"; "security";
     "performance"]%string
  ∧ (∀ res t3,
       run_full_analysis html base_url checks t = (inr res, t3) →
       ∃ rl ri rs rp t1 t2,
         res !! "checks_run"
         = Some (VStrList ["basic"; "wordcount"; "links"; "images";
                           "security"; "performance"]%string)
         ∧ res !! "basic" = Some (VBasic (analyze_basic html))
         ∧ res !! "word_count" = Some (VWordCount (analyze_word_count html))
         ∧ res !! "links" = Some (VLinks rl)
         ∧ res !! "images" = Some (VImages ri)
         ∧ res !! "security" = Some (VSecurity rs)
         ∧ res !! "performance" = Some (VPerformance rp)
         ∧ analyze_links html base_url 50 (t ++ [EvTime]) = (inr rl, t1)
         ∧ analyze_images html (Some base_url) = inr ri
         ∧ analyze_security base_url t1 = (inr rs, t2)
         ∧ analyze_performance_simple base_url t2 = (inr rp, t3))
  ∧ ((∃ res t3, run_full_analysis html base_url checks t = (inr res, t3)) ↔
     (∃ rl t1, analyze_links html base_url 50 (t ++ [EvTime]) = (inr rl, t1))
     ∧ ∃ ri, analyze_images html (Some base_url) = inr ri)
  ∧ (∀ e t',
       run_full_analysis html base_url checks t = (inl e, t') →
       (analyze_links html base_url 50 (t ++ [EvTime]) = (inl e, t')
        ∧ t' = t ++ [EvTime])
       ∨ (analyze_images html (Some base_url) = inl e
          ∧ ∃ rl, analyze_links html base_url 50 (t ++ [EvTime])
                  = (inr rl, t'))).
Proof.
  intros Hc. pose proof (resolve_checks_default checks Hc) as Hcs.
  split; [exact Hcs|]. split; [|split].
  - intros res t3 Hrun.
    apply run_full_analysis_inr in Hrun
      as (rl & ri & rs & rp & t1 & t2 & -> & Hl & Hi & Hs & Hp).
    rewrite Hcs in *.
    change (str_in "links" all_checks) with true in Hl.
    change (str_in "images" all_checks) with true in Hi.
    change (str_in "security" all_checks) with true in Hs.
    change (str_in "performance" all_checks) with true in Hp.
    exists rl, ri, rs, rp, t1, t2.
    destruct (results_of_field base_url (py_int (clock t)) all_checks
                html rl ri rs rp)
      as (Hfb & Hfw & Hfl & Hfi & Hfs & Hfp & _ & _ & Hfc).
    done.
  - rewrite run_full_analysis_returns, Hcs.
    change (str_in "links" all_checks) with true.
    change (str_in "images" all_checks) with true.
    rewrite (analyze_links_returns html base_url 50 (t ++ [EvTime])).
    split; (intros [Hl Hi]; split; [|]); eauto.
  - intros e t' Hrun.
    apply run_full_analysis_inl in Hrun as [[_ Hl]|(_ & Hi & Hl)].
    + left. split; [done|]. by apply analyze_links_inl in Hl as [_ ->].
    + right. rewrite Hcs in Hl.
      change (str_in "links" all_checks) with true in Hl. done.
Qed.

(** C9: the security check and the timing check always return; each sends
    its own GET request for the URL, and an exception raised by that
    request (or, for the timing check, by the download) ends up as its
    string in the error field of that check's result.  A full run is
    never ended by these two checks: an exception of a run is one of the
    links check or of the images check, and when those return, where
    selected, the run returns with the sub-result of every selected check
    whatever the network does to the others. *)
Theorem network_checks_capture_errors (url : string) (t : list Event) :
  (∃ r,
     analyze_security url t
     = (inr r, t ++ [EvRequest (get_request url 8 false)])
     ∧ (∀ e, net_send t (get_request url 8 false) = inl e →
             sec_error r = Some (exc_str e)))
  ∧ (∃ r rest,
       analyze_performance_simple url t
       = (inr r, t ++ EvTime :: EvRequest (get_request url 12 true) :: rest)
       ∧ (∀ e, net_send (t ++ [EvTime]) (get_request url 12 true) = inl e →
               perf_error r = Some (exc_str e))
       ∧ (∀ resp e,
            net_send (t ++ [EvTime]) (get_request url 12 true) = inr resp →
            net_content
              (t ++ [EvTime; EvRequest (get_request url 12 true); EvTime])
              (get_request url 12 true) = Some e →
            perf_error r = Some (exc_str e)))
  ∧ (∀ html checks,
       (∀ e t',
          run_full_analysis html url checks t = (inl e, t') →
          ("links"%string ∈ resolve_checks checks
           ∧ analyze_links html url 50 (t ++ [EvTime]) = (inl e, t'))
          ∨ ("images"%string ∈ resolve_checks checks
             ∧ analyze_images html (Some url) = inl e))
       ∧ (("links"%string ∈ resolve_checks checks →
           ∃ rl t1, analyze_links html url 50 (t ++ [EvTime]) = (inr rl, t1)) →
          ("images"%string ∈ resolve_checks checks →
           ∃ ri, analyze_images html (Some url) = inr ri) →
          ∃ res t',
            run_full_analysis html url checks t = (inr res, t')
            ∧ ("basic"%string ∈ resolve_checks checks →
               is_Some (res !! "basic"))
            ∧ ("wordcount"%string ∈ resolve_checks checks →
               is_Some (res !! "word_count"))
            ∧ ("links"%string ∈ resolve_checks checks →
               is_Some (res !! "links"))
            ∧ ("images"%string ∈ resolve_checks checks →
               is_Some (res !! "images"))
            ∧ ("security"%string ∈ resolve_checks checks →
               ∃ rs t1, res !! "security" = Some (VSecurity rs)
                        ∧ (analyze_security url t1).1 = inr rs)
            ∧ ("performance"%string ∈ resolve_checks checks →
               ∃ rp t2, res !! "performance" = Some (VPerformance rp)
                        ∧ (analyze_performance_simple url t2).1 = inr rp))).
Proof.
  split; [|split].
  - rewrite analyze_security_run. eexists. split; [reflexivity|].
    by intros e ->.
  - destruct (analyze_performance_run url t) as (r & rest & Hrun & He & Hc & _).
    exists r, rest. split; [done|]. split.
    + intros e Hs. by rewrite (He e Hs).
    + intros resp e Hs Hn. by rewrite (Hc resp e Hs Hn).
  - intros html checks. split.
    + intros e t' Hrun.
      apply run_full_analysis_inl in Hrun as [[Hsel Hl]|(Hsel & Hi & _)];
        apply str_in_elem in Hsel; eauto.
    + intros Hl Hi.
      assert (∃ res t', run_full_analysis html url checks t = (inr res, t'))
        as (res & t' & Hrun).
      { apply run_full_analysis_returns. rewrite !str_in_elem. split; [|done].
        intros Hsel.
        apply (analyze_links_returns html url 50 (t ++ [EvTime])). eauto. }
      exists res, t'. split; [done|].
      apply run_full_analysis_inr in Hrun
        as (rl & ri & rs & rp & t1 & t2 & -> & _ & _ & Hs & Hp).
      destruct (results_of_field url (py_int (clock t))
                  (resolve_checks checks) html rl ri rs rp)
        as (Hfb & Hfw & Hfl & Hfi & Hfs & Hfp & _).
      rewrite Hfb, Hfw, Hfl, Hfi, Hfs, Hfp.
      repeat split; intros Hin%str_in_elem; rewrite Hin in *; eauto.
      * exists rs, t1. by rewrite Hs.
      * exists rp, t2. by rewrite Hp.
Qed.

(** C10: when the GET request of the security check raises, the check
    reports https = False and status_code = None for every URL, whatever
    its scheme, and the error string of the exception. *)
Theorem failed_security_check_reports_no_https (url : string)
    (t : list Event) (e : PyException) :
  net_send t (get_request url 8 false) = inl e →
  ∃ r t',
    analyze_security url t = (inr r, t')
    ∧ https r = false
    ∧ sec_status_code r = None
    ∧ sec_error r = Some (exc_str e).
Proof.
  intros He. rewrite analyze_security_run, He. eauto 6.
Qed.

End CheckFacts.

(** * The properties on sample pages *)

Section Samples.
#[local] Existing Instance Sample.pages.
#[local] Existing Instance Sample.urls.
#[local] Existing Instance Sample.order.
#[local] Existing Instance Sample.world.

(** The end-to-end scenario of the specification. *)
Example scenario :
  (analyze_links Sample.page1 "https://site.com" 50 []).1
  = inr {| total_links_on_page := 3;
           internal_links := ["https://site.com/p"%string];
           external_links := ["https://ext.com"%string];
           broken_internal := [];
           broken_external := [("https://ext.com"%string, None)] |}.
Proof. vm_compute. reflexivity. Qed.

(** No normalisation of scheme or www prefix; a scheme-relative href
    resolves to another host and still counts as internal. *)
Example distinct_locations :
  classify "http://x.com" "https://www.x.com"
  = inr (External "https://www.x.com")
  ∧ classify "https://site.com" "//other.com/x"
    = inr (Internal "https://other.com/x").
Proof. split; vm_compute; reflexivity. Qed.

(** An href the library refuses ends the analysis before any probe. *)
Example refused_href :
  analyze_links Sample.page5 "https://site.com" 50 []
  = (inl Sample.value_error, []).
Proof. vm_compute. reflexivity. Qed.

Lemma link_classification_witness :
  ∃ res t',
    analyze_links Sample.page1 "https://site.com" 50 [] = (inr res, t')
    ∧ "https://site.com/p"%string ∈ internal_links res
    ∧ "https://ext.com"%string ∈ external_links res.
Proof.
  destruct (link_classification Sample.page1 "https://site.com" 50 [])
    as (_ & _ & _ & Hmem & Hret & _).
  destruct Hret as [_ (res & t' & Hrun)].
  { split; [eexists; vm_compute; reflexivity|].
    repeat constructor; intros raw [= <-]; eexists; vm_compute; reflexivity. }
  exists res, t'. split; [exact Hrun|].
  destruct (Hmem res t' Hrun) as (pb & Hb & Hint & Hext).
  vm_compute in Hb. injection Hb as <-. split.
  - apply Hint. exists (Sample.anchor "/p"), "/p"%string.
    split; [vm_compute; apply list_elem_of_further, list_elem_of_here|].
    split; [reflexivity|]. split; [reflexivity|]. split; [reflexivity|].
    right. split; reflexivity.
  - apply Hext.
    exists (Sample.anchor "https://ext.com"), "https://ext.com"%string.
    split; [vm_compute; do 2 apply list_elem_of_further;
            apply list_elem_of_here|].
    split; [reflexivity|]. split; [reflexivity|]. split; [reflexivity|].
    split; [reflexivity|]. split; [|reflexivity].
    eexists. split; [vm_compute; reflexivity|]. vm_compute. discriminate.
Defined.

Lemma ignored_hrefs_dropped_witness :
  ∃ res t',
    analyze_links Sample.page1 "https://site.com" 50 [] = (inr res, t')
    ∧ (∀ u, u ∈ external_links res → is_ignored u = false)
    ∧ ∀ u, u ∈ internal_links res → is_ignored u = true →
           ∃ a raw, a ∈ BeautifulSoup Sample.page1
             ∧ tag_get a "href" = Some raw
             ∧ is_ignored (str_strip raw) = false
             ∧ is_absolute (str_strip raw) = false
             ∧ urljoin "https://site.com" (str_strip raw) = inr u.
Proof.
  destruct (analyze_links Sample.page1 "https://site.com" 50 [])
    as [[e|res] t'] eqn:Hrun; [vm_compute in Hrun; discriminate|].
  destruct (ignored_hrefs_dropped Sample.page1 "https://site.com" 50 [])
    as (_ & _ & _ & Hres).
  destruct (Hres res t' Hrun) as (_ & Hext & _ & Hint).
  exists res, t'. split; [reflexivity|]. split; [exact Hext|exact Hint].
Defined.

(** C2, as stated, fails when [urljoin] returns a string with one of the
    three prefixes: an empty href resolves to the base URL, so with the
    base URL [#x] the fragment link [#x] of the page is listed as an
    internal link. *)
Lemma ignored_href_listed_counterexample :
  ¬ (∀ (P : PageLib) (U : UrlLib) (O : SetOrder) (W : World)
       (html base_url : string) (m : Z) (t : list Event)
       (res : LinksResult) (t' : list Event),
       analyze_links html base_url m t = (inr res, t') →
       ∀ a raw, a ∈ BeautifulSoup html → tag_get a "href" = Some raw →
                is_ignored (str_strip raw) = true →
                (str_strip raw ∉ internal_links res)
                ∧ (str_strip raw ∉ external_links res)).
Proof.
  intros Hclaim.
  destruct (analyze_links Sample.page4 "#x" 50 [])
    as [[e|res] t'] eqn:Hrun.
  - vm_compute in Hrun. discriminate.
  - destruct (Hclaim _ _ _ _ _ _ _ _ _ _ Hrun (Sample.anchor "#x") "#x"%string)
      as [Hnot _].
    + vm_compute. apply list_elem_of_here.
    + reflexivity.
    + reflexivity.
    + vm_compute in Hrun. injection Hrun as <- <-.
      apply Hnot. vm_compute. apply list_elem_of_here.
Qed.

Lemma check_url_liveness_witness :
  ∃ ok code,
    check_url "https://site.com/p" [] = (inr (ok, code), [EvRequest (head_request "https://site.com/p")])
    ∧ ok = true ∧ code = Some 200.
Proof.
  destruct (check_url_liveness "https://site.com/p" [])
    as (ok & code & Hrun & Hok & Hcode & _).
  exists ok, code. split; [exact Hrun|]. split.
  - apply Hok. eexists. split; [reflexivity|]. simpl. lia.
  - apply (Hcode {| status_code := 200; resp_headers := ∅ |}). reflexivity.
Defined.

Lemma probe_limit_witness :
  0 ≤ 2
  ∧ ∃ res t',
      analyze_links Sample.page3 "https://site.com/d/x" 2 [] = (inr res, t')
      ∧ probed_urls t'
        = firstn (Z.to_nat 2) (internal_links res)
          ++ firstn (Z.to_nat 2) (external_links res)
      ∧ Z.of_nat (length (firstn (Z.to_nat 2) (internal_links res))) ≤ 2
      ∧ map fst (broken_internal res)
          `sublist_of` firstn (Z.to_nat 2) (internal_links res).
Proof.
  split; [lia|].
  destruct (analyze_links Sample.page3 "https://site.com/d/x" 2 [])
    as [[e|res] t'] eqn:Hrun; [vm_compute in Hrun; discriminate|].
  destruct (probe_limit Sample.page3 "https://site.com/d/x" 2 [] ltac:(lia))
    as [Hret _].
  destruct (Hret res t' Hrun)
    as (tp & Ht & Hp & _ & Hli & _ & _ & _ & Hbi & _).
  exists res, tp. split; [exact (f_equal (pair (inr res)) Ht)|].
  split; [exact Hp|]. split; [exact Hli|exact Hbi].
Defined.

(** C4, as stated, fails for a negative limit: with [max_check_links = -1]
    the slice drops the last link only, so two of the three internal
    links of the page are probed and reported broken, where a limit read
    as a count allows none. *)
Lemma probe_limit_negative_counterexample :
  ¬ (∀ (P : PageLib) (U : UrlLib) (O : SetOrder) (W : World)
       (html base_url : string) (m : Z) (res : LinksResult) (t' : list Event),
       analyze_links html base_url m [] = (inr res, t') →
       (length (probed_urls t') ≤ Z.to_nat m + Z.to_nat m)%nat
       ∧ ∀ uc, uc ∈ broken_internal res →
               uc.1 ∈ firstn (Z.to_nat m) (internal_links res)).
Proof.
  intros Hclaim.
  destruct (analyze_links Sample.page3 "https://site.com/d/x" (-1) [])
    as [[e|res] t'] eqn:Hrun.
  - vm_compute in Hrun. discriminate.
  - destruct (Hclaim _ _ _ _ _ _ _ _ _ Hrun) as [Hle _].
    vm_compute in Hrun. injection Hrun as <- <-.
    vm_compute in Hle. lia.
Qed.

Lemma total_links_bound_witness :
  ∃ res t',
    analyze_links Sample.page1 "https://site.com" 50 [] = (inr res, t')
    ∧ (length (internal_links res) + length (external_links res)
       < total_links_on_page res)%nat.
Proof.
  destruct (analyze_links Sample.page1 "https://site.com" 50 [])
    as [[e|res] t'] eqn:Hrun; [vm_compute in Hrun; discriminate|].
  destruct (total_links_bound Sample.page1 "https://site.com" 50 [] res t')
    as (_ & _ & Hlt).
  - exists (Sample.anchor "#top"). split; [|reflexivity].
    vm_compute. apply list_elem_of_here.
  - exact Hrun.
  - exists res, t'. split; [reflexivity|exact Hlt].
Defined.

(** C8, as stated, fails on an anchor with an empty href: it is extracted
    and counted although its href is not nonempty. *)
Lemma empty_href_counterexample :
  ¬ (∀ (P : PageLib) (U : UrlLib) (O : SetOrder) (W : World)
       (html base_url : string) (m : Z) (t : list Event)
       (res : LinksResult) (t' : list Event),
       analyze_links html base_url m t = (inr res, t') →
       total_links_on_page res
       = length (List.filter has_nonempty_href (BeautifulSoup html))).
Proof.
  intros Hclaim.
  destruct (analyze_links Sample.page2 "https://site.com" 50 [])
    as [[e|res] t'] eqn:Hrun.
  - vm_compute in Hrun. discriminate.
  - pose proof (Hclaim _ _ _ _ _ _ _ _ _ _ Hrun) as Heq.
    vm_compute in Hrun. injection Hrun as <- <-.
    vm_compute in Heq. discriminate.
Qed.

Lemma total_links_counts_href_anchors_witness :
  ∃ res t',
    analyze_links Sample.page2 "https://site.com" 50 [] = (inr res, t')
    ∧ total_links_on_page res
      = length (List.filter has_href (BeautifulSoup Sample.page2))
    ∧ total_links_on_page res = 1%nat.
Proof.
  destruct (analyze_links Sample.page2 "https://site.com" 50 [])
    as [[e|res] t'] eqn:Hrun; [vm_compute in Hrun; discriminate|].
  destruct (total_links_counts_href_anchors Sample.page2 "https://site.com"
              50 []) as [_ Hres].
  destruct (Hres res t' Hrun) as [Hn _].
  exists res, t'. split; [reflexivity|]. split; [exact Hn|].
  rewrite Hn. reflexivity.
Defined.

Lemma checks_select_fields_witness :
  ∃ res t',
    run_full_analysis Sample.page1 "https://site.com" (ChecksStr "links") []
    = (inr res, t')
    ∧ dom res = {[ "url"; "timestamp"; "checks_run"; "links" ]}%string.
Proof.
  destruct (checks_select_fields Sample.page1 "https://site.com"
              (ChecksStr "links") [])
    as (_ & _ & _ & Hret & _ & Hlinks).
  destruct Hret as [_ (res & t' & Hrun)].
  { split.
    - intros _. eexists. vm_compute. reflexivity.
    - intros Hin%list_elem_of_In. vm_compute in Hin.
      destruct Hin as [[=]|[]]. }
  exists res, t'. split; [exact Hrun|]. apply (Hlinks res t' Hrun).
Defined.

Lemma default_runs_all_checks_witness :
  ∃ res t',
    run_full_analysis Sample.page1 "https://site.com" (ChecksStr "") []
    = (inr res, t')
    ∧ res !! "checks_run" = Some (VStrList all_checks)
    ∧ is_Some (res !! "performance").
Proof.
  destruct (default_runs_all_checks Sample.page1 "https://site.com"
              (ChecksStr "") [] eq_refl)
    as (_ & Hres & Hret & _).
  destruct Hret as [_ (res & t' & Hrun)].
  { split; [eexists _, _|eexists]; vm_compute; reflexivity. }
  destruct (Hres res t' Hrun)
    as (rl & ri & rs & rp & t1 & t2 & Hc & _ & _ & _ & _ & _ & Hp & _).
  exists res, t'. split; [exact Hrun|]. split; [exact Hc|]. by rewrite Hp.
Defined.

End Samples.

Lemma failed_security_check_witness :
  ∃ r t',
    @analyze_security Sample.urls Sample.offline "https://site.com" []
    = (inr r, t')
    ∧ @urlparse Sample.urls "https://site.com"
      = inr {| scheme := "https"; netloc := "site.com" |}
    ∧ https r = false
    ∧ sec_status_code r = None
    ∧ sec_error r = Some "connection refused"%string.
Proof.
  destruct (@failed_security_check_reports_no_https Sample.urls Sample.offline
              "https://site.com" [] Sample.refused eq_refl)
    as (r & t' & Hrun & Hh & Hs & He).
  exists r, t'. split; [exact Hrun|]. split; [reflexivity|]. done.
Defined.

Lemma network_checks_capture_errors_witness :
  ∃ res t' rs rp,
    @run_full_analysis Sample.pages Sample.urls Sample.order Sample.offline
      Sample.page1 "https://site.com" (ChecksStr "security,performance") []
    = (inr res, t')
    ∧ res !! "security" = Some (VSecurity rs)
    ∧ res !! "performance" = Some (VPerformance rp)
    ∧ sec_error rs = Some "connection refused"%string
    ∧ perf_error rp = Some "connection refused"%string.
Proof.
  destruct (@network_checks_capture_errors Sample.pages Sample.urls
              Sample.order Sample.offline "https://site.com" [])
    as (_ & _ & Hfull).
  destruct (Hfull Sample.page1 (ChecksStr "security,performance"))
    as [_ Hret].
  destruct Hret as (res & t' & Hrun & _ & _ & _ & _ & Hs & Hp).
  { intros Hin%list_elem_of_In. vm_compute in Hin.
    destruct Hin as [[=]|[[=]|[]]]. }
  { intros Hin%list_elem_of_In. vm_compute in Hin.
    destruct Hin as [[=]|[[=]|[]]]. }
  destruct Hs as (rs & t1 & Hrs & Hs);
    [vm_compute; apply list_elem_of_here|].
  destruct Hp as (rp & t2 & Hrp & Hp);
    [vm_compute; apply list_elem_of_further, list_elem_of_here|].
  exists res, t', rs, rp. do 3 (split; [assumption|]).
  destruct (@network_checks_capture_errors Sample.pages Sample.urls
              Sample.order Sample.offline "https://site.com" t1)
    as ((rs' & Hrs' & Hes) & _ & _).
  destruct (@network_checks_capture_errors Sample.pages Sample.urls
              Sample.order Sample.offline "https://site.com" t2)
    as (_ & (rp' & rest & Hrp' & Hep & _) & _).
  rewrite Hrs' in Hs. rewrite Hrp' in Hp. simpl in Hs, Hp.
  injection Hs as <-. injection Hp as <-.
  split; [apply (Hes Sample.refused)|apply (Hep Sample.refused)]; reflexivity.
Defined.

(** * Further properties of the analyzers *)

(** ** Trimming and lowercasing *)

Lemma str_lstrip_head (s : string) :
  str_lstrip s = EmptyString
  ∨ ∃ c r, str_lstrip s = String c r ∧ isspace c = false.
Proof.
  induction s as [|c s IH]; simpl; [by left|].
  destruct (isspace c) eqn:Hc; [exact IH|]. right. by exists c, s.
Qed.

Lemma str_rstrip_cons (c : ascii) (s : string) :
  isspace c = false → str_rstrip (String c s) = String c (str_rstrip s).
Proof. intros Hc. simpl. rewrite Hc. by destruct (str_rstrip s). Qed.

Lemma str_rstrip_idem (s : string) : str_rstrip (str_rstrip s) = str_rstrip s.
Proof.
  induction s as [|c s IH]; simpl; [done|].
  destruct (str_rstrip s) as [|c' r] eqn:Hr.
  - destruct (isspace c) eqn:Hc; [done|]. simpl. by rewrite Hc.
  - change (str_rstrip (String c (String c' r))) with
      (match str_rstrip (String c' r) with
       | EmptyString =>
           if isspace c then EmptyString else String c EmptyString
       | r' => String c r'
       end).
    by rewrite IH.
Qed.

Lemma str_strip_idem (s : string) : str_strip (str_strip s) = str_strip s.
Proof.
  unfold str_strip.
  destruct (str_lstrip_head s) as [->|(c & r & -> & Hc)]; [done|].
  rewrite str_rstrip_cons by done. simpl. rewrite Hc.
  rewrite str_rstrip_cons by done. by rewrite str_rstrip_idem.
Qed.

Lemma isspace_lower (c : ascii) : isspace (chr_lower c) = isspace c.
Proof. destruct c as [[] [] [] [] [] [] [] []]; reflexivity. Qed.

Lemma chr_lower_idem (c : ascii) : chr_lower (chr_lower c) = chr_lower c.
Proof. destruct c as [[] [] [] [] [] [] [] []]; reflexivity. Qed.

Lemma str_lower_idem (s : string) : str_lower (str_lower s) = str_lower s.
Proof.
  induction s as [|c s IH]; simpl; [done|]. by rewrite chr_lower_idem, IH.
Qed.

Lemma str_lstrip_lower (s : string) :
  str_lstrip (str_lower s) = str_lower (str_lstrip s).
Proof.
  induction s as [|c s IH]; simpl; [done|].
  rewrite isspace_lower. by destruct (isspace c).
Qed.

Lemma str_rstrip_lower (s : string) :
  str_rstrip (str_lower s) = str_lower (str_rstrip s).
Proof.
  induction s as [|c s IH]; simpl; [done|].
  rewrite IH, isspace_lower.
  destruct (str_rstrip s); simpl; [by destruct (isspace c)|done].
Qed.

Lemma str_strip_lower (s : string) :
  str_strip (str_lower s) = str_lower (str_strip s).
Proof. unfold str_strip. by rewrite str_lstrip_lower, str_rstrip_lower. Qed.

Lemma clean_name_idem (c : string) : clean_name (clean_name c) = clean_name c.
Proof.
  unfold clean_name.
  by rewrite str_strip_lower, str_lower_idem, str_strip_idem.
Qed.

Lemma str_split_nonempty (sep : ascii) (s : string) : str_split sep s ≠ [].
Proof.
  induction s as [|c s IH]; simpl; [done|].
  destruct (Ascii.eqb c sep); [done|]. by destruct (str_split sep s).
Qed.

Lemma resolve_checks_clean (checks : ChecksArg) :
  Forall (λ n, clean_name n = n) (resolve_checks checks).
Proof.
  assert (Forall (λ n, clean_name n = n) all_checks) as Hall.
  { repeat constructor. }
  assert (∀ l, Forall (λ n, clean_name n = n) (map clean_name l)) as Hmap.
  { intros l. induction l as [|x l IH]; simpl; constructor;
      [apply clean_name_idem|exact IH]. }
  unfold resolve_checks.
  destruct (checks_truthy checks); [|done]. destruct checks; auto.
Qed.

(** X13: the list bound to [checks] is never empty and holds trimmed,
    lowercase names only, so the checks_run of a result can be passed back
    as the selection and gives the same checks_run. *)
Theorem checks_run_round_trip (checks : ChecksArg) :
  resolve_checks checks ≠ []
  ∧ Forall (λ n, str_strip n = n ∧ str_lower n = n) (resolve_checks checks)
  ∧ resolve_checks (ChecksList (resolve_checks checks))
    = resolve_checks checks.
Proof.
  assert (resolve_checks checks ≠ []) as Hne.
  { unfold resolve_checks. destruct (checks_truthy checks) eqn:Ht; [|done].
    destruct checks as [|s|l]; simpl in *; [done| |].
    - pose proof (str_split_nonempty "," s).
      by destruct (str_split "," s).
    - apply negb_true_iff, bool_decide_eq_false in Ht. by destruct l. }
  split; [done|]. split.
  - eapply Forall_impl; [apply resolve_checks_clean|].
    intros n Hn. simpl. rewrite <- Hn. unfold clean_name. split.
    + by rewrite <- str_strip_lower, str_strip_idem.
    + by rewrite str_lower_idem.
  - unfold resolve_checks at 1. simpl.
    rewrite bool_decide_eq_false_2 by done. simpl.
    pose proof (resolve_checks_clean checks) as Hc. clear Hne.
    induction Hc as [|n l Hn Hl IH]; simpl; [done|].
    f_equal; [done|]. apply IH.
Qed.

Section PageFacts.
Context `{!PageLib, !UrlLib}.

(** X4: the lengths [analyze_basic] reports are those of the strings it
    reports, both strings are trimmed, the heading lists have one entry per
    heading element, and a page without a title element has the empty
    title of length 0. *)
Theorem basic_lengths_and_trim (html : string) :
  let r := analyze_basic html in
  title_length r = String.length (title r)
  ∧ meta_description_length r = String.length (meta_description r)
  ∧ str_strip (title r) = title r
  ∧ str_strip (meta_description r) = meta_description r
  ∧ length (h1 r) = length (List.filter (name_is "h1") (BeautifulSoup html))
  ∧ length (h2 r) = length (List.filter (name_is "h2") (BeautifulSoup html))
  ∧ (List.find (name_is "title") (BeautifulSoup html) = None →
     title r = ""%string ∧ title_length r = 0%nat).
Proof.
  cbv zeta. unfold analyze_basic. cbn [title title_length meta_description
    meta_description_length h1 h2].
  rewrite !length_map.
  do 2 (split; [reflexivity|]). split; [|split; [|split; [done|split; [done|]]]].
  - destruct (List.find (name_is "title") (BeautifulSoup html)) as [t|];
      [|done].
    destruct (tag_string t) as [s|]; [|done].
    destruct (str_truthy s); [apply str_strip_idem|done].
  - destruct (match find_meta "name" (BeautifulSoup html) with
              | Some m => Some m
              | None => find_meta "Name" (BeautifulSoup html)
              end) as [m|]; [|done].
    destruct (tag_get m "content") as [c|]; [|done].
    destruct (str_truthy c); [apply str_strip_idem|done].
  - by intros ->.
Qed.

(** The loop body of [analyze_images] on one element. *)
Lemma image_step_entry (base_url : option string)
    (acc : list string * list (string * string)) (img : Tag) :
  image_step base_url acc img
  = (s ← image_src base_url img;
     mret (if str_truthy (image_alt img) then acc.1 else acc.1 ++ [s],
           if (length acc.2 <? 10)%nat
           then acc.2 ++ [(s, image_alt img)] else acc.2)).
Proof. unfold image_step, image_src, image_alt. by destruct base_url. Qed.

(** The entries of a loop that returns: one per image, in order. *)
Lemma image_loop_inr (base_url : option string) (imgs : list Tag) :
  ∀ missing shown r,
    image_loop base_url imgs (missing, shown) = inr r →
    ∃ entries,
      Forall2 (λ i e, image_src base_url i = inr e.1 ∧ e.2 = image_alt i)
        imgs entries
      ∧ r = (missing
             ++ map fst (List.filter (λ e, negb (str_truthy e.2)) entries),
             shown ++ firstn (10 - length shown) entries).
Proof.
  induction imgs as [|img imgs IH]; intros missing shown r Hrun;
    simpl in Hrun.
  - injection Hrun as <-. exists []. split; [constructor|].
    by rewrite firstn_nil, !app_nil_r.
  - apply exc_bind_inr in Hrun as (acc' & Hstep & Hrun).
    rewrite image_step_entry in Hstep.
    apply exc_bind_inr in Hstep as (s & Hs & [= <-]). cbn [fst snd] in Hrun.
    apply IH in Hrun as (entries & Hall & ->).
    exists ((s, image_alt img) :: entries).
    split; [by constructor|]. cbn [List.filter snd].
    destruct (Nat.ltb_spec (length shown) 10) as [Hlt|Hge].
    + rewrite length_app. simpl.
      replace (10 - length shown)%nat with (S (10 - (length shown + 1)))
        by lia.
      destruct (str_truthy (image_alt img)); simpl;
        by rewrite <- ?app_assoc.
    + replace (10 - length shown)%nat with 0%nat by lia.
      destruct (str_truthy (image_alt img)); simpl;
        by rewrite <- ?app_assoc.
Qed.

(** The loop returns exactly when [urljoin] returns for every image that
    needs it, and an exception of the loop is one of [urljoin]. *)
Lemma image_loop_returns (base_url : option string) (imgs : list Tag) :
  ∀ acc,
    (∃ r, image_loop base_url imgs acc = inr r) ↔
    Forall (λ i, ∃ s, image_src base_url i = inr s) imgs.
Proof.
  induction imgs as [|img imgs IH]; intros acc; simpl.
  - split; [constructor|eauto].
  - rewrite Forall_cons. split.
    + intros (r & (acc' & Hstep & Hrun)%exc_bind_inr).
      rewrite image_step_entry in Hstep.
      apply exc_bind_inr in Hstep as (s & Hs & _).
      split; [eauto|]. apply (IH acc'). eauto.
    + intros [(s & Hs) Hrest].
      rewrite image_step_entry, Hs. unfold mbind at 1 2. unfold Exc_bind.
      unfold mret, Exc_ret. by apply IH.
Qed.

Lemma image_loop_inl (base_url : option string) (imgs : list Tag)
    (e : PyException) :
  ∀ acc,
    image_loop base_url imgs acc = inl e →
    ∃ i, i ∈ imgs ∧ image_src base_url i = inl e.
Proof.
  induction imgs as [|img imgs IH]; intros acc; simpl; [discriminate|].
  intros [Hstep|(acc' & _ & Hrun)]%exc_bind_inl.
  - rewrite image_step_entry in Hstep.
    apply exc_bind_inl in Hstep as [Hs|(s & _ & [=])].
    exists img. split; [apply list_elem_of_here|done].
  - destruct (IH _ Hrun) as (i & Hin & Hi).
    exists i. split; [by apply list_elem_of_further|done].
Qed.

End PageFacts.

Section ImageFacts.
Context `{!PageLib, !UrlLib}.

(** What [analyze_images] reports when it returns. *)
Lemma analyze_images_inr (html : string) (base_url : option string)
    (r : ImagesResult) :
  analyze_images html base_url = inr r →
  let imgs := List.filter (name_is "img") (BeautifulSoup html) in
  ∃ entries,
    Forall2 (λ i e, image_src base_url i = inr e.1 ∧ e.2 = image_alt i)
      imgs entries
    ∧ total_images r = length imgs
    ∧ missing_alt_count r
      = length (List.filter (λ e, negb (str_truthy e.2)) entries)
    ∧ missing_alt_examples r
      = firstn 10 (map fst (List.filter (λ e, negb (str_truthy e.2)) entries))
    ∧ examples r = firstn 10 entries.
Proof.
  unfold analyze_images. cbv zeta.
  intros (acc & Hloop & [= <-])%exc_bind_inr.
  apply image_loop_inr in Hloop as (entries & Hall & ->).
  exists entries. split; [done|]. simpl. rewrite length_map.
  by rewrite slice_to_nonneg by lia.
Qed.

Lemma analyze_images_returns (html : string) (base_url : option string) :
  (∃ r, analyze_images html base_url = inr r) ↔
  Forall (λ i, ∃ s, image_src base_url i = inr s)
    (List.filter (name_is "img") (BeautifulSoup html)).
Proof.
  rewrite <- (image_loop_returns base_url _ ([], [])).
  unfold analyze_images. split.
  - intros (r & (acc & Hloop & _)%exc_bind_inr). eauto.
  - intros (acc & Hloop). rewrite Hloop. eauto.
Qed.

Lemma analyze_images_inl (html : string) (base_url : option string)
    (e : PyException) :
  analyze_images html base_url = inl e →
  ∃ i, i ∈ List.filter (name_is "img") (BeautifulSoup html)
       ∧ image_src base_url i = inl e.
Proof.
  unfold analyze_images.
  intros [Hloop|(acc & _ & [=])]%exc_bind_inl.
  by apply image_loop_inl in Hloop.
Qed.

Lemma filter_length_le {A} (p : A → bool) (l : list A) :
  (length (List.filter p l) ≤ length l)%nat.
Proof. induction l as [|x l IH]; simpl; [lia|]. destruct (p x); simpl; lia. Qed.

(** The entries without alt text are those of the images without. *)
Lemma entries_missing_length (base_url : option string) (imgs : list Tag)
    (entries : list (string * string)) :
  Forall2 (λ i e, image_src base_url i = inr e.1 ∧ e.2 = image_alt i)
    imgs entries →
  length (List.filter (λ e, negb (str_truthy e.2)) entries)
  = length (List.filter (λ i, negb (str_truthy (image_alt i))) imgs).
Proof.
  induction 1 as [|i e imgs entries [_ He] _ IH]; simpl; [done|].
  rewrite He. destruct (str_truthy (image_alt i)); simpl; by rewrite IH.
Qed.

(** When the source of every image is known, so are the entries. *)
Lemma entries_known (base_url : option string) (f : Tag → string)
    (imgs : list Tag) (entries : list (string * string)) :
  (∀ i, i ∈ imgs → image_src base_url i = inr (f i)) →
  Forall2 (λ i e, image_src base_url i = inr e.1 ∧ e.2 = image_alt i)
    imgs entries →
  entries = map (λ i, (f i, image_alt i)) imgs.
Proof.
  intros Hf Hall. induction Hall as [|i [s a] imgs entries [Hs Ha] _ IH];
    simpl; [done|].
  simpl in Hs, Ha. rewrite Hf in Hs by apply list_elem_of_here.
  injection Hs as <-. subst a. f_equal. apply IH.
  intros j Hj. apply Hf. by apply list_elem_of_further.
Qed.

(** X1: when [analyze_images] returns, total_images is the number of
    [img] elements and missing_alt_count the number of those whose alt
    attribute is absent or blank (empty or white space only); it never
    exceeds total_images.  It returns exactly when [urljoin] returns for
    every source it is called on. *)
Theorem images_missing_alt_counted (html : string) (base_url : option string) :
  let imgs := List.filter (name_is "img") (BeautifulSoup html) in
  (∀ r, analyze_images html base_url = inr r →
     total_images r = length imgs
     ∧ missing_alt_count r
       = length (List.filter
                   (λ i, match tag_get i "alt" with
                         | Some a => String.eqb (str_strip a) ""
                         | None => true
                         end) imgs)
     ∧ (missing_alt_count r ≤ total_images r)%nat)
  ∧ ((∃ r, analyze_images html base_url = inr r) ↔
     Forall (λ i, ∃ s, image_src base_url i = inr s) imgs)
  ∧ (∀ e, analyze_images html base_url = inl e →
          ∃ i, i ∈ imgs ∧ image_src base_url i = inl e).
Proof.
  cbv zeta. split; [|split; [apply analyze_images_returns|
                             apply analyze_images_inl]].
  intros r (entries & Hall & -> & -> & _)%analyze_images_inr.
  rewrite (entries_missing_length _ _ _ Hall).
  assert (∀ l, List.filter (λ i, negb (str_truthy (image_alt i))) l
               = List.filter (λ i, match tag_get i "alt" with
                                   | Some a => String.eqb (str_strip a) ""
                                   | None => true
                                   end) l) as Hsame.
  { intros l. apply filter_ext. intros i. unfold image_alt, str_truthy.
    rewrite negb_involutive. by destruct (tag_get i "alt"). }
  rewrite Hsame. split; [done|]. split; [done|]. apply filter_length_le.
Qed.

(** X2: when [analyze_images] returns, the examples are the entries of
    the first ten images in document order, each with the source the loop
    computed and the trimmed alt text, and missing_alt_examples the
    sources of the first ten images without alt text, so neither list is
    longer than ten and each has the length of what it samples when that
    is at most ten. *)
Theorem images_examples_capped (html : string) (base_url : option string)
    (r : ImagesResult) :
  analyze_images html base_url = inr r →
  let imgs := List.filter (name_is "img") (BeautifulSoup html) in
  ∃ entries,
    Forall2 (λ i e, image_src base_url i = inr e.1 ∧ e.2 = image_alt i)
      imgs entries
    ∧ examples r = firstn 10 entries
    ∧ missing_alt_examples r
      = firstn 10 (map fst (List.filter (λ e, negb (str_truthy e.2)) entries))
    ∧ length (examples r) = Nat.min 10 (total_images r)
    ∧ length (missing_alt_examples r) = Nat.min 10 (missing_alt_count r).
Proof.
  intros (entries & Hall & Ht & Hm & Hme & He)%analyze_images_inr imgs.
  exists entries. split; [done|]. split; [done|]. split; [done|].
  rewrite He, Hme, Ht, Hm, !length_take, length_map.
  by rewrite (Forall2_length _ _ _ Hall).
Qed.

(** X3: without a base URL ([None] or the empty string) [analyze_images]
    returns and every source is reported as the attribute is written, the
    empty string when it is absent; with a base URL a source that is
    empty or starts with http is still reported as written. *)
Theorem images_src_kept (html : string) (base_url : option string) :
  let imgs := List.filter (name_is "img") (BeautifulSoup html) in
  let raw := λ i, default ""%string (tag_get i "src") in
  (base_url = None ∨ base_url = Some ""%string →
   ∃ r, analyze_images html base_url = inr r
     ∧ examples r = firstn 10 (map (λ i, (raw i, image_alt i)) imgs)
     ∧ missing_alt_examples r
       = firstn 10 (map raw (List.filter
                               (λ i, negb (str_truthy (image_alt i))) imgs)))
  ∧ (∀ i, raw i = ""%string ∨ str_startswith (raw i) "http" = true →
          image_src base_url i = inr (raw i)).
Proof.
  cbv zeta. split.
  - intros Hbase.
    assert (∀ i, image_src base_url i
                 = inr (default ""%string (tag_get i "src"))) as Hsrc.
    { intros i. unfold image_src. destruct Hbase as [->| ->]; [done|].
      simpl. by rewrite andb_false_r. }
    destruct (proj2 (analyze_images_returns html base_url)) as (r & Hr).
    { apply Forall_forall. intros i _. eauto. }
    exists r. split; [done|].
    apply analyze_images_inr in Hr as (entries & Hall & _ & _ & -> & ->).
    rewrite (entries_known base_url
               (λ i, default ""%string (tag_get i "src")) _ _
               (λ i _, Hsrc i) Hall).
    split; [done|]. f_equal. clear Hall.
    induction (List.filter (name_is "img") (BeautifulSoup html))
      as [|i l IH]; simpl; [done|].
    destruct (str_truthy (image_alt i)); simpl; by rewrite IH.
  - intros i Hi. unfold image_src. destruct base_url as [b|]; [|done].
    destruct Hi as [->| ->]; [done|]. simpl. by rewrite andb_false_r.
Qed.

End ImageFacts.

(** ** Further properties of the network checks *)

Lemma outcome_broken (answer : PyException + Response) (c : option Z) :
  outcome answer = (false, c) →
  c = None ∨ ∃ code, c = Some code ∧ 400 ≤ code.
Proof.
  destruct answer as [e|r]; simpl; [intros [= <-]; by left|].
  intros [= Hok <-].
  right. exists (status_code r). split; [done|].
  apply negb_false_iff, Z.leb_le in Hok. done.
Qed.

Lemma get_requests_app (t1 t2 : list Event) :
  get_requests (t1 ++ t2) = get_requests t1 ++ get_requests t2.
Proof. unfold get_requests. apply omap_app. Qed.

Lemma get_requests_head_events (links : list string) :
  get_requests (head_events links) = [].
Proof. induction links as [|u links IH]; simpl; done. Qed.

Lemma probed_urls_get (u : string) (timeout : Z) (stream : bool) :
  probed_urls [EvRequest (get_request u timeout stream)] = [].
Proof. reflexivity. Qed.

Section NetFacts.
Context `{!PageLib, !UrlLib, !SetOrder, !World}.

(** X7: when [analyze_links] returns, every entry of broken_internal and
    broken_external carries either no status (the probe raised) or a
    status code of 400 or more. *)
Theorem broken_entries_status (html base_url : string) (m : Z)
    (t : list Event) (res : LinksResult) (t' : list Event) :
  analyze_links html base_url m t = (inr res, t') →
  ∀ u c, (u, c) ∈ broken_internal res ∨ (u, c) ∈ broken_external res →
         c = None ∨ ∃ code, c = Some code ∧ 400 ≤ code.
Proof.
  intros (sets & _ & _ & _ & _ & _ & _ & _ & Hbi & Hbe)%analyze_links_inr
    u c Hin.
  rewrite Forall_forall in Hbi, Hbe.
  destruct Hin as [Hin|Hin]; [apply Hbi in Hin|apply Hbe in Hin];
    destruct Hin as (t0 & Ho); by apply outcome_broken in Ho.
Qed.

Lemma set_to_list_empty : set_to_list (∅ : gset string) = [].
Proof.
  destruct (set_to_list ∅) as [|x l] eqn:Hl; [done|].
  assert (x ∈ (∅ : gset string)) as Hx.
  { apply set_to_list_elem. rewrite Hl. apply list_elem_of_here. }
  set_solver.
Qed.

(** X14: with [max_check_links = 0] no request is sent, whether
    [analyze_links] returns or raises; when it returns no link is
    reported broken, while the anchors are still counted. *)
Theorem zero_limit_no_probes (html base_url : string) (t : list Event) :
  ∃ o,
    analyze_links html base_url 0 t = (o, t)
    ∧ ∀ res, o = inr res →
        broken_internal res = [] ∧ broken_external res = []
        ∧ total_links_on_page res
          = length (find_all_a_href (BeautifulSoup html)).
Proof.
  destruct (analyze_links html base_url 0 t) as [[e|res] t'] eqn:Hrun.
  - apply analyze_links_inl in Hrun as [_ ->]. eexists. split; [done|].
    intros res [=].
  - apply analyze_links_inr
      in Hrun as (sets & _ & Ht & _ & _ & -> & Hbi & Hbe & _).
    unfold slice_to in *. simpl in *. rewrite !app_nil_r.
    apply sublist_nil_r in Hbi, Hbe.
    exists (inr res). split; [done|]. intros res' [= <-].
    split; [by destruct (broken_internal res)|].
    split; [by destruct (broken_external res)|done].
Qed.

(** X15: on a page without an anchor that has an href, [analyze_links]
    sends no request, whatever the limit: it gives the empty result when
    [urlparse] accepts the base URL and raises its exception otherwise. *)
Theorem no_anchors_empty_result (html base_url : string) (m : Z)
    (t : list Event) :
  find_all_a_href (BeautifulSoup html) = [] →
  analyze_links html base_url m t
  = (match urlparse base_url with
     | inr _ => inr {| total_links_on_page := 0; internal_links := [];
                       external_links := []; broken_internal := [];
                       broken_external := [] |}
     | inl e => inl e
     end, t).
Proof.
  intros Hnone.
  pose proof (analyze_links_run html base_url m t) as Hr. cbv zeta in Hr.
  rewrite Hnone in Hr. unfold collect_links in Hr. simpl in Hr.
  destruct (urlparse base_url) as [e|pb]; simpl in Hr; [done|].
  destruct Hr as (bi & be & Hrun & Hbi & Hbe & _).
  rewrite Hrun. rewrite set_to_list_empty in *.
  assert (slice_to ([] : list string) m = []) as Hs.
  { unfold slice_to. by destruct (0 <=? m); rewrite firstn_nil. }
  rewrite Hs in *. apply sublist_nil_r in Hbi, Hbe.
  destruct bi; [|done]. destruct be; [|done].
  simpl. by rewrite app_nil_r.
Qed.

(** X5: [analyze_security] always returns after one GET request with
    timeout 8.  The status code and the headers are those of the response
    whenever the request was answered, also when [urlparse] then raises;
    the error is unset exactly when the request was answered and
    [urlparse] accepted the URL, and https is true exactly when moreover
    the scheme of the URL is https. *)
Theorem security_result_invariant (url : string) (t : list Event) :
  ∃ r,
    analyze_security url t
    = (inr r, t ++ [EvRequest (get_request url 8 false)])
    ∧ (is_Some (sec_status_code r) ↔
       ∃ resp, net_send t (get_request url 8 false) = inr resp)
    ∧ (sec_error r = None ↔
       ∃ resp p, net_send t (get_request url 8 false) = inr resp
                 ∧ urlparse url = inr p)
    ∧ (https r = true ↔
       sec_error r = None
       ∧ ∃ p, urlparse url = inr p ∧ scheme p = "https"%string)
    ∧ (∀ resp, net_send t (get_request url 8 false) = inr resp →
         sec_status_code r = Some (status_code resp)
         ∧ sec_headers r = resp_headers resp)
    ∧ (∀ resp e, net_send t (get_request url 8 false) = inr resp →
         urlparse url = inl e →
         sec_error r = Some (exc_str e) ∧ https r = false)
    ∧ (∀ e, net_send t (get_request url 8 false) = inl e →
         sec_error r = Some (exc_str e) ∧ sec_status_code r = None
         ∧ sec_headers r = ∅ ∧ https r = false).
Proof.
  rewrite analyze_security_run. eexists. split; [reflexivity|].
  destruct (net_send t (get_request url 8 false)) as [e|resp]; simpl.
  - split; [split; [by intros [? ?]|by intros [? ?]]|].
    split; [split; [done|by intros (? & ? & ? & _)]|].
    split; [split; [done|by intros [? _]]|].
    split; [done|]. split; [done|]. by intros e' [= <-].
  - destruct (urlparse url) as [e|p]; simpl.
    + split; [split; eauto|].
      split; [split; [done|by intros (? & ? & _ & ?)]|].
      split; [split; [done|by intros [? _]]|].
      split; [by intros ? [= <-]|]. split; [|done].
      by intros ? e' _ [= <-].
    + split; [split; eauto|].
      split; [split; eauto|].
      split.
      { rewrite String.eqb_eq. split; [eauto|].
        by intros (_ & p' & [= <-] & ?). }
      split; [by intros ? [= <-]|]. split; [|done]. by intros ? e' _ [=].
Qed.

(** The shape of a run of [analyze_performance_simple]. *)
Lemma analyze_performance_shape (url : string) (t : list Event) :
  let rq := get_request url 12 true in
  ∃ r t',
    analyze_performance_simple url t = (inr r, t ++ t')
    ∧ get_requests t' = [rq] ∧ probed_urls t' = []
    ∧ ((perf_error r = None ∧ is_Some (time_to_first_byte r)
        ∧ is_Some (total_download r) ∧ is_Some (perf_status_code r))
       ∨ (is_Some (perf_error r) ∧ time_to_first_byte r = None
          ∧ total_download r = None ∧ perf_status_code r = None))
    ∧ (∀ resp e,
         net_send (t ++ [EvTime]) rq = inr resp →
         net_content (t ++ [EvTime; EvRequest rq; EvTime]) rq = Some e →
         perf_status_code r = None ∧ perf_error r = Some (exc_str e)).
Proof.
  intros rq.
  unfold analyze_performance_simple, try_except, requests_get, send,
    response_content, time_time, mbind, M_bind, mret, M_ret. fold rq.
  cbn beta iota.
  replace (t ++ [EvTime; EvRequest rq; EvTime])
    with (((t ++ [EvTime]) ++ [EvRequest rq]) ++ [EvTime])
    by (by rewrite <- !app_assoc).
  destruct (net_send (t ++ [EvTime]) rq) as [e|resp] eqn:Hs.
  - exists {| time_to_first_byte := None; total_download := None;
              perf_status_code := None; perf_error := Some (exc_str e) |},
      [EvTime; EvRequest rq].
    split; [by rewrite <- !app_assoc|]. split; [reflexivity|].
    split; [reflexivity|]. split; [right; simpl; eauto|]. intros ?? [=].
  - destruct (net_content (((t ++ [EvTime]) ++ [EvRequest rq]) ++ [EvTime]) rq)
      as [e|] eqn:Hc.
    + exists {| time_to_first_byte := None; total_download := None;
                perf_status_code := None; perf_error := Some (exc_str e) |},
        [EvTime; EvRequest rq; EvTime; EvContent rq].
      split; [by rewrite <- !app_assoc|]. split; [reflexivity|].
      split; [reflexivity|]. split; [right; simpl; eauto|].
      by intros ?? _ [= <-].
    + eexists _, [EvTime; EvRequest rq; EvTime; EvContent rq; EvTime].
      split; [by rewrite <- !app_assoc|]. split; [reflexivity|].
      split; [reflexivity|]. split; [left; simpl; eauto|].
      intros ?? _ [=].
Qed.

(** X6: [analyze_performance_simple] always returns and sends one GET
    request (streamed, timeout 12) and no other; its result has either
    the error and none of the three measurements, or the three
    measurements and no error.  When the download fails after a response
    the status code of that response is not reported. *)
Theorem performance_result_invariant (url : string) (t : list Event) :
  let rq := get_request url 12 true in
  ∃ r t',
    analyze_performance_simple url t = (inr r, t ++ t')
    ∧ get_requests t' = [rq] ∧ probed_urls t' = []
    ∧ ((perf_error r = None ∧ is_Some (time_to_first_byte r)
        ∧ is_Some (total_download r) ∧ is_Some (perf_status_code r))
       ∨ (is_Some (perf_error r) ∧ time_to_first_byte r = None
          ∧ total_download r = None ∧ perf_status_code r = None))
    ∧ (∀ resp e,
         net_send (t ++ [EvTime]) rq = inr resp →
         net_content (t ++ [EvTime; EvRequest rq; EvTime]) rq = Some e →
         perf_status_code r = None ∧ perf_error r = Some (exc_str e)).
Proof. apply analyze_performance_shape. Qed.

End NetFacts.

(** ** Further properties of the runner *)

Section RunnerFacts.
Context `{!PageLib, !UrlLib, !SetOrder, !World}.

Lemma str_in_false (x : string) (l : list string) :
  x ∉ l → str_in x l = false.
Proof.
  intros Hx. destruct (str_in x l) eqn:Hin; [|done].
  by apply str_in_elem in Hin.
Qed.

(** X10: a selection without links, security and performance touches
    nothing but the clock: the run adds one clock reading to the trace and
    no request, whether it returns or raises; it raises only when images
    is selected and the images check raises. *)
Theorem page_checks_do_no_io (html base_url : string) (checks : ChecksArg)
    (t : list Event) :
  "links"%string ∉ resolve_checks checks →
  "security"%string ∉ resolve_checks checks →
  "performance"%string ∉ resolve_checks checks →
  ∃ o,
    run_full_analysis html base_url checks t = (o, t ++ [EvTime])
    ∧ ((∃ res, o = inr res) ↔
       ("images"%string ∈ resolve_checks checks →
        ∃ ri, analyze_images html (Some base_url) = inr ri))
    ∧ (∀ e, o = inl e →
         "images"%string ∈ resolve_checks checks
         ∧ analyze_images html (Some base_url) = inl e).
Proof.
  intros Hl Hs Hp.
  destruct (run_full_analysis_run html base_url checks t)
    as (ol & t1 & Hl' & Hrest).
  rewrite (str_in_false _ _ Hl) in Hl'. destruct Hl' as [-> ->].
  rewrite (str_in_false _ _ Hs), (str_in_false _ _ Hp) in Hrest.
  destruct (str_in "images" (resolve_checks checks)) eqn:Hi.
  - pose proof (proj1 (str_in_elem _ _) Hi) as Hin.
    destruct (analyze_images html (Some base_url)) as [e|ri].
    + exists (inl e). split; [done|]. split.
      * split; [by intros [? ?]|]. intros Hx. by destruct (Hx Hin) as [? ?].
      * by intros e' [= <-].
    + destruct Hrest as (rs & rp & t2 & t3 & Hrun & -> & ->).
      eexists. split; [exact Hrun|]. split; [split; eauto|done].
  - assert ("images"%string ∉ resolve_checks checks) as Hnin.
    { intros Hin%str_in_elem. congruence. }
    destruct Hrest as (rs & rp & t2 & t3 & Hrun & -> & ->).
    eexists. split; [exact Hrun|]. split; [split; [done|eauto]|done].
Qed.

Lemma slice_to_length_le {A} (l : list A) (m : Z) :
  0 ≤ m → (length (slice_to l m) ≤ Z.to_nat m)%nat.
Proof. intros Hm. rewrite slice_to_nonneg by done. rewrite length_take. lia. Qed.

(** What the links check adds to the trace of a run. *)
Lemma links_stage_trace (html base_url : string) (cs : list string)
    (t0 : list Event) (ol : PyException + LinksResult) (t1 : list Event) :
  (if str_in "links" cs
   then analyze_links html base_url 50 t0 = (ol, t1)
   else ol = inr no_links ∧ t1 = t0) →
  ∃ tl, t1 = t0 ++ tl ∧ (length (probed_urls tl) ≤ 100)%nat
        ∧ get_requests tl = [].
Proof.
  destruct (str_in "links" cs).
  - destruct ol as [e|rl].
    + intros [_ ->]%analyze_links_inl. exists [].
      rewrite app_nil_r. split; [done|]. simpl. split; [lia|done].
    + intros (sets & _ & _ & _ & _ & -> & _)%analyze_links_inr.
      eexists. split; [reflexivity|].
      rewrite probed_urls_app, get_requests_app, !probed_urls_head_events,
        !get_requests_head_events, length_app.
      split; [|done].
      pose proof (slice_to_length_le (internal_links rl) 50 ltac:(lia)).
      pose proof (slice_to_length_le (external_links rl) 50 ltac:(lia)).
      lia.
  - intros [_ ->]. exists []. rewrite app_nil_r.
    split; [done|]. simpl. split; [lia|done].
Qed.

(** X11: one run sends at most 100 HEAD requests and at most two GET
    requests, whether it returns or raises. *)
Theorem run_request_bound (html base_url : string) (checks : ChecksArg)
    (t : list Event) :
  ∃ o t',
    run_full_analysis html base_url checks t = (o, t ++ t')
    ∧ (length (probed_urls t') ≤ 100)%nat
    ∧ (length (get_requests t') ≤ 2)%nat.
Proof.
  destruct (run_full_analysis_run html base_url checks t)
    as (ol & t1 & Hl & Hrest).
  destruct (links_stage_trace _ _ _ _ _ _ Hl) as (tl & -> & Hlp & Hlg).
  assert (∀ e, ∃ o t',
            (inl e : PyException + gmap string Value, (t ++ [EvTime]) ++ tl)
            = (o, t ++ t')
            ∧ (length (probed_urls t') ≤ 100)%nat
            ∧ (length (get_requests t') ≤ 2)%nat) as Hraise.
  { intros e. exists (inl e), ([EvTime] ++ tl).
    split; [by rewrite <- !app_assoc|].
    rewrite !probed_urls_app, !get_requests_app, !length_app, Hlg.
    simpl. lia. }
  destruct ol as [e|rl]; [rewrite Hrest; apply Hraise|].
  destruct (if str_in "images" (resolve_checks checks)
            then analyze_images html (Some base_url)
            else inr no_images) as [e|ri]; [rewrite Hrest; apply Hraise|].
  destruct Hrest as (rs & rp & t2 & t3 & Hrun & Hs & Hp).
  assert (∃ ts, t2 = ((t ++ [EvTime]) ++ tl) ++ ts
                ∧ probed_urls ts = [] ∧ (length (get_requests ts) ≤ 1)%nat)
    as (ts & -> & Hsp & Hsg).
  { destruct (str_in "security" (resolve_checks checks)).
    - rewrite analyze_security_run in Hs. injection Hs as _ <-.
      eexists. split; [reflexivity|]. split; [reflexivity|simpl; lia].
    - subst t2. exists []. rewrite app_nil_r. split; [done|].
      split; [done|simpl; lia]. }
  assert (∃ tp, t3 = (((t ++ [EvTime]) ++ tl) ++ ts) ++ tp
                ∧ probed_urls tp = [] ∧ (length (get_requests tp) ≤ 1)%nat)
    as (tp & -> & Hpp & Hpg).
  { destruct (str_in "performance" (resolve_checks checks)).
    - destruct (analyze_performance_shape base_url
                  (((t ++ [EvTime]) ++ tl) ++ ts))
        as (r & tp & Hrun' & Hg & Hh & _).
      rewrite Hrun' in Hp. injection Hp as _ <-.
      exists tp. split; [done|]. split; [done|]. rewrite Hg. simpl. lia.
    - subst t3. exists []. rewrite app_nil_r. split; [done|].
      split; [done|simpl; lia]. }
  eexists _, ([EvTime] ++ tl ++ ts ++ tp).
  split; [by rewrite Hrun, <- !app_assoc|].
  rewrite !probed_urls_app, !get_requests_app, !length_app, Hsp, Hpp, Hlg.
  simpl. lia.
Qed.

Lemma results_of_agree (base_url : string) (ts : Z) (cs1 cs2 : list string)
    (html : string) (rl1 rl2 : LinksResult) (ri : ImagesResult)
    (rs1 rs2 : SecurityResult) (rp1 rp2 : PerformanceResult) (k : string) :
  (∀ n, str_in n cs1 = str_in n cs2) →
  (str_in "links" cs1 = true → rl1 = rl2) →
  (str_in "security" cs1 = true → rs1 = rs2) →
  (str_in "performance" cs1 = true → rp1 = rp2) →
  k ≠ "checks_run"%string →
  results_of base_url ts cs1 html rl1 ri rs1 rp1 !! k
  = results_of base_url ts cs2 html rl2 ri rs2 rp2 !! k.
Proof.
  intros Hb Hl Hs Hp Hk.
  rewrite !results_of_lookup, !base_results_lookup, <- !Hb.
  rewrite (bool_decide_eq_false_2 ("checks_run"%string = k)) by done.
  destruct (str_in "performance" cs1); simpl;
    [rewrite Hp by done|]; [case_bool_decide; [done|]|];
    (destruct (str_in "security" cs1); simpl;
       [rewrite Hs by done|]; [case_bool_decide; [done|]|]);
    (destruct (str_in "links" cs1); simpl; [rewrite Hl by done|]; done).
Qed.

(** X12: how the names are ordered or repeated in the selection does not
    matter: two selections with the same names give the same trace and
    the same outcome, either the same exception or results that agree on
    every key but checks_run. *)
Theorem selection_order_irrelevant (html base_url : string)
    (checks1 checks2 : ChecksArg) (t : list Event) :
  (∀ n, n ∈ resolve_checks checks1 ↔ n ∈ resolve_checks checks2) →
  ∃ o1 o2 t',
    run_full_analysis html base_url checks1 t = (o1, t')
    ∧ run_full_analysis html base_url checks2 t = (o2, t')
    ∧ match o1, o2 with
      | inr res1, inr res2 =>
          ∀ k, k ≠ "checks_run"%string → res1 !! k = res2 !! k
      | inl e1, inl e2 => e1 = e2
      | _, _ => False
      end.
Proof.
  intros Hsame.
  assert (∀ n, str_in n (resolve_checks checks1)
               = str_in n (resolve_checks checks2)) as Hb.
  { intros n. destruct (str_in n (resolve_checks checks2)) eqn:Hn2.
    - apply str_in_elem, Hsame, str_in_elem. done.
    - apply str_in_false. intros Hin%Hsame%str_in_elem. congruence. }
  destruct (run_full_analysis_run html base_url checks1 t)
    as (ol & t1 & Hl1 & Hrest1).
  destruct (run_full_analysis_run html base_url checks2 t)
    as (ol2 & u1 & Hl2 & Hrest2).
  rewrite <- !Hb in Hl2, Hrest2.
  assert (ol2 = ol ∧ u1 = t1) as [-> ->].
  { destruct (str_in "links" (resolve_checks checks1)).
    - rewrite Hl1 in Hl2. by injection Hl2 as <- <-.
    - destruct Hl1 as [-> ->]. by destruct Hl2 as [-> ->]. }
  destruct ol as [e|rl].
  { exists (inl e), (inl e), t1. done. }
  destruct (if str_in "images" (resolve_checks checks1)
            then analyze_images html (Some base_url)
            else inr no_images) as [e|ri].
  { exists (inl e), (inl e), t1. done. }
  destruct Hrest1 as (rs1 & rp1 & t2 & t3 & Hrun1 & Hs1 & Hp1).
  destruct Hrest2 as (rs2 & rp2 & u2 & u3 & Hrun2 & Hs2 & Hp2).
  rewrite <- Hb in Hs2. rewrite <- Hb in Hp2.
  assert (t2 = u2
          ∧ (str_in "security" (resolve_checks checks1) = true → rs1 = rs2))
    as [<- Hrs].
  { destruct (str_in "security" (resolve_checks checks1)).
    - rewrite Hs1 in Hs2. by injection Hs2 as <- <-.
    - by subst. }
  assert (t3 = u3
          ∧ (str_in "performance" (resolve_checks checks1) = true → rp1 = rp2))
    as [<- Hrp].
  { destruct (str_in "performance" (resolve_checks checks1)).
    - rewrite Hp1 in Hp2. by injection Hp2 as <- <-.
    - by subst. }
  eexists _, _, t3. split; [exact Hrun1|]. split; [exact Hrun2|].
  intros k Hk. by apply results_of_agree.
Qed.

(** X9: white space around an href does not matter: an anchor and one
    whose href is the trimmed href of the first change the two sets in the
    same way. *)
Theorem href_whitespace_irrelevant (base_url base_domain raw : string)
    (a a' : Tag) (acc : gset string * gset string) :
  tag_get a "href" = Some raw →
  tag_get a' "href" = Some (str_strip raw) →
  link_step base_url base_domain acc a = link_step base_url base_domain acc a'.
Proof.
  intros Ha Ha'. unfold link_step. by rewrite Ha, Ha', str_strip_idem.
Qed.

End RunnerFacts.

(** ** The fetcher *)

Section FetcherFacts.
Context `{!UrlLib, !World, !RequestsLib}.

(** The run of [fetch_page], by what the network does. *)
Lemma fetch_page_run (url : string) (timeout : Z) (out : list string)
    (t : list Event) :
  let rq := fetcher_request url timeout in
  let t' := t ++ [EvRequest rq] in
  fetch_page url timeout out t
  = match net_send t rq with
    | inr r =>
        if (400 <=? status_code r) && (status_code r <? 600)
        then (inr (None, out ++ [fetch_error_line url (http_error rq r)]), t')
        else (inr (Some (response_text t' rq), out), t')
    | inl e =>
        if is_RequestException e
        then (inr (None, out ++ [fetch_error_line url e]), t')
        else (inl e, t')
    end.
Proof.
  cbv zeta.
  unfold fetch_page, try_except_if, send, raise_for_status, text_of, raise,
    mbind, M_bind, mret, M_ret, fetch_error_line.
  destruct (net_send t (fetcher_request url timeout)) as [e|r]; [done|].
  destruct ((400 <=? status_code r) && (status_code r <? 600)); [|done].
  by rewrite http_error_is_RequestException.
Qed.

(** X16: [fetch_page] sends one GET request.  It returns the text of the
    response, printing nothing, exactly when the request was answered with
    a status outside 400..599; it returns [None] and prints one error line
    exactly when the status is in 400..599 or the request raised a
    [RequestException]; any other exception of the request propagates to
    the caller. *)
Theorem fetch_page_outcomes (url : string) (timeout : Z) (out : list string)
    (t : list Event) :
  let rq := fetcher_request url timeout in
  let t' := t ++ [EvRequest rq] in
  (fetch_page url timeout out t).2 = t'
  ∧ (∀ body out',
       (fetch_page url timeout out t).1 = inr (Some body, out') ↔
       (∃ r, net_send t rq = inr r
             ∧ (status_code r < 400 ∨ 600 ≤ status_code r))
       ∧ body = response_text t' rq ∧ out' = out)
  ∧ (∀ out',
       (fetch_page url timeout out t).1 = inr (None, out') ↔
       ∃ e, out' = out ++ [fetch_error_line url e]
            ∧ ((net_send t rq = inl e ∧ is_RequestException e = true)
               ∨ ∃ r, net_send t rq = inr r ∧ 400 ≤ status_code r < 600
                      ∧ e = http_error rq r))
  ∧ (∀ e, (fetch_page url timeout out t).1 = inl e ↔
          net_send t rq = inl e ∧ is_RequestException e = false).
Proof.
  cbv zeta. rewrite fetch_page_run.
  destruct (net_send t (fetcher_request url timeout)) as [e|r] eqn:Hs.
  - destruct (is_RequestException e) eqn:He; simpl.
    + split; [done|]. split; [|split].
      * intros body out'. split; [done|]. by intros [(r & [=] & _) _].
      * intros out'. split.
        -- intros [= <-]. exists e. split; [done|]. by left.
        -- intros (e' & -> & [[[= <-] _]|(r & [=] & _)]). done.
      * intros e'. split; [done|]. intros [[= <-] He']. congruence.
    + split; [done|]. split; [|split].
      * intros body out'. split; [done|]. by intros [(r & [=] & _) _].
      * intros out'. split; [done|].
        intros (e' & _ & [[[= <-] He']|(r & [=] & _)]). congruence.
      * intros e'. split; [by intros [= <-]|]. by intros [[= <-] _].
  - destruct (Z.leb_spec 400 (status_code r)) as [Hlo|Hlo];
      destruct (Z.ltb_spec (status_code r) 600) as [Hhi|Hhi]; simpl.
    all: split; [done|]; split; [|split].
    all: try (intros e'; split; [done|by intros [[=] _]]).
    all: try (intros body out'; split;
              [by intros [= <- <-]; split; [exists r; split; [done|lia]|]
              |by intros [_ [-> ->]]]).
    all: try (intros body out'; split;
              [done|intros [(r' & [= <-] & Hr) _]; lia]).
    all: try (intros out'; split;
              [done|intros (e' & _ & [[[=] _]|(r' & [= <-] & Hr & _)]); lia]).
    intros out'. split.
    + intros [= <-]. eexists. split; [reflexivity|]. right.
      exists r. split; [done|]. split; [lia|done].
    + by intros (e' & -> & [[[=] _]|(r' & [= <-] & _ & ->)]).
Qed.

(** X17: [check_robots] parses the base URL first.  When [urlparse]
    raises, no request is sent, and the exception propagates unless it is
    a [RequestException], in which case the dictionary holds found alone.
    Otherwise one GET request is sent, to scheme://netloc/robots.txt of
    the base URL.  A dictionary it returns always has the key found;
    found is true exactly when the answer has status 200, and then the
    dictionary holds the text and the URL; for another status it holds
    that status and the URL; when the request raised a [RequestException]
    it holds found alone.  Another exception propagates. *)
Theorem check_robots_outcomes (base_url : string) (timeout : Z)
    (t : list Event) :
  match urlparse base_url with
  | inl e =>
      check_robots base_url timeout t
      = (if is_RequestException e
         then inr {[ "found"%string := RBool false ]} else inl e, t)
  | inr parsed =>
      let rq := fetcher_request (robots_url parsed) timeout in
      let t' := t ++ [EvRequest rq] in
      (check_robots base_url timeout t).2 = t'
      ∧ (∀ d, (check_robots base_url timeout t).1 = inr d →
           (d !! "found" = Some (RBool true) ↔
            ∃ r, net_send t rq = inr r ∧ status_code r = 200)
           ∧ (d !! "found" = Some (RBool true)
              ∨ d !! "found" = Some (RBool false))
           ∧ (d !! "found" = Some (RBool true) →
              d !! "content" = Some (RStr (response_text t' rq))
              ∧ d !! "url" = Some (RStr (robots_url parsed))
              ∧ d !! "status_code" = None)
           ∧ (∀ r, net_send t rq = inr r → status_code r ≠ 200 →
                   d !! "status_code" = Some (RInt (status_code r))
                   ∧ d !! "url" = Some (RStr (robots_url parsed))
                   ∧ d !! "content" = None)
           ∧ (∀ e, net_send t rq = inl e →
                   d = {[ "found"%string := RBool false ]}))
      ∧ (∀ e, (check_robots base_url timeout t).1 = inl e ↔
              net_send t rq = inl e ∧ is_RequestException e = false)
  end.
Proof.
  unfold check_robots, try_except_if, send, text_of, lift, mbind, M_bind,
    mret, M_ret.
  destruct (urlparse base_url) as [e0|parsed].
  { by destruct (is_RequestException e0). }
  cbv zeta.
  set (rq := fetcher_request (robots_url parsed) timeout).
  destruct (net_send t rq) as [e|r] eqn:Hs.
  - destruct (is_RequestException e) eqn:He; simpl.
    + split; [done|]. split.
      * intros d [= <-]. split; [split; [done|by intros (r & [=] & _)]|].
        split; [by right|]. split; [done|]. split; [intros r [=]|].
        by intros e' _.
      * intros e'. split; [done|]. intros [[= <-] He']. congruence.
    + split; [done|]. split; [done|].
      intros e'. split; [by intros [= <-]|]. by intros [[= <-] _].
  - destruct (Z.eqb_spec (status_code r) 200) as [H200|H200]; simpl.
    + split; [done|]. split; [|intros e'; split; [done|by intros [[=] _]]].
      intros d [= <-].
      split; [split; [intros _; by exists r|done]|].
      split; [by left|]. split; [done|].
      split; [intros r' [= <-]; done|intros e' [=]].
    + split; [done|]. split; [|intros e'; split; [done|by intros [[=] _]]].
      intros d [= <-].
      split; [split; [done|intros (r' & [= <-] & Hr); done]|].
      split; [by right|]. split; [done|].
      split; [by intros r' [= <-] _|intros e' [=]].
Qed.

End FetcherFacts.

(** * The further properties on sample pages *)

Section MoreSamples.
#[local] Existing Instance Sample.urls.
#[local] Existing Instance Sample.order.
#[local] Existing Instance Sample.world.
#[local] Existing Instance SampleFetch.lib.

(** A source the library refuses ends the images check. *)
Example refused_src :
  @analyze_images SampleFetch.pages _ SampleFetch.gallery (Some "https://[")
  = inl Sample.value_error.
Proof. vm_compute. reflexivity. Qed.

Lemma images_missing_alt_counted_witness :
  ∃ r,
    @analyze_images SampleFetch.pages _ SampleFetch.gallery
      (Some "https://site.com/d/") = inr r
    ∧ total_images r = 3%nat ∧ missing_alt_count r = 2%nat.
Proof.
  destruct (@images_missing_alt_counted SampleFetch.pages _
              SampleFetch.gallery (Some "https://site.com/d/"))
    as (Hres & Hret & _).
  destruct Hret as [_ (r & Hr)].
  { repeat constructor; eexists; vm_compute; reflexivity. }
  destruct (Hres r Hr) as (Ht & Hm & _).
  exists r. split; [exact Hr|]. rewrite Ht, Hm. split; reflexivity.
Defined.

Lemma images_examples_capped_witness :
  ∃ r,
    @analyze_images SampleFetch.pages _ SampleFetch.gallery
      (Some "https://site.com/d/") = inr r
    ∧ length (examples r) = Nat.min 10 (total_images r)
    ∧ ∃ entries, examples r = firstn 10 entries ∧ length entries = 3%nat.
Proof.
  destruct (@analyze_images SampleFetch.pages _ SampleFetch.gallery
              (Some "https://site.com/d/")) as [e|r] eqn:Hr;
    [vm_compute in Hr; discriminate|].
  destruct (@images_examples_capped SampleFetch.pages _ SampleFetch.gallery
              (Some "https://site.com/d/") r Hr)
    as (entries & Hall & He & _ & Hlen & _).
  exists r. split; [reflexivity|]. split; [exact Hlen|].
  exists entries. split; [exact He|].
  rewrite <- (Forall2_length _ _ _ Hall). reflexivity.
Defined.

Lemma images_src_kept_witness :
  ∃ r,
    @analyze_images SampleFetch.pages _ SampleFetch.gallery None = inr r
    ∧ examples r = [("a.png", ""); ("b.png", ""); ("c.png", "c")]%string.
Proof.
  destruct (@images_src_kept SampleFetch.pages _ SampleFetch.gallery None)
    as (Hkept & _).
  destruct (Hkept (or_introl eq_refl)) as (r & Hr & He & _).
  exists r. split; [exact Hr|]. rewrite He. reflexivity.
Defined.

Lemma broken_entries_status_witness :
  ∃ res t',
    @analyze_links Sample.pages _ _ _ Sample.page1 "https://site.com" 50 []
    = (inr res, t')
    ∧ ∀ u c, (u, c) ∈ broken_internal res ∨ (u, c) ∈ broken_external res →
             c = None ∨ ∃ code, c = Some code ∧ 400 ≤ code.
Proof.
  destruct (@analyze_links Sample.pages _ _ _ Sample.page1 "https://site.com"
              50 []) as [[e|res] t'] eqn:Hrun;
    [vm_compute in Hrun; discriminate|].
  exists res, t'. split; [reflexivity|].
  exact (@broken_entries_status Sample.pages _ _ _ Sample.page1
           "https://site.com" 50 [] res t' Hrun).
Defined.

Lemma no_anchors_empty_result_witness :
  (∃ res,
     @analyze_links Sample.pages _ _ _ "" "https://site.com" 50 []
     = (inr res, [])
     ∧ total_links_on_page res = 0%nat ∧ internal_links res = [])
  ∧ @analyze_links Sample.pages _ _ _ "" "https://[" 50 []
    = (inl Sample.value_error, []).
Proof.
  split.
  - eexists. split.
    + exact (@no_anchors_empty_result Sample.pages _ _ _ "" "https://site.com"
               50 [] eq_refl).
    + split; reflexivity.
  - exact (@no_anchors_empty_result Sample.pages _ _ _ "" "https://["
             50 [] eq_refl).
Defined.

Lemma page_checks_do_no_io_witness :
  ∃ res,
    @run_full_analysis Sample.pages _ _ _ Sample.page1 "https://site.com"
      (ChecksStr "basic, Images") []
    = (inr res, [EvTime]).
Proof.
  destruct (@page_checks_do_no_io Sample.pages _ _ _ Sample.page1
              "https://site.com" (ChecksStr "basic, Images") [])
    as (o & Hrun & Hret & _).
  1-3: change (resolve_checks (ChecksStr "basic, Images"))
         with ["basic"; "images"]%string.
  1-3: intros Hin; repeat (apply elem_of_cons in Hin as [Hin|Hin];
                           [discriminate|]); by apply elem_of_nil in Hin.
  destruct Hret as [_ (res & ->)].
  { intros _. eexists. vm_compute. reflexivity. }
  exists res. exact Hrun.
Defined.

Lemma selection_order_irrelevant_witness :
  ∃ res1 res2 t',
    @run_full_analysis Sample.pages _ _ _ Sample.page1 "https://site.com"
      (ChecksStr "links,basic") [] = (inr res1, t')
    ∧ @run_full_analysis Sample.pages _ _ _ Sample.page1 "https://site.com"
        (ChecksStr " BASIC ,links,basic") [] = (inr res2, t')
    ∧ res1 !! "links" = res2 !! "links".
Proof.
  destruct (@selection_order_irrelevant Sample.pages _ _ _ Sample.page1
              "https://site.com" (ChecksStr "links,basic")
              (ChecksStr " BASIC ,links,basic") [])
    as (o1 & o2 & t' & Hr1 & Hr2 & Hk).
  - intros n.
    change (resolve_checks (ChecksStr "links,basic"))
      with ["links"; "basic"]%string.
    change (resolve_checks (ChecksStr " BASIC ,links,basic"))
      with ["basic"; "links"; "basic"]%string.
    rewrite !elem_of_cons. tauto.
  - destruct (proj2 (@run_full_analysis_returns Sample.pages _ _ _
                       Sample.page1 "https://site.com"
                       (ChecksStr "links,basic") []))
      as (res1 & t1 & Hret).
    { split; intros _; eexists; vm_compute; reflexivity. }
    rewrite Hret in Hr1. injection Hr1 as <- <-.
    destruct o2 as [e2|res2]; [destruct Hk|].
    exists res1, res2, t1. split; [exact Hret|]. split; [exact Hr2|].
    apply Hk. discriminate.
Defined.

Lemma href_whitespace_irrelevant_witness :
  link_step "https://site.com" "site.com" (∅, ∅) (Sample.anchor " /p ")
  = link_step "https://site.com" "site.com" (∅, ∅) (Sample.anchor "/p").
Proof.
  apply (href_whitespace_irrelevant "https://site.com" "site.com" " /p ");
    reflexivity.
Defined.

Lemma fetch_page_outcomes_witness :
  (fetch_page "https://site.com/p" 12 [] []).1
  = inr (Some "<html>https://site.com/p</html>"%string, [])
  ∧ (fetch_page "https://site.com" 12 [] []).1
    = inr (None,
           ["[ERROR] Could not fetch https://site.com: client or server error"
           ]%string).
Proof.
  split.
  - apply (fetch_page_outcomes "https://site.com/p" 12 [] []).
    split; [|done]. eexists. split; [reflexivity|]. left. simpl. lia.
  - apply (fetch_page_outcomes "https://site.com" 12 [] []).
    eexists. split; cycle 1.
    + right. eexists. split; [reflexivity|]. split; [simpl; lia|reflexivity].
    + reflexivity.
Defined.

End MoreSamples.

(** ** The sitemap lookup *)

Lemma colon_lower (c : ascii) :
  Ascii.eqb (chr_lower c) ":" = Ascii.eqb c ":".
Proof. destruct c as [[] [] [] [] [] [] [] []]; reflexivity. Qed.

Lemma after_colon_lower (s : string) :
  is_Some (after_colon (str_lower s)) → is_Some (after_colon s).
Proof.
  induction s as [|c s IH]; simpl; [done|].
  rewrite colon_lower. destruct (Ascii.eqb c ":"); eauto.
Qed.

Lemma after_colon_prefix (p : string) :
  ∀ s, String.prefix p s = true → is_Some (after_colon p) →
       is_Some (after_colon s).
Proof.
  induction p as [|a p IH]; intros s Hp Hc; [by destruct Hc|].
  destruct s as [|c s]; [done|].
  pose proof (prefix_cons_eq _ _ _ _ Hp) as <-.
  cbn [String.prefix] in Hp. destruct (ascii_dec a a); [|done].
  simpl in *. destruct (Ascii.eqb a ":"); eauto.
Qed.

Section SitemapFacts.
Context `{!UrlLib, !World, !RequestsLib}.

Lemma first_sitemap_line_run (lines : list string) (t : list Event) :
  ∃ o, first_sitemap_line lines t = (inr o, t)
       ∧ (o = None ∨ ∃ u, o = Some (robots_hit u)).
Proof.
  induction lines as [|line rest IH]; simpl; [exists None; eauto|].
  destruct (str_startswith (str_lower line) "sitemap:") eqn:Hs; [|exact IH].
  assert (is_Some (after_colon line)) as [u ->].
  { apply after_colon_lower. eapply after_colon_prefix; [exact Hs|].
    by eexists. }
  exists (Some (robots_hit u)). split; [done|]. right. by exists u.
Qed.

Lemma sitemap_robots_step_run (root : string) (timeout : Z) (t : list Event)
    (u2 : string) :
  urljoin root "/robots.txt" = inr u2 →
  let rq := fetcher_request u2 timeout in
  (∃ o, sitemap_robots_step root timeout t = (inr o, t ++ [EvRequest rq])
        ∧ (o = None ∨ ∃ u, o = Some (robots_hit u)))
  ∨ (∃ e, sitemap_robots_step root timeout t = (inl e, t ++ [EvRequest rq])
          ∧ net_send t rq = inl e ∧ is_RequestException e = false).
Proof.
  intros Hu. cbv zeta.
  unfold sitemap_robots_step, try_except_if, send, text_of, lift, mbind,
    M_bind, mret, M_ret. rewrite Hu.
  destruct (net_send t _) as [e|r] eqn:Hs.
  - destruct (is_RequestException e) eqn:He; [left|right]; eauto.
  - left. destruct (status_code r =? 200); [|eauto].
    destruct (first_sitemap_line_run
                (str_splitlines (response_text (t ++ [EvRequest
                   (fetcher_request u2 timeout)])
                   (fetcher_request u2 timeout)))
                (t ++ [EvRequest (fetcher_request u2 timeout)]))
      as (o & -> & Ho).
    eauto.
Qed.

Lemma sitemap_xml_step_run (root : string) (timeout : Z) (t : list Event)
    (u1 : string) :
  urljoin root "/sitemap.xml" = inr u1 →
  let rq := fetcher_request u1 timeout in
  let t1 := t ++ [EvRequest rq] in
  sitemap_xml_step root timeout t
  = match net_send t rq with
    | inr r =>
        (inr (if (status_code r =? 200)
                 && str_contains (response_text t1 rq) "<urlset"
              then Some (<["content" := RStr (response_text t1 rq)]>
                           (<["url" := RStr u1]>
                              (<["found" := RBool true]> ∅)))
              else None), t1)
    | inl e => if is_RequestException e then (inr None, t1) else (inl e, t1)
    end.
Proof.
  intros Hu. cbv zeta.
  unfold sitemap_xml_step, try_except_if, send, text_of, lift, mbind, M_bind,
    mret, M_ret. rewrite Hu.
  destruct (net_send t _) as [e|r]; [done|].
  destruct (status_code r =? 200); [|done]. simpl.
  by destruct (str_contains _ _).
Qed.

(** What [fetch_sitemap] does once the first block fell through. *)
Lemma sitemap_fall_through (root : string) (timeout : Z) (t1 : list Event)
    (u2 : string) :
  urljoin root "/robots.txt" = inr u2 →
  let rq2 := fetcher_request u2 timeout in
  let second :=
    match sitemap_robots_step root timeout t1 with
    | (inr (Some d), t') => (inr d, t')
    | (inr None, t') => (inr (<["found" := RBool false]> ∅), t')
    | (inl e, t') => (inl e, t')
    end : (PyException + gmap string RobotsValue) * list Event in
  second.2 = t1 ++ [EvRequest rq2]
  ∧ (∀ d, second.1 = inr d →
       (d !! "found" = Some (RBool true)
        ∧ ∃ u, d !! "url" = Some (RStr u)
               ∧ (d !! "content" = None → str_strip u = u))
       ∨ d = {[ "found"%string := RBool false ]})
  ∧ (∀ e, second.1 = inl e →
       is_RequestException e = false ∧ net_send t1 rq2 = inl e).
Proof.
  intros Hu. cbv zeta.
  destruct (sitemap_robots_step_run root timeout t1 u2 Hu)
    as [(o & -> & Ho)|(e & -> & Hs & He)].
  - destruct Ho as [->|(u & ->)]; simpl.
    + split; [done|]. split; [|done]. intros d [= <-]. by right.
    + split; [done|]. split; [|done]. intros d [= <-]. left.
      split; [done|]. exists (str_strip u). split; [done|].
      intros _. apply str_strip_idem.
  - simpl. split; [done|]. split; [done|]. by intros e' [= <-].
Qed.

(** X18: [fetch_sitemap] parses the base URL first and raises the
    exception of [urlparse], or one of [urljoin] on /sitemap.xml that is
    no [RequestException], before any request.  With the two URLs that
    [urljoin] returns for /sitemap.xml and /robots.txt on the site root,
    it first requests the sitemap and requests robots.txt only when that
    gave no sitemap, so it sends one or two GET requests.  A sitemap.xml
    answered with status 200 and holding <urlset is returned with its
    text.  A dictionary it returns either has found true and a url, or is
    found false alone; a url taken from robots.txt is trimmed.  Only an
    exception of one of the two requests that is no [RequestException]
    reaches the caller. *)
Theorem fetch_sitemap_outcomes (base_url : string) (timeout : Z)
    (t : list Event) :
  (∀ e, urlparse base_url = inl e →
        fetch_sitemap base_url timeout t = (inl e, t))
  ∧ (∀ parsed e,
       urlparse base_url = inr parsed →
       urljoin (site_root parsed) "/sitemap.xml" = inl e →
       is_RequestException e = false →
       fetch_sitemap base_url timeout t = (inl e, t))
  ∧ (∀ parsed u1 u2,
       urlparse base_url = inr parsed →
       urljoin (site_root parsed) "/sitemap.xml" = inr u1 →
       urljoin (site_root parsed) "/robots.txt" = inr u2 →
       let rq1 := fetcher_request u1 timeout in
       let rq2 := fetcher_request u2 timeout in
       let t1 := t ++ [EvRequest rq1] in
       ((fetch_sitemap base_url timeout t).2 = t1
        ∨ (fetch_sitemap base_url timeout t).2 = t1 ++ [EvRequest rq2])
       ∧ (∀ r, net_send t rq1 = inr r → status_code r = 200 →
               str_contains (response_text t1 rq1) "<urlset" = true →
               fetch_sitemap base_url timeout t
               = (inr (<["content" := RStr (response_text t1 rq1)]>
                         (<["url" := RStr u1]>
                            (<["found" := RBool true]> ∅))), t1))
       ∧ (∀ d, (fetch_sitemap base_url timeout t).1 = inr d →
               (d !! "found" = Some (RBool true)
                ∧ ∃ u, d !! "url" = Some (RStr u)
                       ∧ (d !! "content" = None → str_strip u = u))
               ∨ d = {[ "found"%string := RBool false ]})
       ∧ (∀ e, (fetch_sitemap base_url timeout t).1 = inl e →
               is_RequestException e = false
               ∧ (net_send t rq1 = inl e ∨ net_send t1 rq2 = inl e))).
Proof.
  split; [|split].
  { intros e He. unfold fetch_sitemap, lift, mbind, M_bind. by rewrite He. }
  { intros parsed e Hp Hu Hre.
    unfold fetch_sitemap, sitemap_xml_step, try_except_if, lift, mbind,
      M_bind. by rewrite Hp, Hu, Hre. }
  intros parsed u1 u2 Hp Hu1 Hu2. cbv zeta.
  unfold fetch_sitemap, lift. unfold mbind at 1 4 7 10. unfold M_bind.
  rewrite Hp. unfold mbind, M_bind, mret, M_ret.
  rewrite (sitemap_xml_step_run _ _ _ u1 Hu1).
  set (root := site_root parsed).
  set (rq1 := fetcher_request u1 timeout).
  set (t1 := t ++ [EvRequest rq1]).
  pose proof (sitemap_fall_through root timeout t1 u2 Hu2) as Hsecond.
  cbv zeta in Hsecond.
  destruct (net_send t rq1) as [e|r] eqn:Hs;
    [destruct (is_RequestException e) eqn:Hre
    |destruct ((status_code r =? 200)
               && str_contains (response_text t1 rq1) "<urlset") eqn:Hhit].
  all: cbn beta iota; revert Hsecond.
  all: destruct (sitemap_robots_step root timeout t1) as [[e2|[d2|]] t2].
  all: cbn beta iota; intros (Htr & Hd & He).
  (* the first request raised another exception *)
  all: try (split; [by left|]; split; [intros ? [=]|];
            split; [done|]; intros e' [= <-]; eauto; fail).
  (* sitemap.xml was found *)
  all: try (split; [by left|]; split; [by intros r' [= <-] _ _|];
            split; [|done]; intros d [= <-]; left; split; [done|];
            eexists; split; [reflexivity|]; done).
  (* the first request raised a request exception: the second decides *)
  all: try (split; [by right|]; split; [intros ? [=]|];
            split; [exact Hd|];
            intros e' He'; destruct (He e' He'); eauto; fail).
  (* sitemap.xml gave nothing: the second decides *)
  all: split; [by right|]; split;
    [intros r' [= <-] H200 Hc; rewrite H200, Hc in Hhit; done|];
    split; [exact Hd|];
    intros e' He'; destruct (He e' He'); eauto.
Qed.

End SitemapFacts.

(** ** The HTML report *)

Section ReportFacts.
Context `{!PageLib, !UrlLib, !SetOrder, !World, !FormatLib}.

(** The dictionary of a run is one the report model reads. *)
Lemma typed_results_of (base_url : string) (ts : Z) (cs : list string)
    (html : string) (rl : LinksResult) (ri : ImagesResult)
    (rs : SecurityResult) (rp : PerformanceResult) :
  typed_results (results_of base_url ts cs html rl ri rs rp)
  = Some {| res_url := Some base_url;
            res_basic := if str_in "basic" cs
                         then Some (analyze_basic html) else None;
            res_word_count := if str_in "wordcount" cs
                              then Some (analyze_word_count html) else None;
            res_links := if str_in "links" cs then Some rl else None;
            res_images := if str_in "images" cs then Some ri else None;
            res_security := if str_in "security" cs then Some rs else None;
            res_performance := if str_in "performance" cs
                               then Some rp else None |}.
Proof.
  destruct (results_of_field base_url ts cs html rl ri rs rp)
    as (Hb & Hw & Hl & Hi & Hs & Hp & Hu & _).
  unfold typed_results. rewrite Hb, Hw, Hl, Hi, Hs, Hp, Hu.
  by destruct (str_in "basic" cs), (str_in "wordcount" cs),
    (str_in "links" cs), (str_in "images" cs), (str_in "security" cs),
    (str_in "performance" cs).
Qed.

Lemma security_line_in_parts (r : Results) (sec : SecurityResult) :
  res_security r = Some sec →
  ("<p>HTTPS: " +:+ bool_str (https sec) +:+ ", Status: None</p>")%string
  ∈ build_html_parts r.
Proof.
  intros Hsec. unfold build_html_parts. rewrite Hsec.
  rewrite !elem_of_app. do 4 right. left.
  apply list_elem_of_further, list_elem_of_here.
Qed.

(** X19: the HTML report of a run that returned after the security
    check shows the status as None whatever the request returned: the
    report reads the key status, the analyzer stores status_code. *)
Theorem html_security_status_none (html base_url : string)
    (checks : ChecksArg) (t : list Event) (res : gmap string Value)
    (t' : list Event) :
  "security"%string ∈ resolve_checks checks →
  run_full_analysis html base_url checks t = (inr res, t') →
  ∃ r sec,
    res !! "security" = Some (VSecurity sec)
    ∧ typed_results res = Some r
    ∧ res_security r = Some sec
    ∧ ("<p>HTTPS: " +:+ bool_str (https sec) +:+ ", Status: None</p>")%string
      ∈ build_html_parts r.
Proof.
  intros Hin%str_in_elem Hrun.
  apply run_full_analysis_inr in Hrun
    as (rl & ri & rs & rp & t1 & t2 & -> & _).
  eexists _, rs.
  destruct (results_of_field base_url (py_int (clock t))
              (resolve_checks checks) html rl ri rs rp)
    as (_ & _ & _ & _ & Hs & _).
  rewrite Hin in Hs. split; [exact Hs|].
  split; [apply typed_results_of|].
  assert (res_security
            {| res_url := Some base_url;
               res_basic := if str_in "basic" (resolve_checks checks)
                            then Some (analyze_basic html) else None;
               res_word_count :=
                 if str_in "wordcount" (resolve_checks checks)
                 then Some (analyze_word_count html) else None;
               res_links := if str_in "links" (resolve_checks checks)
                            then Some rl else None;
               res_images :=
                 if str_in "images" (resolve_checks checks)
                 then Some ri else None;
               res_security := if str_in "security" (resolve_checks checks)
                               then Some rs else None;
               res_performance :=
                 if str_in "performance" (resolve_checks checks)
                 then Some rp else None |} = Some rs) as Hsec.
  { simpl. by rewrite Hin. }
  split; [exact Hsec|]. by apply security_line_in_parts.
Qed.

End ReportFacts.

Section ReportSamples.
#[local] Existing Instance Sample.pages.
#[local] Existing Instance Sample.urls.
#[local] Existing Instance Sample.order.
#[local] Existing Instance Sample.world.
#[local] Existing Instance SampleReport.formats.

Lemma html_security_status_none_witness :
  ∃ res t' r sec,
    run_full_analysis Sample.page1 "https://site.com/p" (ChecksStr "security")
      [] = (inr res, t')
    ∧ res !! "security" = Some (VSecurity sec)
    ∧ typed_results res = Some r
    ∧ ("<p>HTTPS: " +:+ bool_str (https sec) +:+ ", Status: None</p>")%string
      ∈ build_html_parts r.
Proof.
  destruct (proj2 (run_full_analysis_returns Sample.page1
                     "https://site.com/p" (ChecksStr "security") []))
    as (res & t' & Hrun).
  { split; intros Hsel; vm_compute in Hsel; discriminate. }
  destruct (html_security_status_none Sample.page1 "https://site.com/p"
              (ChecksStr "security") [] res t')
    as (r & sec & Hs & Ht & _ & Hline).
  - change (resolve_checks (ChecksStr "security")) with ["security"%string].
    apply list_elem_of_here.
  - exact Hrun.
  - exists res, t', r, sec. split; [exact Hrun|]. done.
Defined.

End ReportSamples.
